(** * lbrynet daemon: retrieval orchestration core

    A shallow embedding of the parts of [lbrynet/daemon/Daemon.py] that
    coordinate downloads, probe peers, estimate costs and assess stream
    availability, together with the properties proved about them.

    The daemon is Python 2 code written against Twisted.  Values that the
    code handles dynamically (resolve results, decoded JSON, response
    dictionaries) are modelled by [pyval], in which [VObj] is a reference
    to an object without container behaviour and [VDeferred] a reference
    to a Twisted Deferred; exceptions by [exn]; code that
    talks to collaborators by a state-and-exception monad over an abstract
    world whose step functions are the collaborators. *)

From Stdlib Require Import ZArith List String Ascii Bool Lia.
From stdpp Require Import base gmap strings pretty.
Import ListNotations.

Local Open Scope string_scope.
Local Open Scope Z_scope.

(** ** Exceptions *)

(** The exception classes the module names or can observe.  [Exception]
    stands for the base class raised directly (and for any class the module
    does not name); every class below is a subclass of Python's
    [Exception]. *)
Inductive exn_class : Type :=
| UnknownNameError | URIParseError | DecodeError
| DownloadDataTimeout | DownloadSDTimeout | DeferTimeoutError
| KeyError | IndexError | TypeError | AttributeError | ValueError
| Exception.

Record exn : Type := Exn { exn_cls : exn_class; exn_message : string }.

Definition exn_class_eqb (a b : exn_class) : bool :=
  match a, b with
  | UnknownNameError, UnknownNameError | URIParseError, URIParseError
  | DecodeError, DecodeError | DownloadDataTimeout, DownloadDataTimeout
  | DownloadSDTimeout, DownloadSDTimeout | DeferTimeoutError, DeferTimeoutError
  | KeyError, KeyError | IndexError, IndexError | TypeError, TypeError
  | AttributeError, AttributeError | ValueError, ValueError
  | Exception, Exception => true
  | _, _ => false
  end.

(** [isinstance(err, cls)] for an exception object: every class is its own
    instance and an instance of [Exception]. *)
Definition isinstance (e : exn) (c : exn_class) : bool :=
  match c with
  | Exception => true
  | _ => exn_class_eqb (exn_cls e) c
  end.

Inductive outcome (A : Type) : Type :=
| Ok (a : A)
| Raise (e : exn).
Arguments Ok {A} a.
Arguments Raise {A} e.

(** ** Python values *)

Inductive pykey : Type := KStr (s : string) | KInt (n : Z).

#[warnings="-register-all"]
Inductive pyval : Type :=
| VNone
| VBool (b : bool)
| VInt (n : Z)
| VStr (s : string)
| VList (xs : list pyval)
| VTuple (xs : list pyval)
| VDict (items : list (pykey * pyval))
| VErr (e : exn)
| VObj (ref : nat)
| VDeferred (id : nat).

Definition pykey_eqb (a b : pykey) : bool :=
  match a, b with
  | KStr s, KStr t => String.eqb s t
  | KInt n, KInt m => Z.eqb n m
  | _, _ => false
  end.

Definition key_repr (k : pykey) : string :=
  match k with
  | KStr s => "'" +:+ s +:+ "'"
  | KInt n => pretty n
  end.

(** Truth value testing ([if x], [x and y], [any]). *)
Definition truthy (v : pyval) : bool :=
  match v with
  | VNone => false
  | VBool b => b
  | VInt n => negb (Z.eqb n 0)
  | VStr s => negb (String.eqb s "")
  | VList xs | VTuple xs => negb (Nat.eqb (List.length xs) 0)
  | VDict items => negb (Nat.eqb (List.length items) 0)
  | VErr _ | VObj _ | VDeferred _ => true
  end.


Fixpoint dict_lookup (items : list (pykey * pyval)) (k : pykey) : option pyval :=
  match items with
  | [] => None
  | (k', v) :: rest => if pykey_eqb k' k then Some v else dict_lookup rest k
  end.

(** [d[k] = v] on a dictionary: replaces the entry or appends a new one. *)
Fixpoint dict_set (items : list (pykey * pyval)) (k : pykey) (v : pyval)
  : list (pykey * pyval) :=
  match items with
  | [] => [(k, v)]
  | (k', v') :: rest =>
      if pykey_eqb k' k then (k', v) :: rest else (k', v') :: dict_set rest k v
  end.

(** Sequence indexing with Python's negative indices. *)
Definition seq_index {A : Type} (xs : list A) (i : Z) : option A :=
  let n := Z.of_nat (List.length xs) in
  if (0 <=? i) && (i <? n) then nth_error xs (Z.to_nat i)
  else if (- n <=? i) && (i <? 0) then nth_error xs (Z.to_nat (n + i))
  else None.

Definition string_index (s : string) (i : Z) : option string :=
  let n := Z.of_nat (String.length s) in
  let at_ (j : nat) :=
    match String.get j s with
    | Some c => Some (String c EmptyString)
    | None => None
    end in
  if (0 <=? i) && (i <? n) then at_ (Z.to_nat i)
  else if (- n <=? i) && (i <? 0) then at_ (Z.to_nat (n + i))
  else None.

(** [v[k]]. *)
Definition py_getitem (v : pyval) (k : pykey) : outcome pyval :=
  match v with
  | VDict items =>
      match dict_lookup items k with
      | Some x => Ok x
      | None => Raise (Exn KeyError (key_repr k))
      end
  | VList xs =>
      match k with
      | KInt i =>
          match seq_index xs i with
          | Some x => Ok x
          | None => Raise (Exn IndexError "list index out of range")
          end
      | KStr _ => Raise (Exn TypeError "list indices must be integers, not str")
      end
  | VTuple xs =>
      match k with
      | KInt i =>
          match seq_index xs i with
          | Some x => Ok x
          | None => Raise (Exn IndexError "tuple index out of range")
          end
      | KStr _ => Raise (Exn TypeError "tuple indices must be integers, not str")
      end
  | VStr s =>
      match k with
      | KInt i =>
          match string_index s i with
          | Some c => Ok (VStr c)
          | None => Raise (Exn IndexError "string index out of range")
          end
      | KStr _ => Raise (Exn TypeError "string indices must be integers, not str")
      end
  | VErr e =>
      (* Python 2 exceptions index into their argument tuple *)
      match k with
      | KInt i =>
          match seq_index [VStr (exn_message e)] i with
          | Some x => Ok x
          | None => Raise (Exn IndexError "tuple index out of range")
          end
      | KStr _ => Raise (Exn TypeError "tuple indices must be integers, not str")
      end
  | VNone => Raise (Exn TypeError "'NoneType' object has no attribute '__getitem__'")
  | VBool _ => Raise (Exn TypeError "'bool' object has no attribute '__getitem__'")
  | VInt _ => Raise (Exn TypeError "'int' object has no attribute '__getitem__'")
  | VObj _ | VDeferred _ =>
      Raise (Exn TypeError "object has no attribute '__getitem__'")
  end.

(** Equality of a key literal with an element, as [==] decides it. *)
Definition key_equals (k : pykey) (v : pyval) : bool :=
  match k, v with
  | KStr s, VStr t => String.eqb s t
  | KInt n, VInt m => Z.eqb n m
  | KInt n, VBool b => Z.eqb n (if b then 1 else 0)
  | _, _ => false
  end.

(** [k in v]. *)
Definition py_contains (k : pykey) (v : pyval) : outcome bool :=
  match v with
  | VDict items =>
      Ok (match dict_lookup items k with Some _ => true | None => false end)
  | VList xs | VTuple xs => Ok (existsb (key_equals k) xs)
  | VStr s =>
      match k with
      | KStr sub =>
          Ok (match String.index 0 sub s with Some _ => true | None => false end)
      | KInt _ =>
          Raise (Exn TypeError "'in <string>' requires string as left operand, not int")
      end
  | VErr e => Ok (key_equals k (VStr (exn_message e)))
  | VNone => Raise (Exn TypeError "argument of type 'NoneType' is not iterable")
  | VBool _ => Raise (Exn TypeError "argument of type 'bool' is not iterable")
  | VInt _ => Raise (Exn TypeError "argument of type 'int' is not iterable")
  | VObj _ | VDeferred _ => Raise (Exn TypeError "argument is not iterable")
  end.

(** [len(v)]. *)
Definition py_len (v : pyval) : outcome Z :=
  match v with
  | VList xs | VTuple xs => Ok (Z.of_nat (List.length xs))
  | VDict items => Ok (Z.of_nat (List.length items))
  | VStr s => Ok (Z.of_nat (String.length s))
  | VNone => Raise (Exn TypeError "object of type 'NoneType' has no len()")
  | VBool _ => Raise (Exn TypeError "object of type 'bool' has no len()")
  | VInt _ => Raise (Exn TypeError "object of type 'int' has no len()")
  | VErr _ => Raise (Exn TypeError "object of type 'exceptions.Exception' has no len()")
  | VObj _ | VDeferred _ => Raise (Exn TypeError "object has no len()")
  end.

(** ** Traces *)

Inductive loglevel : Type := Info | Warning | Error.

(** What a run leaves behind: calls made to collaborators, in order, and
    log records. *)
Inductive event : Type :=
| Call (callee : string) (args : list pyval)
| Log (level : loglevel) (msg : string).

(** ** The monad *)

Record state (W : Type) : Type := State { world : W; trace : list event }.
Arguments State {W} world trace.
Arguments world {W} s.
Arguments trace {W} s.

Definition M (W A : Type) : Type := state W -> outcome A * state W.

Definition ret {W A} (a : A) : M W A := fun s => (Ok a, s).
Definition raise {W A} (e : exn) : M W A := fun s => (Raise e, s).
Definition bind {W A B} (m : M W A) (f : A -> M W B) : M W B :=
  fun s => match m s with
           | (Ok a, s') => f a s'
           | (Raise e, s') => (Raise e, s')
           end.

(** Runs [m] and hands its outcome, value or exception, to the caller: the
    shape of [try: ... except ...:] and of a Deferred whose errback is
    attached. *)
Definition attempt {W A} (m : M W A) : M W (outcome A) :=
  fun s => match m s with
           | (r, s') => (Ok r, s')
           end.

Definition lift {W A} (r : outcome A) : M W A := fun s => (r, s).

Definition emit {W} (ev : event) : M W unit :=
  fun s => (Ok tt, State (world s) (trace s ++ [ev])).

(** A call to a collaborator: recorded in the trace, answered by the
    world. *)
Definition call {W A} (callee : string) (args : list pyval)
    (f : W -> outcome A * W) : M W A :=
  fun s => match f (world s) with
           | (r, w') => (r, State w' (trace s ++ [Call callee args]))
           end.

Declare Scope daemon_scope.
Delimit Scope daemon_scope with daemon.
Notation "x <- m ;; k" := (bind m (fun x => k))
  (at level 100, m at next level, right associativity) : daemon_scope.
Notation "m ;;; k" := (bind m (fun _ => k))
  (at level 100, right associativity) : daemon_scope.
Local Open Scope daemon_scope.

Definition called (callee : string) (ev : event) : bool :=
  match ev with
  | Call c _ => String.eqb c callee
  | Log _ _ => false
  end.

(** ** Numbers, claims and collaborators *)

(** Costs are Python floats.  The arithmetic the estimator performs is kept
    abstract: [zero] is the literal [0.0], [round5 x] is [round(x, 5)]. *)
Record numeric (num : Type) : Type := Numeric {
  zero : num;
  add : num -> num -> num;
  mul : num -> num -> num;
  div : num -> num -> num;
  of_int : Z -> num;
  round5 : num -> num
}.
Arguments zero {num} _.
Arguments add {num} _ _ _.
Arguments mul {num} _ _ _.
Arguments div {num} _ _ _.
Arguments of_int {num} _ _.
Arguments round5 {num} _ _.

(** A size in bytes as the caller supplies it: an [int] or a [float]. *)
Inductive number (num : Type) : Type :=
| NInt (n : Z)
| NFloat (x : num).
Arguments NInt {num} n.
Arguments NFloat {num} x.

Record Fee (num : Type) : Type := { currency : string; amount : num }.
Arguments currency {num} _.
Arguments amount {num} _.

(** What the daemon reads off a decoded claim ([ClaimDict]). *)
Record ClaimDict (num : Type) : Type := {
  is_stream : bool;
  source_hash : string;
  source_fee : option (Fee num)
}.
Arguments is_stream {num} _.
Arguments source_hash {num} _.
Arguments source_fee {num} _.

(** Opaque references to blobs, stream metadata and the like. *)
Definition handle : Type := nat.

(** The collaborators of the daemon, as steps of the world [W].  A
    collaborator that works asynchronously returns a Deferred, and reports
    its errors through it: its step returns what the Deferred fires with,
    [Raise] for a failure.  A synchronous collaborator's [Raise] is the
    exception it raises.  The per-peer downloads are started one after the
    other and waited for together, so they come in two steps:
    [download_temp_blob_from_peer] returns the Deferred (or raises), and
    [deferred_result] is what that Deferred has fired with once
    [defer.DeferredList] has fired. *)
Record collaborators (W num : Type) : Type := {
  (* settings and session *)
  data_rate : num;
  generous : W -> bool;
  setting : string -> pyval;
  use_upnp : pyval;
  upnp_redirects : W -> list pyval;
  (* wallet, schema, storage *)
  wallet_resolve : string -> W -> outcome pyval * W;
  storage_save_claims : list pyval -> W -> W;
  load_dict : pyval -> outcome (ClaimDict num);
  smart_decode : pyval -> outcome (ClaimDict num);
  convert_currency : string -> string -> num -> W -> outcome num * W;
  (* blobs *)
  completed_blobs : list string -> W -> outcome (list string) * W;
  get_blob : string -> W -> outcome handle * W;
  download_sd_blob : string -> pyval -> W -> outcome handle * W;
  get_metadata_for_sd_blob : handle -> W -> outcome handle * W;
  info_to_show : handle -> W -> outcome (list (string * pyval)) * W;
  int_of : pyval -> outcome Z;
  have_blob : string -> W -> bool;
  download_blob : string -> pyval -> W -> outcome handle * W;
  render_response : forall A : Type, A -> W -> outcome A * W;
  read_json : handle -> W -> outcome pyval * W;
  storage_delete_stream_for : string -> W -> W;
  delete_blobs : list string -> W -> outcome unit * W;
  (* dht and peers *)
  is_valid_blobhash : pyval -> bool;
  iterativeFindValue : pyval -> pyval -> W -> outcome (list (string * pyval * pyval)) * W;
  new_single_peer_downloader : W -> handle * W;
  peer_address : pyval -> pyval -> outcome string;
  download_temp_blob_from_peer :
    handle -> pyval -> pyval -> pyval -> pyval -> W -> outcome nat * W;
  deferred_result : nat -> W -> outcome pyval * W
}.
Arguments data_rate {W num} _.
Arguments generous {W num} _ _.
Arguments setting {W num} _ _.
Arguments use_upnp {W num} _.
Arguments upnp_redirects {W num} _ _.
Arguments wallet_resolve {W num} _ _ _.
Arguments storage_save_claims {W num} _ _ _.
Arguments load_dict {W num} _ _.
Arguments smart_decode {W num} _ _.
Arguments convert_currency {W num} _ _ _ _ _.
Arguments completed_blobs {W num} _ _ _.
Arguments get_blob {W num} _ _ _.
Arguments download_sd_blob {W num} _ _ _ _.
Arguments get_metadata_for_sd_blob {W num} _ _ _.
Arguments info_to_show {W num} _ _ _.
Arguments int_of {W num} _ _.
Arguments have_blob {W num} _ _ _.
Arguments download_blob {W num} _ _ _ _.
Arguments render_response {W num} _ {A} _ _.
Arguments read_json {W num} _ _ _.
Arguments storage_delete_stream_for {W num} _ _ _.
Arguments delete_blobs {W num} _ _ _.
Arguments is_valid_blobhash {W num} _ _.
Arguments iterativeFindValue {W num} _ _ _ _.
Arguments peer_address {W num} _ _ _.
Arguments new_single_peer_downloader {W num} _ _.
Arguments download_temp_blob_from_peer {W num} _ _ _ _ _ _ _.
Arguments deferred_result {W num} _ _ _.

(** The value handed to an errback: Twisted wraps the exception in a
    [Failure]. *)
Inductive errback_arg : Type := Failure (value : exn).

Definition is_Failure (err : errback_arg) : bool :=
  match err with Failure _ => true end.

Definition failure_value (err : errback_arg) : exn :=
  match err with Failure e => e end.

Definition obind {A B} (r : outcome A) (f : A -> outcome B) : outcome B :=
  match r with
  | Ok a => f a
  | Raise e => Raise e
  end.

(** [d.values()]. *)
Definition py_values (v : pyval) : outcome (list pyval) :=
  match v with
  | VDict items => Ok (map snd items)
  | _ => Raise (Exn AttributeError "object has no attribute 'values'")
  end.

(** [name in info and info[name]['value']], as a truth value, together
    with [info[name]]. *)
Definition valued_field (info : pyval) (name : string) : outcome (option pyval) :=
  obind (py_contains (KStr name) info) (fun present =>
  if present then
    obind (py_getitem info (KStr name)) (fun sub =>
    obind (py_getitem sub (KStr "value")) (fun v =>
    Ok (if truthy v then Some sub else None)))
  else Ok None).

Definition option_to_list {A} (o : option A) : list A :=
  match o with Some a => [a] | None => [] end.

(** The loop of [save_claims] over the generator
    [(value for value in results.values() if 'error' not in value)]. *)
Fixpoint claims_to_save (claim_infos to_save : list pyval) : outcome (list pyval) :=
  match claim_infos with
  | [] => Ok to_save
  | info :: rest =>
      obind (py_contains (KStr "error") info) (fun has_error =>
      if has_error then claims_to_save rest to_save
      else
        obind (py_contains (KStr "value") info) (fun has_value =>
        if has_value then
          obind (py_getitem info (KStr "value")) (fun v =>
          claims_to_save rest (if truthy v then to_save ++ [info] else to_save))
        else
          obind (valued_field info "certificate") (fun cert =>
          obind (valued_field info "claim") (fun claim =>
          claims_to_save rest (to_save ++ option_to_list cert ++ option_to_list claim)))))
  end.

(** ** Resolution and cost estimation *)

Section Estimator.
Context {W num : Type} (N : numeric num) (C : collaborators W num).

(** [save_claims] is started and not waited for: whatever goes wrong in
    it stays in its own Deferred. *)
Definition save_claims (claim_infos : list pyval) : M W unit :=
  match claims_to_save claim_infos [] with
  | Ok to_save =>
      fun s => (Ok tt, State (storage_save_claims C to_save (world s))
                             (trace s ++ [Call "storage.save_claims" to_save]))
  | Raise _ => ret tt
  end.

Definition _resolve (uri : string) : M W pyval :=
  results <- call "wallet.resolve" [VStr uri; VInt 0; VInt 10] (wallet_resolve C uri) ;;
  values <- lift (py_values results) ;;
  save_claims values ;;;
  ret results.

Definition _get_or_download_sd_blob (blob : list string) (sd_hash : string) : M W handle :=
  match blob with
  | first :: _ => call "blob_manager.get_blob" [VStr first] (get_blob C first)
  | [] =>
      call "download_sd_blob" [VStr sd_hash; setting C "search_timeout"]
           (download_sd_blob C sd_hash (setting C "search_timeout"))
  end.

Definition get_or_download_sd_blob (sd_hash : string) : M W handle :=
  blob <- call "blob_manager.completed_blobs" [VList [VStr sd_hash]]
               (completed_blobs C [sd_hash]) ;;
  _get_or_download_sd_blob blob sd_hash.

(** [dict(info)] for a list of pairs. *)
Definition dict_of_pairs (info : list (string * pyval)) : list (pykey * pyval) :=
  fold_left (fun d kv => dict_set d (KStr (fst kv)) (snd kv)) info [].

Definition get_size_from_sd_blob (sd_blob : handle) : M W Z :=
  metadata <- call "sd_identifier.get_metadata_for_sd_blob" [VInt (Z.of_nat sd_blob)]
                   (get_metadata_for_sd_blob C sd_blob) ;;
  info <- call "validator.info_to_show" [VInt (Z.of_nat metadata)]
               (info_to_show C metadata) ;;
  size <- lift (py_getitem (VDict (dict_of_pairs info)) (KStr "stream_size")) ;;
  lift (int_of C size).

(** [size / (10 ** 6) * conf.settings['data_rate']]; on an [int] the
    division is Python 2's floor division. *)
Definition _get_est_cost_from_stream_size (size : number num) (w : W) : num :=
  if generous C w then zero N
  else
    match size with
    | NInt n => mul N (of_int N (n / 10 ^ 6)) (data_rate C)
    | NFloat x => mul N (div N x (of_int N (10 ^ 6))) (data_rate C)
    end.

Definition get_est_cost_from_sd_hash (sd_hash : string) : M W num :=
  sd_blob <- get_or_download_sd_blob sd_hash ;;
  size <- get_size_from_sd_blob sd_blob ;;
  fun s => (Ok (_get_est_cost_from_stream_size (NInt size) (world s)), s).

Definition _add_key_fee_to_est_data_cost (fee : option (Fee num)) (data_cost : num)
  : M W num :=
  fee_amount <-
    match fee with
    | None => ret (zero N)
    | Some f =>
        call "exchange_rate_manager.convert_currency" [VStr (currency f); VStr "LBC"]
             (convert_currency C (currency f) "LBC" (amount f))
    end ;;
  ret (add N data_cost fee_amount).

Definition timeout_warning (name : string) : string :=
  "Timeout getting blob for cost est for lbry://" +:+ name +:+ ", using only key fee".

Definition _handle_err (name : string) (err : errback_arg) : M W num :=
  if is_Failure err then
    emit (Log Warning (timeout_warning name)) ;;;
    ret (zero N)
  else raise (failure_value err).

Definition _get_est_cost_from_metadata (metadata : ClaimDict num) (name : string)
  : M W num :=
  d <- attempt (get_est_cost_from_sd_hash (source_hash metadata)) ;;
  data_cost <-
    match d with
    | Ok cost => ret cost
    | Raise e => _handle_err name (Failure e)
    end ;;
  _add_key_fee_to_est_data_cost (source_fee metadata) data_cost.

Definition get_est_cost_using_known_size (uri : string) (size : number num)
  : M W (option num) :=
  cost <- (fun s => (Ok (_get_est_cost_from_stream_size size (world s)), s)) ;;
  resolved <- _resolve uri ;;
  known <- lift (py_contains (KStr uri) resolved) ;;
  has_claim <-
    (if known : bool then
       entry <- lift (py_getitem resolved (KStr uri)) ;;
       lift (py_contains (KStr "claim") entry)
     else ret false) ;;
  if has_claim : bool then
    entry <- lift (py_getitem resolved (KStr uri)) ;;
    claim_info <- lift (py_getitem entry (KStr "claim")) ;;
    value <- lift (py_getitem claim_info (KStr "value")) ;;
    claim <- lift (load_dict C value) ;;
    final_fee <- _add_key_fee_to_est_data_cost (source_fee claim) cost ;;
    result <- call "_render_response" [] (render_response C final_fee) ;;
    ret (Some result)
  else ret None.

Definition is_not_None (v : pyval) : bool :=
  match v with VNone => false | _ => true end.

Definition get_est_cost_from_uri (uri : string) : M W (option num) :=
  results <- _resolve uri ;;
  resolved <- lift (py_getitem results (KStr uri)) ;;
  claim_response <-
    (if truthy resolved then lift (py_getitem resolved (KStr uri)) else ret VNone) ;;
  has_claim <-
    (if truthy claim_response then lift (py_contains (KStr "claim") claim_response)
     else ret false) ;;
  if has_claim : bool then
    claim_info <- lift (py_getitem claim_response (KStr "claim")) ;;
    has_value <- lift (py_contains (KStr "value") claim_info) ;;
    usable <-
      (if has_value : bool then
         v <- lift (py_getitem claim_info (KStr "value")) ;;
         ret (is_not_None v)
       else ret false) ;;
    if usable : bool then
      v <- lift (py_getitem claim_info (KStr "value")) ;;
      claim_value <- lift (load_dict C v) ;;
      cost <- _get_est_cost_from_metadata claim_value uri ;;
      ret (Some (round5 N cost))
    else
      emit (Log Warning ("Failed to estimate cost for " +:+ uri)) ;;;
      ret None
  else ret None.

Definition get_est_cost (uri : string) (size : option (number num)) : M W (option num) :=
  match size with
  | Some sz => get_est_cost_using_known_size uri sz
  | None => get_est_cost_from_uri uri
  end.

End Estimator.

(** ** More of Python's data model *)

(** [x or y]: the first operand when it is truthy, otherwise the second. *)
Definition py_or (x y : pyval) : pyval := if truthy x then x else y.

Definition key_value (k : pykey) : pyval :=
  match k with
  | KStr s => VStr s
  | KInt n => VInt n
  end.

Fixpoint chars (s : string) : list pyval :=
  match s with
  | EmptyString => []
  | String c rest => VStr (String c EmptyString) :: chars rest
  end.

(** The elements a [for x in v] visits. *)
Definition py_iter (v : pyval) : outcome (list pyval) :=
  match v with
  | VList xs | VTuple xs => Ok xs
  | VDict items => Ok (map (fun kv => key_value (fst kv)) items)
  | VStr s => Ok (chars s)
  | VErr e => Ok [VStr (exn_message e)]
  | VNone => Raise (Exn TypeError "'NoneType' object is not iterable")
  | VBool _ => Raise (Exn TypeError "'bool' object is not iterable")
  | VInt _ => Raise (Exn TypeError "'int' object is not iterable")
  | VObj _ | VDeferred _ => Raise (Exn TypeError "object is not iterable")
  end.

Definition hex_digit (n : nat) : ascii :=
  nth n ["0"; "1"; "2"; "3"; "4"; "5"; "6"; "7";
         "8"; "9"; "a"; "b"; "c"; "d"; "e"; "f"]%char "0"%char.

(** [s.encode('hex')]. *)
Fixpoint hex_encode (s : string) : string :=
  match s with
  | EmptyString => EmptyString
  | String c rest =>
      let n := nat_of_ascii c in
      String (hex_digit (n / 16)) (String (hex_digit (n mod 16)) (hex_encode rest))
  end.

Definition dquote : string := String (ascii_of_nat 34) EmptyString.

Definition dict : Type := list (pykey * pyval).

(** [d.get(k)]. *)
Definition dict_get (d : dict) (k : string) : pyval :=
  match dict_lookup d (KStr k) with
  | Some v => v
  | None => VNone
  end.

(** [v.get(k)]. *)
Definition py_get (v : pyval) (k : string) : outcome pyval :=
  match v with
  | VDict d => Ok (dict_get d k)
  | _ => Raise (Exn AttributeError "object has no attribute 'get'")
  end.

(** ** Peer lookup and blob availability *)

Section PeerList.
Context {W num : Type} (C : collaborators W num).

Definition trap_timeout (err : exn) : outcome (list (string * pyval * pyval)) :=
  if isinstance err DeferTimeoutError then Ok [] else Raise err.

Definition contact_dict (peer : string * pyval * pyval) : pyval :=
  let '(node_id, host, port) := peer in
  VDict [(KStr "node_id", VStr (hex_encode node_id));
         (KStr "host", host);
         (KStr "port", port)].

(** The search key is handed to the DHT in binary form; the Deferred it
    returns carries the search timeout, so a search that exceeds it
    fails with [defer.TimeoutError]. *)
Definition jsonrpc_peer_list (blob_hash timeout : pyval) : M W pyval :=
  if negb (is_valid_blobhash C blob_hash) then
    raise (Exn Exception "invalid blob hash")
  else
    let limit := py_or timeout (setting C "peer_search_timeout") in
    found <- attempt (call "dht_node.iterativeFindValue" [blob_hash; limit]
                           (iterativeFindValue C blob_hash limit)) ;;
    peers <- lift (match found with
                   | Ok peers => Ok peers
                   | Raise err => trap_timeout err
                   end) ;;
    ret (VList (map contact_dict peers)).

End PeerList.

Record peer_info : Type := {
  peer_host : pyval;
  peer_port : pyval;
  info_blob_hash : pyval;
  info_timeout : pyval
}.

(** The comprehension building [peer_infos]: one entry, with
    [Peer(x[0], x[1])], for each [x] in [peers] whose [x[2]] is truthy. *)
Fixpoint build_peer_infos (peers : list pyval) (blob_hash blob_timeout : pyval)
  : outcome (list peer_info) :=
  match peers with
  | [] => Ok []
  | x :: rest =>
      obind (py_getitem x (KInt 2)) (fun flag =>
      if truthy flag then
        obind (py_getitem x (KInt 0)) (fun host =>
        obind (py_getitem x (KInt 1)) (fun port =>
        obind (build_peer_infos rest blob_hash blob_timeout) (fun infos =>
        Ok ({| peer_host := host; peer_port := port;
               info_blob_hash := blob_hash; info_timeout := blob_timeout |} :: infos))))
      else build_peer_infos rest blob_hash blob_timeout)
  end.

(** The accumulators of the loop over
    [zip(dl_peers, (yield defer.DeferredList(dl)))]. *)
Record tally : Type := Tally {
  reachable_peers : list string;
  unreachable_peers : list string;
  dl_results : list pyval
}.

Definition classify_step (acc : tally) (item : string * (bool * pyval)) : tally :=
  let '(dl_peer, (success, download_result)) := item in
  if success : bool then
    if truthy download_result then
      Tally (reachable_peers acc ++ [dl_peer]) (unreachable_peers acc)
            (dl_results acc ++ [download_result])
    else
      Tally (reachable_peers acc) (unreachable_peers acc ++ [dl_peer])
            (dl_results acc ++ [download_result])
  else acc.

Definition classify (dl_peers : list string) (results : list (bool * pyval)) : tally :=
  fold_left classify_step (combine dl_peers results) (Tally [] [] []).

Definition report (is_available : bool) (reachable unreachable : list string) : dict :=
  [(KStr "is_available", VBool is_available);
   (KStr "reachable_peers", VList (map VStr reachable));
   (KStr "unreachable_peers", VList (map VStr unreachable))].

Section Prober.
Context {W num : Type} (C : collaborators W num).
(** [self.jsonrpc_peer_list], reached through [self]. *)
Variable peer_list : pyval -> pyval -> M W pyval.

Definition _get_single_peer_downloader : M W handle :=
  fun s => match new_single_peer_downloader C (world s) with
           | (d, w') => (Ok d, State w' (trace s ++ [Call "SinglePeerDownloader" []]))
           end.

(** One [downloader.download_temp_blob_from_peer] call, its keyword
    arguments taken from [peer_info]; it returns a Deferred. *)
Definition download_attempt (downloader : handle) (info : peer_info) : M W nat :=
  call "download_temp_blob_from_peer"
       [peer_host info; peer_port info; info_blob_hash info; info_timeout info]
       (download_temp_blob_from_peer C downloader (peer_host info) (peer_port info)
          (info_blob_hash info) (info_timeout info)).

Fixpoint start_downloads (downloader : handle) (peer_infos : list peer_info)
    (dl : list nat) (dl_peers : list string) : M W (list nat * list string) :=
  match peer_infos with
  | [] => ret (dl, dl_peers)
  | info :: rest =>
      d <- download_attempt downloader info ;;
      address <- lift (peer_address C (peer_host info) (peer_port info)) ;;
      start_downloads downloader rest (dl ++ [d]) (dl_peers ++ [address])
  end.

(** The entry [defer.DeferredList] reports for one Deferred:
    [(True, result)] or [(False, failure)]. *)
Definition list_entry (r : outcome pyval) : bool * pyval :=
  match r with
  | Ok v => (true, v)
  | Raise e => (false, VErr e)
  end.

(** [yield defer.DeferredList(dl)]: fires when every Deferred of [dl] has
    fired, with one entry per Deferred, in the order of [dl]; it has no
    failure of its own. *)
Fixpoint DeferredList (dl : list nat) : M W (list (bool * pyval)) :=
  match dl with
  | [] => ret []
  | d :: rest =>
      entry <- (fun s => match deferred_result C d (world s) with
                         | (r, w') => (Ok (list_entry r), State w' (trace s))
                         end) ;;
      entries <- DeferredList rest ;;
      ret (entry :: entries)
  end.

(** Lines 651-661: the lookup and the start of one download per peer. *)
Definition start_probes (downloader : handle) (blob_hash search_timeout blob_timeout : pyval)
  : M W (list nat * list string) :=
  peers <- peer_list blob_hash search_timeout ;;
  entries <- lift (py_iter peers) ;;
  peer_infos <- lift (build_peer_infos entries blob_hash blob_timeout) ;;
  start_downloads downloader peer_infos [] [].

(** The body of the [try].  Nothing after the lookup and the start of the
    downloads can raise, so the lists are still empty whenever the handler
    runs. *)
Definition probe (downloader : handle) (blob_hash search_timeout blob_timeout : pyval)
  : M W tally :=
  started <- start_probes downloader blob_hash search_timeout blob_timeout ;;
  results <- DeferredList (fst started) ;;
  ret (classify (snd started) results).

Definition failure_note (err : exn) : string :=
  "Failed to get peers for blob: " +:+ exn_message err.

(** The function body up to its last line, with both local dictionaries:
    [result] and [response]. *)
Definition _blob_availability_locals (blob_hash search_timeout blob_timeout : pyval)
    (downloader : option handle) : M W (dict * dict) :=
  downloader <- match downloader with
                | Some d => ret d
                | None => _get_single_peer_downloader
                end ;;
  let search_timeout := py_or search_timeout (setting C "peer_search_timeout") in
  let blob_timeout := py_or blob_timeout (setting C "sd_download_timeout") in
  tried <- attempt (probe downloader blob_hash search_timeout blob_timeout) ;;
  match tried with
  | Ok t =>
      ret ([], report (existsb truthy (dl_results t))
                      (reachable_peers t) (unreachable_peers t))
  | Raise err =>
      ret (dict_set [] (KStr "error") (VStr (failure_note err)), report false [] [])
  end.

(** [defer.returnValue(response)]. *)
Definition _blob_availability_over (blob_hash search_timeout blob_timeout : pyval)
    (downloader : option handle) : M W dict :=
  locals <- _blob_availability_locals blob_hash search_timeout blob_timeout downloader ;;
  ret (snd locals).

End Prober.

(** ** Blob retrieval and stream availability *)

Section BlobApi.
Context {W num : Type} (C : collaborators W num).

Definition _download_blob (blob_hash : string) (timeout : pyval) : M W handle :=
  if String.eqb blob_hash "" then raise (Exn Exception "Nothing to download")
  else
    let timeout := py_or timeout (VInt 30) in
    call "StandaloneBlobDownloader.download" [VStr blob_hash; timeout]
         (download_blob C blob_hash timeout).

Definition jsonrpc_blob_get (blob_hash : string) (timeout : pyval)
    (encoding : option string) : M W pyval :=
  let timeout := py_or timeout (VInt 30) in
  blob <- _download_blob blob_hash timeout ;;
  result <-
    match encoding with
    | Some enc =>
        if String.eqb enc "json" then
          call "json.loads" [VInt (Z.of_nat blob)] (read_json C blob)
        else ret (VStr ("Downloaded blob " +:+ blob_hash))
    | None => ret (VStr ("Downloaded blob " +:+ blob_hash))
    end ;;
  call "_render_response" [result] (render_response C result).

(** The stream record is dropped inside a [try] whose handler is [pass]. *)
Definition forget_stream (blob_hash : string) : M W unit :=
  fun s => (Ok tt, State (storage_delete_stream_for C blob_hash (world s))
                         (trace s ++ [Call "storage.delete_stream" [VStr blob_hash]])).

Definition jsonrpc_blob_delete (blob_hash : string) : M W pyval :=
  known <- (fun s => (Ok (have_blob C blob_hash (world s)), s)) ;;
  if known : bool then
    forget_stream blob_hash ;;;
    call "blob_manager.delete_blobs" [VList [VStr blob_hash]]
         (delete_blobs C [blob_hash]) ;;;
    call "_render_response" [VStr ("Deleted " +:+ blob_hash)]
         (render_response C (VStr ("Deleted " +:+ blob_hash)))
  else
    call "_render_response" [VStr "Don't have that blob"]
         (render_response C (VStr "Don't have that blob")).

End BlobApi.

Definition set_item (d : dict) (k : string) (v : pyval) : dict := dict_set d (KStr k) v.

Definition not_a_stream (uri : string) : string :=
  "Claim for " +:+ dquote +:+ uri +:+ dquote +:+ " does not contain a stream".

Section Checker.
Context {W num : Type} (C : collaborators W num).
Variable peer_list : pyval -> pyval -> M W pyval.

Definition initial_response (w : W) : dict :=
  [(KStr "is_available", VBool false);
   (KStr "did_decode", VBool false);
   (KStr "did_resolve", VBool false);
   (KStr "is_stream", VBool false);
   (KStr "num_blobs_in_stream", VNone);
   (KStr "sd_hash", VNone);
   (KStr "sd_blob_availability", VDict []);
   (KStr "head_blob_hash", VNone);
   (KStr "head_blob_availability", VDict []);
   (KStr "use_upnp", use_upnp C);
   (KStr "upnp_redirect_is_set", VBool (0 <? Z.of_nat (List.length (upnp_redirects C w))));
   (KStr "error", VNone)].

(** What the [try] around the descriptor fetch leaves behind: the
    response as mutated so far, [head_blob_hash], and the exception the
    handler stored, if one was raised. *)
Definition fetch_descriptor (response : dict) (sd_hash : string)
    (search_timeout blob_timeout : pyval) (downloader : handle) (have_sd_blob : bool)
  : M W (dict * pyval) :=
  let caught (response : dict) (head : pyval) (err : exn) : M W (dict * pyval) :=
    ret (set_item response "error" (VErr err), head) in
  got <- attempt (jsonrpc_blob_get C sd_hash blob_timeout (Some "json")) ;;
  match got with
  | Raise err => caught response VNone err
  | Ok sd_blob =>
      deleted <- attempt (if have_sd_blob then ret VNone
                          else jsonrpc_blob_delete C sd_hash) ;;
      match deleted with
      | Raise err => caught response VNone err
      | Ok _ =>
          match (if truthy sd_blob then py_contains (KStr "blobs") sd_blob
                 else Ok false) with
          | Raise err => caught response VNone err
          | Ok false => ret (response, VNone)
          | Ok true =>
              match obind (py_getitem sd_blob (KStr "blobs")) py_len with
              | Raise err => caught response VNone err
              | Ok n =>
                  let response := set_item response "num_blobs_in_stream" (VInt (n - 1)) in
                  match obind (obind (py_getitem sd_blob (KStr "blobs"))
                                     (fun blobs => py_getitem blobs (KInt 0)))
                              (fun first => py_getitem first (KStr "blob_hash")) with
                  | Raise err => caught response VNone err
                  | Ok head_blob_hash =>
                      probed <- attempt (_blob_availability_over C peer_list head_blob_hash
                                           search_timeout blob_timeout (Some downloader)) ;;
                      match probed with
                      | Raise err => caught response head_blob_hash err
                      | Ok head_blob_availability =>
                          ret (set_item response "head_blob_availability"
                                        (VDict head_blob_availability),
                               head_blob_hash)
                      end
                  end
              end
          end
      end
  end.

(** Everything after the claim has been classified as a stream. *)
Definition probe_stream (response : dict) (claim_obj : ClaimDict num)
    (search_timeout blob_timeout : pyval) : M W dict :=
  let sd_hash := source_hash claim_obj in
  let response := set_item response "sd_hash" (VStr sd_hash) in
  downloader <- _get_single_peer_downloader C ;;
  have_sd_blob <- (fun s => (Ok (have_blob C sd_hash (world s)), s)) ;;
  fetched <- fetch_descriptor response sd_hash search_timeout blob_timeout
                              downloader have_sd_blob ;;
  let response := set_item (fst fetched) "head_blob_hash" (snd fetched) in
  sd_blob_availability <- _blob_availability_over C peer_list (VStr sd_hash)
                            search_timeout blob_timeout (Some downloader) ;;
  let response := set_item response "sd_blob_availability" (VDict sd_blob_availability) in
  sd_flag <- lift (py_get (dict_get response "sd_blob_availability") "is_available") ;;
  is_available <-
    (if truthy sd_flag then
       lift (py_get (dict_get response "head_blob_availability") "is_available")
     else ret sd_flag) ;;
  ret (set_item response "is_available" is_available).

(** The body of the first [try]: [(yield self._resolve(uri))[uri]]. *)
Definition resolve_entry (uri : string) : M W pyval :=
  results <- _resolve C uri ;;
  lift (py_getitem results (KStr uri)).

(** The body of the second [try]:
    [smart_decode(resolved_result[uri]['claim']['hex'])]. *)
Definition decode_entry (uri : string) (resolved_result : pyval)
  : outcome (ClaimDict num) :=
  obind (obind (obind (py_getitem resolved_result (KStr uri))
                      (fun entry => py_getitem entry (KStr "claim")))
               (fun claim => py_getitem claim (KStr "hex")))
        (smart_decode C).

Definition jsonrpc_stream_availability_over (uri : string)
    (search_timeout blob_timeout : pyval) : M W dict :=
  let search_timeout := py_or search_timeout (setting C "peer_search_timeout") in
  let blob_timeout := py_or blob_timeout (setting C "sd_download_timeout") in
  response <- (fun s => (Ok (initial_response (world s)), s)) ;;
  resolved <- attempt (resolve_entry uri) ;;
  match resolved with
  | Raise err =>
      if isinstance err UnknownNameError then
        ret (set_item response "error" (VStr "Failed to resolve name"))
      else if isinstance err URIParseError then
        ret (set_item response "error" (VStr "Invalid URI"))
      else raise err
  | Ok resolved_result =>
      let response := set_item response "did_resolve" (VBool true) in
      match decode_entry uri resolved_result with
      | Raise err =>
          if isinstance err DecodeError then
            ret (set_item response "error" (VStr "Failed to decode claim value"))
          else raise err
      | Ok claim_obj =>
          let response := set_item response "did_decode" (VBool true) in
          let response := set_item response "is_stream" (VBool (is_stream claim_obj)) in
          if negb (is_stream claim_obj) then
            ret (set_item response "error" (VStr (not_a_stream uri)))
          else probe_stream response claim_obj search_timeout blob_timeout
      end
  end.

End Checker.

(** ** The daemon's methods as the module binds them *)

Section Daemon.
Context {W num : Type} (C : collaborators W num).

Definition _blob_availability := _blob_availability_over C (jsonrpc_peer_list C).

Definition jsonrpc_blob_availability (blob_hash search_timeout blob_timeout : pyval)
  : M W dict :=
  _blob_availability blob_hash search_timeout blob_timeout None.

Definition jsonrpc_stream_availability :=
  jsonrpc_stream_availability_over C (jsonrpc_peer_list C).

End Daemon.

(** ** Download coordination *)

(** *** Coroutines

    [_download_name] is a generator run by [defer.inlineCallbacks]: it
    runs until it yields, and what happens at a yield is up to the
    reactor.  The generator is embedded once, as a tree of operations;
    two semantics are given to it below. *)

(** Calls answered at once by a collaborator.  One that works
    asynchronously answers with a Deferred. *)
Inductive query : Type -> Type :=
| RandomString : query string
| SendDownloadStarted (download_id name : string) (claim_dict : pyval)
  : query (outcome unit)
| SendDownloadFinished (download_id name : string) (report claim_dict : pyval)
  : query (outcome unit)
| SendDownloadErrored (err : exn) (download_id name : string) (claim_dict report : pyval)
  : query (outcome unit)
| SourceHash (claim_dict : pyval) : query pyval
| StreamHashForSdHash (sd_hash : pyval) : query pyval
| HostDownloadedFrom (sd_hash : pyval) : query pyval
| BlobsForStream (stream_hash : pyval) : query pyval
| NewGetStream (timeout : pyval) : query nat
| StreamStart (stream : nat) (claim_dict : pyval) (name : string)
              (txid nout file_name : pyval) : query pyval
| StreamFinishedDeferred (stream : nat) : query pyval
| StreamDownloader (stream : nat) : query pyval
| StreamCode (stream : nat) : query pyval
| DownloaderStop (downloader : pyval) (err : exn) : query (outcome pyval)
| LbryFileDict (lbry_file : pyval) : query pyval.

Inductive op : Type -> Type :=
| StreamsContains (sd_hash : string) : op bool
| StreamsGet (sd_hash : string) : op (outcome nat)
| StreamsSet (sd_hash : string) (stream : nat) : op unit
| StreamsDel (sd_hash : string) : op (outcome unit)
| Ask {X : Type} (q : query X) : op X
| AddCallbacks (d : pyval) (download_id name : string) (claim_dict : pyval)
  : op (outcome unit)
| Await (v : pyval) : op (outcome pyval)
| Emit (ev : event) : op unit.

Inductive prog (A : Type) : Type :=
| Return (a : A)
| Throw (e : exn)
| Do {X : Type} (o : op X) (k : X -> prog A).
Arguments Return {A} a.
Arguments Throw {A} e.
Arguments Do {A X} o k.

Fixpoint pbind {A B} (p : prog A) (f : A -> prog B) : prog B :=
  match p with
  | Return a => f a
  | Throw e => Throw e
  | Do o k => Do o (fun x => pbind (k x) f)
  end.

(** [try: p  except Exception as err: h err]. *)
Fixpoint pcatch {A} (p : prog A) (h : exn -> prog A) : prog A :=
  match p with
  | Return a => Return a
  | Throw e => h e
  | Do o k => Do o (fun x => pcatch (k x) h)
  end.

(** [try: p  finally: cleanup]; an exception raised by the cleanup
    replaces the outcome of [p]. *)
Fixpoint pfinally {A} (p : prog A) (cleanup : prog unit) : prog A :=
  match p with
  | Return a => pbind cleanup (fun _ => Return a)
  | Throw e => pbind cleanup (fun _ => Throw e)
  | Do o k => Do o (fun x => pfinally (k x) cleanup)
  end.

Definition perform {X} (o : op X) : prog X := Do o Return.
Definition ask {X} (q : query X) : prog X := perform (Ask q).
Definition plift {A} (r : outcome A) : prog A :=
  match r with
  | Ok a => Return a
  | Raise e => Throw e
  end.

(** [yield v]: waits for [v] and evaluates to its result, or raises its
    failure. *)
Definition await (v : pyval) : prog pyval := pbind (perform (Await v)) plift.

Declare Scope prog_scope.
Delimit Scope prog_scope with prog.
Notation "x <- m ;; k" := (pbind m (fun x => k))
  (at level 100, m at next level, right associativity) : prog_scope.
Notation "m ;;; k" := (pbind m (fun _ => k))
  (at level 100, right associativity) : prog_scope.

Section Coroutines.
Local Open Scope prog_scope.

(** [lbry_file, finished_deferred = ...]. *)
Definition unpack2 (v : pyval) : prog (pyval * pyval) :=
  items <- plift (py_iter v) ;;
  match items with
  | [a; b] => Return (a, b)
  | _ => Throw (Exn ValueError "wrong number of values to unpack")
  end.

(** [try: x = yield call  except Exception: x = None]. *)
Definition awaited_or_None (q : query pyval) : prog pyval :=
  pcatch (d <- ask q ;; await d) (fun _ => Return VNone).

Definition _get_stream_analytics_report (claim_dict : pyval) : prog pyval :=
  sd_hash <- ask (SourceHash claim_dict) ;;
  stream_hash <- awaited_or_None (StreamHashForSdHash sd_hash) ;;
  let report := [(KStr "sd_hash", sd_hash); (KStr "stream_hash", stream_hash)] in
  sd_host <- awaited_or_None (HostDownloadedFrom sd_hash) ;;
  let report := set_item report "sd_blob" sd_host in
  if truthy stream_hash then
    d <- ask (BlobsForStream stream_hash) ;;
    blob_infos <- await d ;;
    known <- plift (py_len blob_infos) ;;
    Return (VDict (set_item report "known_blobs" (VInt known)))
  else
    Return (VDict (set_item report "known_blobs" (VInt 0))).

Definition _download_finished (download_id name : string) (claim_dict : pyval)
  : prog pyval :=
  report <- _get_stream_analytics_report claim_dict ;;
  sent <- ask (SendDownloadFinished download_id name report claim_dict) ;;
  plift sent ;;;
  Return VNone.

Definition _download_failed (error : exn) (download_id name : string)
    (claim_dict : pyval) : prog pyval :=
  report <- _get_stream_analytics_report claim_dict ;;
  sent <- ask (SendDownloadErrored error download_id name claim_dict report) ;;
  plift sent ;;;
  Return VNone.

Definition streams_item (sd_hash : string) : prog nat :=
  found <- perform (StreamsGet sd_hash) ;; plift found.

Definition failed_to_get (name : string) (err : exn) : string :=
  "Failed to get " +:+ name +:+ " (" +:+ exn_message err +:+ ")".

(** The [except Exception as err:] block of [_download_name]. *)
Definition on_download_error (sd_hash name download_id : string) (claim_dict : pyval)
    (err : exn) : prog pyval :=
  _download_failed err download_id name claim_dict ;;;
  perform (Emit (Log (if isinstance err DownloadDataTimeout
                         || isinstance err DownloadSDTimeout
                      then Warning else Error)
                     (failed_to_get name err))) ;;;
  stream <- streams_item sd_hash ;;
  downloader <- ask (StreamDownloader stream) ;;
  not_running <-
    (if truthy downloader then
       stream <- streams_item sd_hash ;;
       code <- ask (StreamCode stream) ;;
       Return (negb (key_equals (KStr "running") code))
     else Return false) ;;
  (if not_running : bool then
     stream <- streams_item sd_hash ;;
     downloader <- ask (StreamDownloader stream) ;;
     stopping <- ask (DownloaderStop downloader err) ;;
     d <- plift stopping ;;
     await d
   else Return VNone) ;;;
  Return (VDict [(KStr "error", VStr (exn_message err))]).

Definition _download_name (name : string) (claim_dict : pyval) (sd_hash : string)
    (txid nout timeout file_name : pyval) : prog pyval :=
  registered <- perform (StreamsContains sd_hash) ;;
  if registered : bool then
    downloader <- streams_item sd_hash ;;
    finished_deferred <- ask (StreamFinishedDeferred downloader) ;;
    result <- await finished_deferred ;;
    Return result
  else
    download_id <- ask RandomString ;;
    sent <- ask (SendDownloadStarted download_id name claim_dict) ;;
    plift sent ;;;
    stream <- ask (NewGetStream timeout) ;;
    perform (StreamsSet sd_hash stream) ;;;
    result <-
      pfinally
        (pcatch
           (stream <- streams_item sd_hash ;;
            starting <- ask (StreamStart stream claim_dict name txid nout file_name) ;;
            started <- await starting ;;
            pair <- unpack2 started ;;
            added <- perform (AddCallbacks (snd pair) download_id name claim_dict) ;;
            plift added ;;;
            rendering <- ask (LbryFileDict (fst pair)) ;;
            await rendering)
           (on_download_error sd_hash name download_id claim_dict))
        (deleted <- perform (StreamsDel sd_hash) ;; plift deleted) ;;
    Return result.

End Coroutines.

(** How a query shows in the trace. *)
Definition query_event {X} (q : query X) : event :=
  match q with
  | RandomString => Call "utils.random_string" []
  | SendDownloadStarted id name claim =>
      Call "analytics_manager.send_download_started" [VStr id; VStr name; claim]
  | SendDownloadFinished id name report claim =>
      Call "analytics_manager.send_download_finished" [VStr id; VStr name; report; claim]
  | SendDownloadErrored err id name claim report =>
      Call "analytics_manager.send_download_errored" [VErr err; VStr id; VStr name; claim; report]
  | SourceHash claim => Call "claim_dict.source_hash" [claim]
  | StreamHashForSdHash h => Call "storage.get_stream_hash_for_sd_hash" [h]
  | HostDownloadedFrom h => Call "blob_manager.get_host_downloaded_from" [h]
  | BlobsForStream h => Call "storage.get_blobs_for_stream" [h]
  | NewGetStream timeout => Call "GetStream" [timeout]
  | StreamStart stream claim name txid nout file_name =>
      Call "GetStream.start" [VObj stream; claim; VStr name; txid; nout; file_name]
  | StreamFinishedDeferred stream => Call "GetStream.finished_deferred" [VObj stream]
  | StreamDownloader stream => Call "GetStream.downloader" [VObj stream]
  | StreamCode stream => Call "GetStream.code" [VObj stream]
  | DownloaderStop downloader err => Call "downloader.stop" [downloader; VErr err]
  | LbryFileDict lbry_file => Call "_get_lbry_file_dict" [lbry_file]
  end.

(** The coordinator's surroundings.  [answer] is the collaborators;
    [settle d] is what a run that waits for Deferred [d] finds when it is
    resumed: the Deferred's result, and the registry as the tasks that ran
    in the meantime left it. *)
Record surroundings (W : Type) : Type := {
  answer : forall X : Type, query X -> W -> X * W;
  settle : nat -> W -> gmap string nat -> outcome pyval * W * gmap string nat;
  callbacks_added : pyval -> W -> outcome unit * W
}.
Arguments answer {W} _ {X} _ _.
Arguments settle {W} _ _ _ _.
Arguments callbacks_added {W} _ _ _.

(** *** One call, run to its end *)

Record daemon (W : Type) : Type := Daemon {
  d_world : W;
  streams : gmap string nat;
  d_trace : list event
}.
Arguments Daemon {W} _ _ _.
Arguments d_world {W} _.
Arguments streams {W} _.
Arguments d_trace {W} _.

Section Sequential.
Context {W : Type} (E : surroundings W).

Definition step {X} (o : op X) (s : daemon W) : X * daemon W :=
  match o in op X return X * daemon W with
  | StreamsContains h =>
      (bool_decide (is_Some (streams s !! h)), s)
  | StreamsGet h =>
      (match streams s !! h with
       | Some stream => Ok stream
       | None => Raise (Exn KeyError (key_repr (KStr h)))
       end, s)
  | StreamsSet h stream =>
      (tt, Daemon (d_world s) (<[h := stream]> (streams s)) (d_trace s))
  | StreamsDel h =>
      match streams s !! h with
      | Some _ => (Ok tt, Daemon (d_world s) (delete h (streams s)) (d_trace s))
      | None => (Raise (Exn KeyError (key_repr (KStr h))), s)
      end
  | Ask q =>
      match answer E q (d_world s) with
      | (x, w') => (x, Daemon w' (streams s) (d_trace s ++ [query_event q]))
      end
  | AddCallbacks d _ _ _ =>
      match callbacks_added E d (d_world s) with
      | (r, w') => (r, Daemon w' (streams s) (d_trace s))
      end
  | Await v =>
      match v with
      | VDeferred d =>
          match settle E d (d_world s) (streams s) with
          | (r, w', registry) => (r, Daemon w' registry (d_trace s))
          end
      | _ => (Ok v, s)
      end
  | Emit ev => (tt, Daemon (d_world s) (streams s) (d_trace s ++ [ev]))
  end.

Fixpoint run {A} (p : prog A) (s : daemon W) : outcome A * daemon W :=
  match p with
  | Return a => (Ok a, s)
  | Throw e => (Raise e, s)
  | Do o k => match step o s with
              | (x, s') => run (k x) s'
              end
  end.

End Sequential.

(** *** Several calls, interleaved

    A Deferred holds a result once fired and the callbacks added while it
    had none.  Firing runs the callbacks in order, each receiving what the
    previous one returned.  The callback [inlineCallbacks] adds for a
    waiting generator resumes it with the result and returns [None]. *)

Inductive callback : Type :=
| Resume (task : nat)
| Report (download_id name : string) (claim_dict : pyval).

Record deferred : Type := Deferred {
  fired : option (outcome pyval);
  callbacks : list callback
}.

Inductive task : Type :=
| Waiting (k : outcome pyval -> prog pyval)
| Finished (r : outcome pyval).

Record reactor (W : Type) : Type := Reactor {
  r_daemon : daemon W;
  deferreds : gmap nat deferred;
  tasks : gmap nat task
}.
Arguments Reactor {W} _ _ _.
Arguments r_daemon {W} _.
Arguments deferreds {W} _.
Arguments tasks {W} _.

Definition deferred_at {W} (s : reactor W) (d : nat) : deferred :=
  match deferreds s !! d with
  | Some x => x
  | None => Deferred None []
  end.

Inductive stepped (W X : Type) : Type :=
| Answered (x : X) (s : reactor W)
| Blocked (d : nat) (resume : outcome pyval -> X).
Arguments Answered {W X} x s.
Arguments Blocked {W X} d resume.

Section Concurrent.
Context {W : Type} (E : surroundings W).

(** The callbacks [_download_name] adds to [finished_deferred]: the
    first on a result, the second on a failure.  Their own waits are
    taken to find their Deferreds fired. *)
Definition run_report (download_id name : string) (claim_dict : pyval)
    (current : outcome pyval) (s : reactor W) : outcome pyval * reactor W :=
  let p := match current with
           | Ok _ => _download_finished download_id name claim_dict
           | Raise e => _download_failed e download_id name claim_dict
           end in
  match run E p (r_daemon s) with
  | (r, d') => (r, Reactor d' (deferreds s) (tasks s))
  end.

Definition step_in {X} (t : nat) (o : op X) (s : reactor W) : stepped W X :=
  match o in op X return stepped W X with
  | Await v =>
      match v with
      | VDeferred d =>
          match fired (deferred_at s d) with
          | Some r =>
              Answered r (Reactor (r_daemon s)
                            (<[d := Deferred (Some (Ok VNone)) (callbacks (deferred_at s d))]>
                               (deferreds s))
                            (tasks s))
          | None => Blocked d (fun r => r)
          end
      | _ => Answered (Ok v) s
      end
  | AddCallbacks v download_id name claim_dict =>
      match v with
      | VDeferred d =>
          match fired (deferred_at s d) with
          | Some current =>
              match run_report download_id name claim_dict current s with
              | (r, s') =>
                  Answered (Ok tt)
                    (Reactor (r_daemon s')
                       (<[d := Deferred (Some r) (callbacks (deferred_at s' d))]>
                          (deferreds s'))
                       (tasks s'))
              end
          | None =>
              Answered (Ok tt)
                (Reactor (r_daemon s)
                   (<[d := Deferred None
                             (callbacks (deferred_at s d)
                              ++ [Report download_id name claim_dict])]> (deferreds s))
                   (tasks s))
          end
      | _ => Answered (Raise (Exn AttributeError "object has no attribute 'addCallbacks'")) s
      end
  | o' =>
      (* the registry, the collaborators and the log, as in [step];
         nothing is waited for, so the registry is not disturbed *)
      match step E o' (r_daemon s) with
      | (x, d') => Answered x (Reactor d' (deferreds s) (tasks s))
      end
  end.

(** Runs task [t] until it returns, raises, or waits for a Deferred
    that has not fired. *)
Fixpoint exec (t : nat) (p : prog pyval) (s : reactor W) : reactor W :=
  match p with
  | Return a => Reactor (r_daemon s) (deferreds s) (<[t := Finished (Ok a)]> (tasks s))
  | Throw e => Reactor (r_daemon s) (deferreds s) (<[t := Finished (Raise e)]> (tasks s))
  | Do o k =>
      match step_in t o s with
      | Answered x s' => exec t (k x) s'
      | Blocked d resume =>
          Reactor (r_daemon s)
            (<[d := Deferred None (callbacks (deferred_at s d) ++ [Resume t])]>
               (deferreds s))
            (<[t := Waiting (fun r => k (resume r))]> (tasks s))
      end
  end.

Definition run_callback (cb : callback) (acc : outcome pyval * reactor W)
  : outcome pyval * reactor W :=
  match cb with
  | Resume t =>
      match tasks (snd acc) !! t with
      | Some (Waiting k) => (Ok VNone, exec t (k (fst acc)) (snd acc))
      | _ => (Ok VNone, snd acc)
      end
  | Report download_id name claim_dict =>
      run_report download_id name claim_dict (fst acc) (snd acc)
  end.

(** [d.callback(v)] or [d.errback(e)] from outside the coordinator. *)
Definition fire (d : nat) (r : outcome pyval) (s : reactor W) : reactor W :=
  match fired (deferred_at s d) with
  | Some _ => s
  | None =>
      let waiting := callbacks (deferred_at s d) in
      let s0 := Reactor (r_daemon s) (<[d := Deferred (Some r) []]> (deferreds s))
                        (tasks s) in
      match fold_left (fun acc cb => run_callback cb acc) waiting (r, s0) with
      | (final, s1) =>
          Reactor (r_daemon s1)
            (<[d := Deferred (Some final) (callbacks (deferred_at s1 d))]> (deferreds s1))
            (tasks s1)
      end
  end.

(** A new call of [_download_name], as task [t]. *)
Definition spawn (t : nat) (name : string) (claim_dict : pyval) (sd_hash : string)
    (txid nout timeout file_name : pyval) (s : reactor W) : reactor W :=
  exec t (_download_name name claim_dict sd_hash txid nout timeout file_name) s.

Definition starts_of (stream_trace : list event) : nat :=
  List.length (List.filter (called "GetStream.start") stream_trace).

End Concurrent.

(** ** Scripted worlds

    Concrete collaborators for running the definitions: costs are
    integers, every collaborator follows a fixed script, and the world is
    the number of per-peer downloads started so far, which also numbers
    their Deferreds. *)

Definition integer_costs : numeric Z :=
  Numeric Z 0 Z.add Z.mul Z.div (fun n => n) (fun x => x).

Record script : Type := {
  on_resolve : outcome pyval;
  on_decode : outcome (ClaimDict Z);
  on_sd_download : outcome handle;
  on_blob_download : outcome handle;
  on_read_json : outcome pyval;
  on_convert : outcome Z;
  on_find_value : outcome (list (string * pyval * pyval));
  on_peer_downloads : list (outcome pyval);
  valid_hashes : list string
}.

(** ["%s:%i" % (host, port)] on a string and an integer. *)
Definition host_port (host port : pyval) : outcome string :=
  match host, port with
  | VStr h, VInt p => Ok (h +:+ ":" +:+ pretty p)
  | _, _ => Raise (Exn TypeError "%i format: a number is required")
  end.

Definition scripted (sc : script) : collaborators nat Z := {|
  data_rate := 1;
  generous := fun _ => false;
  setting := fun _ => VInt 3;
  use_upnp := VBool true;
  upnp_redirects := fun _ => [];
  wallet_resolve := fun _ w => (on_resolve sc, w);
  storage_save_claims := fun _ w => w;
  load_dict := fun _ => on_decode sc;
  smart_decode := fun _ => on_decode sc;
  convert_currency := fun _ _ _ w => (on_convert sc, w);
  completed_blobs := fun _ w => (Ok [], w);
  get_blob := fun _ w => (Ok 0%nat, w);
  download_sd_blob := fun _ _ w => (on_sd_download sc, w);
  get_metadata_for_sd_blob := fun _ w => (Ok 0%nat, w);
  info_to_show := fun _ w => (Ok [("stream_size", VInt 3000000)], w);
  int_of := fun v => match v with
                     | VInt n => Ok n
                     | _ => Raise (Exn TypeError "int() argument must be a string or a number")
                     end;
  have_blob := fun _ _ => false;
  download_blob := fun _ _ w => (on_blob_download sc, w);
  render_response := fun _ a w => (Ok a, w);
  read_json := fun _ w => (on_read_json sc, w);
  storage_delete_stream_for := fun _ w => w;
  delete_blobs := fun _ w => (Ok tt, w);
  is_valid_blobhash := fun v => match v with
                                | VStr h => existsb (String.eqb h) (valid_hashes sc)
                                | _ => false
                                end;
  iterativeFindValue := fun _ _ w => (on_find_value sc, w);
  new_single_peer_downloader := fun w => (0%nat, w);
  peer_address := host_port;
  download_temp_blob_from_peer := fun _ _ _ _ _ w => (Ok w, S w);
  deferred_result := fun d w => (nth d (on_peer_downloads sc) (Ok VNone), w)
|}.

Definition start_state : state nat := State 0%nat [].

Definition quiet : script := {|
  on_resolve := Ok (VDict []);
  on_decode := Raise (Exn DecodeError "not a claim");
  on_sd_download := Ok 0%nat;
  on_blob_download := Ok 0%nat;
  on_read_json := Ok VNone;
  on_convert := Ok 0;
  on_find_value := Ok [];
  on_peer_downloads := [];
  valid_hashes := []
|}.

(** A descriptor download that times out, for a claim with a key fee. *)
Definition paid_claim : ClaimDict Z :=
  {| is_stream := true; source_hash := "sd1";
     source_fee := Some {| currency := "USD"; amount := 2 |} |}.

Definition sd_timeout_script : script := {|
  on_resolve := Ok (VDict []);
  on_decode := Ok paid_claim;
  on_sd_download := Raise (Exn DownloadSDTimeout "sd1");
  on_blob_download := Ok 0%nat;
  on_read_json := Ok VNone;
  on_convert := Ok 7;
  on_find_value := Ok [];
  on_peer_downloads := [];
  valid_hashes := []
|}.

(** An answer of the wallet in which the entry for the URI is itself
    keyed by the URI and holds a claim with a value; the descriptor
    download times out. *)
Definition timeout_by_uri_script (uri : string) : script := {|
  on_resolve :=
    Ok (VDict [(KStr uri,
                VDict [(KStr uri,
                        VDict [(KStr "claim",
                                VDict [(KStr "value", VDict [(KStr "version", VStr "_0_0_1")])])])])]);
  on_decode := Ok paid_claim;
  on_sd_download := Raise (Exn DownloadSDTimeout "sd1");
  on_blob_download := Ok 0%nat;
  on_read_json := Ok VNone;
  on_convert := Ok 7;
  on_find_value := Ok [];
  on_peer_downloads := [];
  valid_hashes := []
|}.

(** A name the wallet cannot resolve: the entry for the URI carries an
    error and no claim. *)
Definition unresolved_script (uri : string) : script := {|
  on_resolve := Ok (VDict [(KStr uri, VDict [(KStr "error", VStr "URI not resolvable")])]);
  on_decode := Raise (Exn DecodeError "not a claim");
  on_sd_download := Ok 0%nat;
  on_blob_download := Ok 0%nat;
  on_read_json := Ok VNone;
  on_convert := Ok 0;
  on_find_value := Ok [];
  on_peer_downloads := [];
  valid_hashes := []
|}.

(** A name that resolves to a claim with a value. *)
Definition resolved_script (uri : string) : script := {|
  on_resolve :=
    Ok (VDict [(KStr uri,
                VDict [(KStr "claim",
                        VDict [(KStr "value", VDict [(KStr "version", VStr "_0_0_1")]);
                               (KStr "hex", VStr "080110")])])]);
  on_decode := Ok paid_claim;
  on_sd_download := Ok 0%nat;
  on_blob_download := Ok 0%nat;
  on_read_json := Ok VNone;
  on_convert := Ok 7;
  on_find_value := Ok [];
  on_peer_downloads := [];
  valid_hashes := []
|}.

(** ** Notions used to state the properties of a probe *)

Section Candidates.
Context {W num : Type} (C : collaborators W num).
Variable peer_list : pyval -> pyval -> M W pyval.

(** The downloader a probe uses, and the state in which the lookup
    starts. *)
Definition with_downloader (downloader : option handle) : M W handle :=
  match downloader with
  | Some d => ret d
  | None => _get_single_peer_downloader C
  end.

(** The peers the lookup of one probe returns. *)
Definition looked_up (blob_hash search_timeout : pyval) (downloader : option handle)
    (s : state W) : list pyval :=
  match peer_list blob_hash (py_or search_timeout (setting C "peer_search_timeout"))
                  (snd (with_downloader downloader s)) with
  | (Ok peers, _) =>
      match py_iter peers with
      | Ok entries => entries
      | Raise _ => []
      end
  | (Raise _, _) => []
  end.

End Candidates.

Definition strings_of (v : pyval) : list string :=
  match v with
  | VList xs =>
      flat_map (fun x => match x with VStr s => [s] | _ => [] end) xs
  | _ => []
  end.

(** The peers one probe of the daemon has to go to: the entries of the
    list its [jsonrpc_peer_list] returns. *)
Definition found_peers {W num : Type} (C : collaborators W num)
    (blob_hash search_timeout : pyval) (downloader : option handle) (s : state W)
  : list pyval :=
  looked_up C (jsonrpc_peer_list C) blob_hash search_timeout downloader s.

(** Their addresses, formatted as the probe formats an address. *)
Definition contact_addresses {W num : Type} (C : collaborators W num)
    (peers : list pyval) : list string :=
  flat_map (fun x =>
              match py_getitem x (KStr "host"), py_getitem x (KStr "port") with
              | Ok host, Ok port =>
                  match peer_address C host port with
                  | Ok address => [address]
                  | Raise _ => []
                  end
              | _, _ => []
              end) peers.

(** The DHT knows one peer for blob [b1]; [downloads] are what the
    downloads from peers fire with, in the order they are started. *)
Definition peer_script (downloads : list (outcome pyval)) : script := {|
  on_resolve := Ok (VDict []);
  on_decode := Raise (Exn DecodeError "not a claim");
  on_sd_download := Ok 0%nat;
  on_blob_download := Ok 0%nat;
  on_read_json := Ok VNone;
  on_convert := Ok 0;
  on_find_value := Ok [("n1", VStr "10.0.0.1", VInt 3333)];
  on_peer_downloads := downloads;
  valid_hashes := ["b1"]
|}.


(** A wallet that resolves the URI to a claim, in the shape [resolve]
    answers: the entry for the URI holds the claim, and the claim its
    value and its hex form; the claim decodes as [decoded]. *)
Definition claim_script (uri : string) (decoded : outcome (ClaimDict Z)) : script := {|
  on_resolve :=
    Ok (VDict [(KStr uri,
                VDict [(KStr "claim",
                        VDict [(KStr "value", VDict [(KStr "version", VStr "_0_0_1")]);
                               (KStr "hex", VStr "080110")])])]);
  on_decode := decoded;
  on_sd_download := Ok 0%nat;
  on_blob_download := Ok 0%nat;
  on_read_json := Ok VNone;
  on_convert := Ok 0;
  on_find_value := Ok [];
  on_peer_downloads := [];
  valid_hashes := []
|}.

(** A stream whose descriptor can be fetched and names a head blob; the
    DHT knows a peer for both blobs, and a download from it would fire
    with data. *)
Definition stream_script : script := {|
  on_resolve := Ok (VDict []);
  on_decode := Raise (Exn DecodeError "not a claim");
  on_sd_download := Ok 0%nat;
  on_blob_download := Ok 0%nat;
  on_read_json :=
    Ok (VDict [(KStr "stream_name", VStr "746573742e6d7034");
               (KStr "blobs", VList [VDict [(KStr "blob_hash", VStr "head1");
                                            (KStr "blob_num", VInt 0)];
                                     VDict [(KStr "blob_num", VInt 1)]])]);
  on_convert := Ok 0;
  on_find_value := Ok [("n1", VStr "10.0.0.1", VInt 3333)];
  on_peer_downloads := [Ok (VStr "data"); Ok (VStr "data")];
  valid_hashes := ["sd1"; "head1"]
|}.

Definition channel_claim : ClaimDict Z :=
  {| is_stream := false; source_hash := ""; source_fee := None |}.

Definition free_claim : ClaimDict Z :=
  {| is_stream := true; source_hash := "sd1"; source_fee := None |}.

(** ** Scripted surroundings for the coordinator

    One stream object, Deferred 10 for [start], 20 for the stream's
    [finished_deferred], 30 for the file dictionary, 40 to 42 for the
    analytics report, 50 for [downloader.stop]. *)

Definition scripted_answer (finished_sent : outcome unit) (X : Type) (q : query X)
    (w : unit) : X * unit :=
  match q in query X return X * unit with
  | RandomString => ("download1", w)
  | SendDownloadStarted _ _ _ => (Ok tt, w)
  | SendDownloadFinished _ _ _ _ => (finished_sent, w)
  | SendDownloadErrored _ _ _ _ _ => (Ok tt, w)
  | SourceHash _ => (VStr "sd1", w)
  | StreamHashForSdHash _ => (VDeferred 40, w)
  | HostDownloadedFrom _ => (VDeferred 41, w)
  | BlobsForStream _ => (VDeferred 42, w)
  | NewGetStream _ => (1%nat, w)
  | StreamStart _ _ _ _ _ _ => (VDeferred 10, w)
  | StreamFinishedDeferred _ => (VDeferred 20, w)
  | StreamDownloader _ => (VObj 8, w)
  | StreamCode _ => (VStr "downloading_metadata", w)
  | DownloaderStop _ _ => (Ok (VDeferred 50), w)
  | LbryFileDict _ => (VDeferred 30, w)
  end.

Definition file_dict : pyval :=
  VDict [(KStr "completed", VBool false); (KStr "file_name", VStr "one.mp4");
         (KStr "sd_hash", VStr "sd1")].

(** What each Deferred is found to hold by a run that waits for it;
    other tasks leave the registry as it is. *)
Definition scripted_settle (started : outcome pyval) (d : nat) (w : unit)
    (registry : gmap string nat) : outcome pyval * unit * gmap string nat :=
  (match d with
   | 10%nat => started
   | 20%nat => Ok (VStr "/downloads/one.mp4")
   | 30%nat => Ok file_dict
   | 40%nat => Ok (VStr "stream1")
   | 41%nat => Ok VNone
   | 42%nat => Ok (VList [VStr "blob1"; VStr "blob2"])
   | _ => Ok VNone
   end, w, registry).

Definition scripted_surroundings (started : outcome pyval) (finished_sent : outcome unit)
  : surroundings unit := {|
  answer := scripted_answer finished_sent;
  settle := scripted_settle started;
  callbacks_added := fun d w =>
    (match d with
     | VDeferred _ => Ok tt
     | _ => Raise (Exn AttributeError "object has no attribute 'addCallbacks'")
     end, w)
|}.

Definition started_stream : outcome pyval := Ok (VTuple [VObj 7; VDeferred 20]).

Definition idle : daemon unit := Daemon tt ∅ [].

Definition idle_reactor : reactor unit := Reactor idle ∅ ∅.

(** A call of [_download_name] for the descriptor [sd1]. *)
Definition get_one : prog pyval :=
  _download_name "one" (VObj 3) "sd1" (VStr "txid1") (VInt 0) (VInt 30) VNone.

Definition spawn_one {W : Type} (E : surroundings W) (t : nat) : reactor W -> reactor W :=
  spawn E t "one" (VObj 3) "sd1" (VStr "txid1") (VInt 0) (VInt 30) VNone.

Definition result_of {W : Type} (s : reactor W) (t : nat) : option (outcome pyval) :=
  match tasks s !! t with
  | Some (Finished r) => Some r
  | _ => None
  end.

Definition analytics_down : outcome unit := Raise (Exn Exception "analytics unavailable").

(** Task 1 creates the session and is resumed when [start] fires; tasks 2
    and 3 arrive while it waits for the file dictionary; then the
    stream's [finished_deferred] fires. *)
Definition three_callers (finished_sent : outcome unit) : reactor unit :=
  let E := scripted_surroundings started_stream finished_sent in
  fire E 20 (Ok (VStr "/downloads/one.mp4"))
    (spawn_one E 3
       (spawn_one E 2
          (fire E 10 started_stream
             (spawn_one E 1 idle_reactor)))).

(** Tasks 2 and 3 arrive while task 1 still waits for [start]. *)
Definition early_callers : reactor unit :=
  let E := scripted_surroundings started_stream (Ok tt) in
  fire E 20 (Ok (VStr "/downloads/one.mp4"))
    (spawn_one E 3 (spawn_one E 2 (spawn_one E 1 idle_reactor))).

(** Surroundings in which another task removes the session for [sd1]
    from the registry while the call waits for [start]. *)
Definition meddling_surroundings : surroundings unit := {|
  answer := scripted_answer (Ok tt);
  settle := fun d w registry =>
    match d with
    | 10%nat => (started_stream, w, delete "sd1" registry)
    | _ => scripted_settle started_stream d w registry
    end;
  callbacks_added := fun d w => (Ok tt, w)
|}.

(** Further calls for the same descriptor, as tasks [ts]. *)
Definition spawn_all {W : Type} (E : surroundings W) (name : string) (claim_dict : pyval)
    (sd_hash : string) (txid nout timeout file_name : pyval) (ts : list nat)
    (s : reactor W) : reactor W :=
  fold_left (fun acc t => spawn E t name claim_dict sd_hash txid nout timeout file_name acc)
            ts s.

(** The response once a claim has been resolved, decoded and classified. *)
Definition stream_response {W num : Type} (C : collaborators W num) (w : W)
    (claim_obj : ClaimDict num) : dict :=
  set_item (set_item (set_item (initial_response C w) "did_resolve" (VBool true))
                     "did_decode" (VBool true))
           "is_stream" (VBool (is_stream claim_obj)).
(** * Request handlers

    The JSON-RPC methods and helpers of [Daemon.py] around the core: file
    lookup, listing, sorting and deletion, [get], resolution of several
    URIs, unspent outputs and blob listing.  A method is embedded as its
    body: the decorators [requires] and [deprecated] of
    [AuthJSONRPCServer], which decide whether the body runs, are defined
    outside this file. *)

(** ** Calls counted by the properties of the core *)

(** Calls that look for, fetch or read a stream descriptor. *)
Definition descriptor_call (ev : event) : bool :=
  called "blob_manager.completed_blobs" ev
  || called "blob_manager.get_blob" ev
  || called "download_sd_blob" ev
  || called "sd_identifier.get_metadata_for_sd_blob" ev
  || called "validator.info_to_show" ev.

(** A computation that adds no event satisfying [p] to the trace. *)
Definition silent {W A : Type} (p : event -> bool) (m : M W A) : Prop :=
  forall s, List.filter p (trace (snd (m s))) = List.filter p (trace s).

(** ** Exceptions of the handlers

    The file handlers raise a class the core never meets. *)
Inductive request_exn : Type :=
| Core (e : exn)
| NoValidSearch (msg : string).

Inductive reply (A : Type) : Type :=
| Reply (a : A)
| Fail (e : request_exn).
Arguments Reply {A} a.
Arguments Fail {A} e.

Definition of_outcome {A : Type} (r : outcome A) : reply A :=
  match r with
  | Ok a => Reply a
  | Raise e => Fail (Core e)
  end.

(** ** More of Python's data model *)

Definition exn_eqb (a b : exn) : bool :=
  exn_class_eqb (exn_cls a) (exn_cls b) && String.eqb (exn_message a) (exn_message b).

(** [a == b].  Numbers and booleans compare by value, sequences element by
    element, dictionaries as mappings (their keys are distinct); an object
    without value equality is equal to itself only, which for a reference
    is the same reference and for an exception the same class and
    message. *)
Fixpoint py_eq (a b : pyval) {struct a} : bool :=
  match a with
  | VNone => match b with VNone => true | _ => false end
  | VBool x =>
      match b with
      | VBool y => Bool.eqb x y
      | VInt n => Z.eqb (Z.b2z x) n
      | _ => false
      end
  | VInt n =>
      match b with
      | VInt m => Z.eqb n m
      | VBool y => Z.eqb n (Z.b2z y)
      | _ => false
      end
  | VStr s => match b with VStr t => String.eqb s t | _ => false end
  | VList xs =>
      match b with
      | VList ys =>
          (fix all2 (xs ys : list pyval) {struct xs} : bool :=
             match xs, ys with
             | [], [] => true
             | x :: xs', y :: ys' => py_eq x y && all2 xs' ys'
             | _, _ => false
             end) xs ys
      | _ => false
      end
  | VTuple xs =>
      match b with
      | VTuple ys =>
          (fix all2 (xs ys : list pyval) {struct xs} : bool :=
             match xs, ys with
             | [], [] => true
             | x :: xs', y :: ys' => py_eq x y && all2 xs' ys'
             | _, _ => false
             end) xs ys
      | _ => false
      end
  | VDict items =>
      match b with
      | VDict others =>
          Nat.eqb (List.length items) (List.length others)
          && (fix every (items : list (pykey * pyval)) : bool :=
                match items with
                | [] => true
                | kv :: rest =>
                    match dict_lookup others (fst kv) with
                    | Some v' => py_eq (snd kv) v'
                    | None => false
                    end && every rest
                end) items
      | _ => false
      end
  | VErr e => match b with VErr e' => exn_eqb e e' | _ => false end
  | VObj r => match b with VObj r' => Nat.eqb r r' | _ => false end
  | VDeferred d => match b with VDeferred d' => Nat.eqb d d' | _ => false end
  end.

(** [item in [a, b, ...]]. *)
Definition py_in (item : pyval) (xs : list pyval) : bool := existsb (py_eq item) xs.

(** A value as a dictionary key, where the model has one. *)
Definition as_key (v : pyval) : option pykey :=
  match v with
  | VStr s => Some (KStr s)
  | VInt n => Some (KInt n)
  | VBool b => Some (KInt (Z.b2z b))
  | _ => None
  end.

(** [d.get(k)] for a key given as a value: an unhashable key raises, any
    other key that no dictionary of the model holds is absent. *)
Definition dict_get_value (d : dict) (k : pyval) : outcome pyval :=
  match k with
  | VList _ => Raise (Exn TypeError "unhashable type: 'list'")
  | VDict _ => Raise (Exn TypeError "unhashable type: 'dict'")
  | _ =>
      match as_key k with
      | Some key =>
          match dict_lookup d key with
          | Some v => Ok v
          | None => Ok VNone
          end
      | None => Ok VNone
      end
  end.

(** [del d[k]] on the entries of a dictionary. *)
Fixpoint dict_remove (items : dict) (k : pykey) : dict :=
  match items with
  | [] => []
  | kv :: rest =>
      if pykey_eqb (fst kv) k then dict_remove rest k else kv :: dict_remove rest k
  end.

(** [d.pop(k)]. *)
Definition dict_pop (d : dict) (k : string) : outcome (pyval * dict) :=
  match dict_lookup d (KStr k) with
  | Some v => Ok (v, dict_remove d (KStr k))
  | None => Raise (Exn KeyError (key_repr (KStr k)))
  end.

(** *** Strings *)

(** [s.split(sep)] for a separator of one character. *)
Fixpoint split (sep : ascii) (s : string) : list string :=
  match s with
  | EmptyString => [EmptyString]
  | String c rest =>
      if Ascii.eqb c sep then EmptyString :: split sep rest
      else
        match split sep rest with
        | piece :: pieces => String c piece :: pieces
        | [] => [String c EmptyString]
        end
  end.

(** The characters [str.strip()] removes. *)
Definition is_space (c : ascii) : bool :=
  existsb (Nat.eqb (nat_of_ascii c)) [9; 10; 11; 12; 13; 32]%nat.

Fixpoint lstrip (s : string) : string :=
  match s with
  | EmptyString => EmptyString
  | String c rest => if is_space c then lstrip rest else s
  end.

Fixpoint rstrip (s : string) : string :=
  match s with
  | EmptyString => EmptyString
  | String c rest =>
      match rstrip rest with
      | EmptyString => if is_space c then EmptyString else String c EmptyString
      | kept => String c kept
      end
  end.

Definition strip (s : string) : string := rstrip (lstrip s).

(** [s.replace(old, new)] for a non-empty [old]: [skip] counts the
    characters of an occurrence still to be dropped. *)
Fixpoint replace_from (old new : string) (skip : nat) (s : string) : string :=
  match s with
  | EmptyString => EmptyString
  | String c rest =>
      match skip with
      | S n => replace_from old new n rest
      | O =>
          if String.prefix old s
          then new +:+ replace_from old new (Nat.pred (String.length old)) rest
          else String c (replace_from old new 0 rest)
      end
  end.

Definition str_replace (s old new : string) : string := replace_from old new 0 s.

(** [binascii.b2a_hex]. *)
Definition b2a_hex (v : pyval) : outcome pyval :=
  match v with
  | VStr s => Ok (VStr (hex_encode s))
  | _ => Raise (Exn TypeError "must be string or buffer")
  end.

(** *** Slices *)

(** A slice bound brought into [0 .. n], as [xs[start:stop]] does. *)
Definition clamp (n i : Z) : Z :=
  let j := if i <? 0 then i + n else i in
  if j <? 0 then 0 else if n <? j then n else j.

(** [xs[start:stop]]. *)
Definition py_slice {A : Type} (xs : list A) (start stop : Z) : list A :=
  let n := Z.of_nat (List.length xs) in
  let lo := clamp n start in
  let hi := clamp n stop in
  firstn (Z.to_nat (hi - lo)) (skipn (Z.to_nat lo) xs).

(** *** Sorting *)

(** [sorted(xs, key=..., reverse=...)] on elements paired with their keys.
    The sort is stable and compares keys with [<] only, so for a [<] that
    is a strict weak order on the keys its result is this one: each
    element goes before the first element whose key is not smaller.  With
    [reverse] the list is reversed before and after, which keeps elements
    with equal keys in their original order. *)
Section Sorted.
Context {A : Type} (less_than : pyval -> pyval -> bool).

Fixpoint insert_by_key (x : pyval * A) (sorted : list (pyval * A)) : list (pyval * A) :=
  match sorted with
  | [] => [x]
  | y :: rest =>
      if less_than (fst y) (fst x) then y :: insert_by_key x rest
      else x :: y :: rest
  end.

Definition sort_by_key (keyed : list (pyval * A)) : list (pyval * A) :=
  fold_right insert_by_key [] keyed.

Definition sorted_keyed (keyed : list (pyval * A)) (reverse : bool) : list (pyval * A) :=
  if reverse then rev (sort_by_key (rev keyed)) else sort_by_key keyed.

End Sorted.

(** The keys of a list under a key function that can raise: the first
    failure ends the sort. *)
Fixpoint with_keys {A : Type} (key : A -> outcome pyval) (xs : list A)
  : outcome (list (pyval * A)) :=
  match xs with
  | [] => Ok []
  | x :: rest =>
      obind (key x) (fun k =>
      obind (with_keys key rest) (fun keyed => Ok ((k, x) :: keyed)))
  end.

(** ** The ways a file can be identified *)

(** The attributes of [_FileID], in the order of the class body. *)
Definition _FileID : list (string * pyval) :=
  [("SD_HASH", VStr "sd_hash");
   ("FILE_NAME", VStr "file_name");
   ("STREAM_HASH", VStr "stream_hash");
   ("ROWID", VStr "rowid");
   ("CLAIM_ID", VStr "claim_id");
   ("OUTPOINT", VStr "outpoint");
   ("TXID", VStr "txid");
   ("NOUT", VStr "nout");
   ("CHANNEL_CLAIM_ID", VStr "channel_claim_id");
   ("CLAIM_NAME", VStr "claim_name");
   ("CHANNEL_NAME", VStr "channel_name")].

(** What an instance of a subclass of [IterableContainer] has besides:
    the two methods, and the attributes of every object. *)
Definition inherited_names : list string :=
  ["__iter__"; "__contains__"; "__class__"; "__delattr__"; "__dict__"; "__doc__";
   "__format__"; "__getattribute__"; "__hash__"; "__init__"; "__module__"; "__new__";
   "__reduce__"; "__reduce_ex__"; "__repr__"; "__setattr__"; "__sizeof__"; "__str__";
   "__subclasshook__"; "__weakref__"].

Fixpoint insert_name (name : string) (sorted : list string) : list string :=
  match sorted with
  | [] => [name]
  | other :: rest =>
      if String.ltb other name then other :: insert_name name rest
      else name :: other :: rest
  end.

(** [dir(self)]: the attribute names, sorted. *)
Definition dir (attributes : list (string * pyval)) : list string :=
  fold_right insert_name [] (map fst attributes ++ inherited_names).

Fixpoint class_attribute (attributes : list (string * pyval)) (name : string)
  : option pyval :=
  match attributes with
  | [] => None
  | (n, v) :: rest => if String.eqb n name then Some v else class_attribute rest name
  end.

(** [IterableContainer.__iter__]. *)
Definition IterableContainer_iter (attributes : list (string * pyval)) : list pyval :=
  flat_map (fun attr =>
              if negb (String.prefix "_" attr) then
                option_to_list (class_attribute attributes attr)
              else [])
           (dir attributes).

(** [IterableContainer.__contains__]. *)
Definition IterableContainer_contains (attributes : list (string * pyval))
    (item : pyval) : bool :=
  existsb (fun attr => py_eq item attr) (IterableContainer_iter attributes).

Definition FileID : list pyval := IterableContainer_iter _FileID.

(** The message of [NoValidSearch] and of the other formatted exceptions
    is built by [str.format] or [%]: [format template arguments]. *)
Section SearchValues.
Variable format : string -> list pyval -> string.

(** The loop both search helpers run: the search types of [search_fields]
    with a value that is not [None], in the order of [FileID]. *)
Fixpoint search_values (types : list pyval) (search_fields : dict)
  : outcome (list (pyval * pyval)) :=
  match types with
  | [] => Ok []
  | searchtype :: rest =>
      obind (dict_get_value search_fields searchtype) (fun value =>
      obind (search_values rest search_fields) (fun found =>
      Ok (if is_not_None value then (searchtype, value) :: found else found)))
  end.

Definition iter_lbry_file_search_values (search_fields : dict)
  : outcome (list (pyval * pyval)) :=
  search_values FileID search_fields.

Fixpoint first_search_value (types : list pyval) (search_fields : dict)
  : outcome (option (pyval * pyval)) :=
  match types with
  | [] => Ok None
  | searchtype :: rest =>
      obind (dict_get_value search_fields searchtype) (fun value =>
      if is_not_None value then Ok (Some (searchtype, value))
      else first_search_value rest search_fields)
  end.

Definition get_lbry_file_search_value (search_fields : dict) : reply (pyval * pyval) :=
  match first_search_value FileID search_fields with
  | Ok (Some found) => Reply found
  | Ok None =>
      Fail (NoValidSearch (format "{} is missing a valid search type" [VDict search_fields]))
  | Raise e => Fail (Core e)
  end.

End SearchValues.

(** ** Sorting the file list *)

Definition DIRECTION_ASCENDING : string := "asc".
Definition DIRECTION_DESCENDING : string := "desc".
Definition DIRECTIONS : list string := [DIRECTION_ASCENDING; DIRECTION_DESCENDING].

(** [pieces.pop(0)] is safe: [split] returns at least one piece. *)
Definition _parse_lbry_files_sort (sort : string) : string * string :=
  let pieces := map strip (split "," sort) in
  let field := hd EmptyString pieces in
  let pieces := tl pieces in
  let direction :=
    match pieces with
    | second :: _ =>
        if existsb (String.eqb second) DIRECTIONS then second else DIRECTION_ASCENDING
    | [] => DIRECTION_ASCENDING
    end in
  (field, direction).

Definition key_not_found (field key : string) : string :=
  "Failed to get " +:+ dquote +:+ field +:+ dquote +:+ ", key " +:+ dquote +:+ key
  +:+ dquote +:+ " was not found.".

(** [key_getter] as [create_key_getter(field)] returns it.  Only a
    [KeyError] is turned into the message; what else [value[key]] raises
    passes through. *)
Fixpoint get_along (field : string) (search_path : list string) (value : pyval)
  : outcome pyval :=
  match search_path with
  | [] => Ok value
  | key :: rest =>
      match py_getitem value (KStr key) with
      | Ok inner => get_along field rest inner
      | Raise e =>
          if isinstance e KeyError then Raise (Exn Exception (key_not_found field key))
          else Raise e
      end
  end.

Definition create_key_getter (field : string) (value : pyval) : outcome pyval :=
  get_along field (split "." field) value.

Section SortFiles.
Variable less_than : pyval -> pyval -> bool.

(** [sorted(lbry_files, key=key_getter, reverse=is_reverse)]; with no key
    function the elements are their own keys. *)
Definition sorted (lbry_files : list pyval) (key_getter : option (pyval -> outcome pyval))
    (is_reverse : bool) : outcome (list pyval) :=
  let key := match key_getter with
             | Some getter => getter
             | None => fun v => Ok v
             end in
  obind (with_keys key lbry_files) (fun keyed =>
  Ok (map snd (sorted_keyed less_than keyed is_reverse))).

Fixpoint _sort_lbry_files (lbry_files : list pyval) (sort_by : list (string * string))
  : outcome (list pyval) :=
  match sort_by with
  | [] => Ok lbry_files
  | (field, direction) :: rest =>
      let is_reverse := String.eqb direction DIRECTION_DESCENDING in
      let key_getter := if negb (String.eqb field "") then Some (create_key_getter field)
                        else None in
      obind (sorted lbry_files key_getter is_reverse) (fun lbry_files =>
      _sort_lbry_files lbry_files rest)
  end.

End SortFiles.

(** ** Worlds and notions for the properties of the core *)

(** What [save_claims] may hand to the storage out of [infos]: an entry
    without an error, or its certificate or claim, with a truthy value. *)
Definition storable (infos : list pyval) (x : pyval) : Prop :=
  exists info,
    In info infos
    /\ py_contains (KStr "error") info = Ok false
    /\ (x = info
        \/ py_getitem info (KStr "certificate") = Ok x
        \/ py_getitem info (KStr "claim") = Ok x)
    /\ exists v, py_getitem x (KStr "value") = Ok v /\ truthy v = true.

(** A peer search that runs into its timeout. *)
Definition search_timeout_script : script := {|
  on_resolve := Ok (VDict []);
  on_decode := Raise (Exn DecodeError "not a claim");
  on_sd_download := Ok 0%nat;
  on_blob_download := Ok 0%nat;
  on_read_json := Ok VNone;
  on_convert := Ok 0;
  on_find_value := Raise (Exn DeferTimeoutError "");
  on_peer_downloads := [];
  valid_hashes := ["b1"]
|}.

(** A peer search that finds two peers. *)
Definition two_peers_script : script := {|
  on_resolve := Ok (VDict []);
  on_decode := Raise (Exn DecodeError "not a claim");
  on_sd_download := Ok 0%nat;
  on_blob_download := Ok 0%nat;
  on_read_json := Ok VNone;
  on_convert := Ok 0;
  on_find_value := Ok [("n1", VStr "10.0.0.1", VInt 3333); ("n2", VStr "10.0.0.2", VInt 4444)];
  on_peer_downloads := [];
  valid_hashes := ["b1"]
|}.

(** ** Notions for the properties of the helpers *)

Fixpoint has_char (c : ascii) (s : string) : bool :=
  match s with
  | EmptyString => false
  | String c' rest => Ascii.eqb c' c || has_char c rest
  end.

(** [value[k1][k2]...] is [v]. *)
Fixpoint holds_at (value : pyval) (keys : list string) (v : pyval) : Prop :=
  match keys with
  | [] => value = v
  | key :: rest =>
      exists inner, py_getitem value (KStr key) = Ok inner /\ holds_at inner rest v
  end.

(** The order of the keys of a sorted list: none is smaller than one
    before it, respectively after it. *)
Definition ascending (less_than : pyval -> pyval -> bool) (a b : pyval) : Prop :=
  less_than b a = false.

Definition descending (less_than : pyval -> pyval -> bool) (a b : pyval) : Prop :=
  less_than a b = false.

(** [file]'s key under [key] is neither smaller nor greater than [k]. *)
Definition same_rank (less_than : pyval -> pyval -> bool) (key : pyval -> outcome pyval)
    (k : pyval) (file : pyval) : bool :=
  match key file with
  | Ok k' => negb (less_than k k') && negb (less_than k' k)
  | Raise _ => false
  end.

(** An order for running the sort: integers by value, everything else
    ranked with zero. *)
Definition rank (v : pyval) : Z :=
  match v with
  | VInt n => n
  | _ => 0
  end.

Definition by_rank (a b : pyval) : bool := rank a <? rank b.

Definition three_files : list pyval :=
  [VDict [(KStr "file_name", VStr "b"); (KStr "points_paid", VInt 2)];
   VDict [(KStr "file_name", VStr "a"); (KStr "points_paid", VInt 1)];
   VDict [(KStr "file_name", VStr "c"); (KStr "points_paid", VInt 1)]].

(** Every key stands in [R] to every later key. *)
Fixpoint ordered (R : pyval -> pyval -> Prop) (keys : list pyval) : Prop :=
  match keys with
  | [] => True
  | k :: rest => Forall (R k) rest /\ ordered R rest
  end.

(** ** The handlers' monad

    A handler runs over the daemon: the world of its collaborators, the
    registry [self.streams] and the trace.  It ends in a value or in an
    exception of the handlers. *)

Definition handler (W A : Type) : Type := daemon W -> reply A * daemon W.

Definition hret {W A} (a : A) : handler W A := fun s => (Reply a, s).
Definition hraise {W A} (e : request_exn) : handler W A := fun s => (Fail e, s).
Definition hfail {W A} (e : exn) : handler W A := hraise (Core e).
Definition hbind {W A B} (h : handler W A) (f : A -> handler W B) : handler W B :=
  fun s => match h s with
           | (Reply a, s') => f a s'
           | (Fail e, s') => (Fail e, s')
           end.
Definition hlift {W A} (r : outcome A) : handler W A := fun s => (of_outcome r, s).
Definition hreply {W A} (r : reply A) : handler W A := fun s => (r, s).

Definition hemit {W} (ev : event) : handler W unit :=
  fun s => (Reply tt, Daemon (d_world s) (streams s) (d_trace s ++ [ev])).

(** A call to a collaborator: recorded in the trace, answered by the
    world. *)
Definition hcall {W A} (callee : string) (args : list pyval)
    (f : W -> outcome A * W) : handler W A :=
  fun s => match f (d_world s) with
           | (r, w') => (of_outcome r, Daemon w' (streams s) (d_trace s ++ [Call callee args]))
           end.

(** Something read off the world. *)
Definition hread {W A} (f : W -> outcome A) : handler W A :=
  fun s => (of_outcome (f (d_world s)), s).

(** A computation of the core, run from a handler. *)
Definition of_M {W A} (m : M W A) : handler W A :=
  fun s => match m (State (d_world s) (d_trace s)) with
           | (r, s') => (of_outcome r, Daemon (world s') (streams s) (trace s'))
           end.

(** A coroutine of the core, run to its end from a handler. *)
Definition of_run {W A} (p : daemon W -> outcome A * daemon W) : handler W A :=
  fun s => match p s with
           | (r, s') => (of_outcome r, s')
           end.

Declare Scope handler_scope.
Delimit Scope handler_scope with handler.
Notation "x <- m ;; k" := (hbind m (fun x => k))
  (at level 100, m at next level, right associativity) : handler_scope.
Notation "m ;;; k" := (hbind m (fun _ => k))
  (at level 100, right associativity) : handler_scope.

(** [self.streams] from a handler. *)
Definition streams_contains {W} (sd_hash : string) : handler W bool :=
  fun s => (Reply (bool_decide (is_Some (streams s !! sd_hash))), s).

Definition streams_get {W} (sd_hash : string) : handler W nat :=
  fun s => (match streams s !! sd_hash with
            | Some stream => Reply stream
            | None => Fail (Core (Exn KeyError (key_repr (KStr sd_hash))))
            end, s).

Definition streams_del {W} (sd_hash : string) : handler W unit :=
  fun s => match streams s !! sd_hash with
           | Some _ => (Reply tt, Daemon (d_world s) (delete sd_hash (streams s)) (d_trace s))
           | None => (Fail (Core (Exn KeyError (key_repr (KStr sd_hash)))), s)
           end.

(** ** Files

    A managed file is an object of the file manager: a reference, whose
    attributes are read off the world.  [getattr obj name] is [obj.name],
    the instance dictionary [obj.__dict__] among them.  [meanwhile] is
    what the other tasks have done to [self.streams] when a handler is
    resumed after a [yield]. *)
Record file_services (W : Type) : Type := {
  format : string -> list pyval -> string;
  less_than : pyval -> pyval -> bool;
  getattr : pyval -> string -> W -> outcome pyval;
  lbry_files : W -> list pyval;
  path_join : pyval -> pyval -> outcome pyval;
  guess_type : pyval -> outcome pyval;
  isfile : pyval -> W -> outcome bool;
  written_size : pyval -> W -> outcome pyval;
  get_total_bytes : pyval -> W -> outcome pyval * W;
  status : pyval -> W -> outcome pyval * W;
  start : pyval -> W -> outcome pyval * W;
  toggle_lbry_file_running : pyval -> W -> outcome pyval * W;
  delete_lbry_file : pyval -> pyval -> W -> outcome pyval * W;
  reflect_file : pyval -> pyval -> W -> outcome pyval * W;
  meanwhile : W -> gmap string nat -> gmap string nat
}.
Arguments format {W} _ _ _.
Arguments less_than {W} _ _ _.
Arguments getattr {W} _ _ _ _.
Arguments lbry_files {W} _ _.
Arguments path_join {W} _ _ _.
Arguments guess_type {W} _ _.
Arguments isfile {W} _ _ _.
Arguments written_size {W} _ _ _.
Arguments get_total_bytes {W} _ _ _.
Arguments status {W} _ _ _.
Arguments start {W} _ _ _.
Arguments toggle_lbry_file_running {W} _ _ _.
Arguments delete_lbry_file {W} _ _ _ _.
Arguments reflect_file {W} _ _ _ _.
Arguments meanwhile {W} _ _ _.

(** [v.get(k)] for a key given as a value. *)
Definition py_get_value (v k : pyval) : outcome pyval :=
  match v with
  | VDict d => dict_get_value d k
  | _ => Raise (Exn AttributeError "object has no attribute 'get'")
  end.

(** [v[k]] for a key given as a value. *)
Definition py_getitem_value (v k : pyval) : outcome pyval :=
  match k with
  | VList _ => Raise (Exn TypeError "unhashable type: 'list'")
  | VDict _ => Raise (Exn TypeError "unhashable type: 'dict'")
  | _ =>
      match as_key k with
      | Some key => py_getitem v key
      | None =>
          match v with
          | VDict _ => Raise (Exn KeyError "")
          | _ => py_getitem v (KStr "")
          end
      end
  end.

Section Files.
Context {W num : Type} (C : collaborators W num) (F : file_services W).
Local Open Scope handler_scope.

(** Resumption after a [yield]. *)
Definition resumed : handler W unit :=
  fun s => (Reply tt, Daemon (d_world s) (meanwhile F (d_world s) (streams s)) (d_trace s)).

(** [x = yield h]. *)
Definition yielded {A} (h : handler W A) : handler W A :=
  x <- h ;; resumed ;;; hret x.

Definition attribute (obj : pyval) (name : string) : handler W pyval :=
  hread (getattr F obj name).

Fixpoint read_attributes (obj : pyval) (names : list string) : handler W dict :=
  match names with
  | [] => hret []
  | name :: rest =>
      v <- attribute obj name ;;
      entries <- read_attributes obj rest ;;
      hret ((KStr name, v) :: entries)
  end.

Definition _get_lbry_file_dict (lbry_file full_status : pyval) : handler W pyval :=
  has_key <- attribute lbry_file "key" ;;
  key <- (if truthy has_key then
            k <- attribute lbry_file "key" ;; hlift (b2a_hex k)
          else hret VNone) ;;
  download_directory <- attribute lbry_file "download_directory" ;;
  file_name <- attribute lbry_file "file_name" ;;
  full_path <- hlift (path_join F download_directory file_name) ;;
  mime_type <- hlift (guess_type F full_path) ;;
  on_disk <- hread (isfile F full_path) ;;
  written_bytes <- (if on_disk : bool then hread (written_size F full_path)
                    else hret (VInt 0)) ;;
  progress <-
    (if truthy full_status then
       size <- yielded (hcall "lbry_file.get_total_bytes" [lbry_file]
                              (get_total_bytes F lbry_file)) ;;
       file_status <- yielded (hcall "lbry_file.status" [lbry_file]
                                     (status F lbry_file)) ;;
       num_completed <- attribute file_status "num_completed" ;;
       num_known <- attribute file_status "num_known" ;;
       running_status <- attribute file_status "running_status" ;;
       hret (size, num_completed, num_known, running_status)
     else hret (VNone, VNone, VNone, VNone)) ;;
  let '(size, num_completed, num_known, running_status) := progress in
  first <- read_attributes lbry_file
             ["completed"; "file_name"; "download_directory"; "points_paid"; "stopped";
              "stream_hash"; "stream_name"; "suggested_file_name"; "sd_hash"] ;;
  last <- read_attributes lbry_file
            ["claim_id"; "txid"; "nout"; "outpoint"; "metadata"; "channel_claim_id";
             "channel_name"; "claim_name"] ;;
  hret (VDict (first
               ++ [(KStr "download_path", full_path);
                   (KStr "mime_type", mime_type);
                   (KStr "key", key);
                   (KStr "total_bytes", size);
                   (KStr "written_bytes", written_bytes);
                   (KStr "blobs_completed", num_completed);
                   (KStr "blobs_in_stream", num_known);
                   (KStr "status", running_status)]
               ++ last)).

(** [l_f.__dict__.get(search_by) == val]. *)
Definition found_by (search_by val l_f : pyval) : handler W bool :=
  d <- attribute l_f "__dict__" ;;
  v <- hlift (py_get_value d search_by) ;;
  hret (py_eq v val).

(** The loop of [_get_lbry_file], up to its [break]. *)
Fixpoint first_found (search_by val : pyval) (candidates : list pyval) : handler W pyval :=
  match candidates with
  | [] => hret VNone
  | l_f :: rest =>
      found <- found_by search_by val l_f ;;
      if found : bool then hret l_f else first_found search_by val rest
  end.

Definition _get_lbry_file (search_by val : pyval) (return_json full_status : pyval)
  : handler W pyval :=
  if IterableContainer_contains _FileID search_by then
    candidates <- (fun s => (Reply (lbry_files F (d_world s)), s)) ;;
    lbry_file <- first_found search_by val candidates ;;
    if truthy return_json && truthy lbry_file then
      yielded (_get_lbry_file_dict lbry_file full_status)
    else hret lbry_file
  else
    hraise (NoValidSearch (format F "{} is not a valid search operation" [search_by])).

(** [l_f.__dict__[search_type] == value]. *)
Definition kept_by (search_type value l_f : pyval) : handler W bool :=
  d <- attribute l_f "__dict__" ;;
  v <- hlift (py_getitem_value d search_type) ;;
  hret (py_eq v value).

(** [[l_f for l_f in lbry_files if l_f.__dict__[search_type] == value]]. *)
Fixpoint keep_files (search_type value : pyval) (candidates : list pyval)
  : handler W (list pyval) :=
  match candidates with
  | [] => hret []
  | l_f :: rest =>
      kept <- kept_by search_type value l_f ;;
      others <- keep_files search_type value rest ;;
      hret (if kept : bool then l_f :: others else others)
  end.

Fixpoint narrow (searches : list (pyval * pyval)) (candidates : list pyval)
  : handler W (list pyval) :=
  match searches with
  | [] => hret candidates
  | (search_type, value) :: rest =>
      candidates <- keep_files search_type value candidates ;;
      narrow rest candidates
  end.

Fixpoint file_dicts (candidates : list pyval) (full_status : pyval)
  : handler W (list pyval) :=
  match candidates with
  | [] => hret []
  | lbry_file :: rest =>
      lbry_file_dict <- yielded (_get_lbry_file_dict lbry_file full_status) ;;
      others <- file_dicts rest full_status ;;
      hret (lbry_file_dict :: others)
  end.

(** The debug record the function ends with is not traced. *)
Definition _get_lbry_files (return_json full_status : pyval) (kwargs : dict)
  : handler W (list pyval) :=
  candidates <- (fun s => (Reply (lbry_files F (d_world s)), s)) ;;
  candidates <-
    (if truthy (VDict kwargs) then
       searches <- hlift (iter_lbry_file_search_values kwargs) ;;
       narrow searches candidates
     else hret candidates) ;;
  if truthy return_json then file_dicts candidates full_status
  else hret candidates.

(** [self._get_lbry_files(return_json=..., **kwargs)]: a [full_status]
    among the keyword arguments is the parameter of that name, and a
    [return_json] among them is given twice. *)
Definition _get_lbry_files_with (return_json : pyval) (kwargs : dict)
  : handler W (list pyval) :=
  match dict_lookup kwargs (KStr "return_json") with
  | Some _ =>
      hfail (Exn TypeError
               "_get_lbry_files() got multiple values for keyword argument 'return_json'")
  | None =>
      let full_status := match dict_lookup kwargs (KStr "full_status") with
                         | Some v => v
                         | None => VBool true
                         end in
      _get_lbry_files return_json full_status (dict_remove kwargs (KStr "full_status"))
  end.

(** [[self._parse_lbry_files_sort(s) for s in sort]]. *)
Fixpoint parse_sorts (sorts : list pyval) : outcome (list (string * string)) :=
  match sorts with
  | [] => Ok []
  | VStr s :: rest =>
      obind (parse_sorts rest) (fun parsed => Ok (_parse_lbry_files_sort s :: parsed))
  | _ :: _ => Raise (Exn AttributeError "object has no attribute 'split'")
  end.

Definition jsonrpc_file_list (sort : pyval) (kwargs : dict) : handler W pyval :=
  result <- yielded (_get_lbry_files_with (VBool true) kwargs) ;;
  result <-
    (if truthy sort then
       sorts <- hlift (py_iter sort) ;;
       sort_by <- hlift (parse_sorts sorts) ;;
       hlift (_sort_lbry_files (less_than F) result sort_by)
     else hret result) ;;
  yielded (hcall "_render_response" [VList result] (render_response C (VList result))).

Definition status_must_be : string :=
  "Status must be " +:+ dquote +:+ "start" +:+ dquote +:+ " or " +:+ dquote +:+ "stop"
  +:+ dquote +:+ ".".

Definition jsonrpc_file_set_status (status : pyval) (kwargs : dict) : handler W pyval :=
  if negb (py_in status [VStr "start"; VStr "stop"]) then
    hfail (Exn Exception status_must_be)
  else
    search <- hreply (get_lbry_file_search_value (format F) kwargs) ;;
    let '(search_type, value) := search in
    lbry_file <- yielded (_get_lbry_file search_type value (VBool false) (VBool false)) ;;
    if negb (truthy lbry_file) then
      hfail (Exn Exception (format F "Unable to find a file for {}:{}" [search_type; value]))
    else
      let otherwise : handler W bool :=
        if py_eq status (VStr "stop") then
          stopped <- attribute lbry_file "stopped" ;; hret (negb (truthy stopped))
        else hret false in
      toggles <-
        (if py_eq status (VStr "start") then
           stopped <- attribute lbry_file "stopped" ;;
           if truthy stopped then hret true else otherwise
         else otherwise) ;;
      msg <-
        (if toggles : bool then
           yielded (hcall "file_manager.toggle_lbry_file_running" [lbry_file]
                          (toggle_lbry_file_running F lbry_file)) ;;;
           hret (if py_eq status (VStr "start") then "Started downloading file"
                 else "Stopped downloading file")
         else
           hret (if py_eq status (VStr "start") then "File was already being downloaded"
                 else "File was already stopped")) ;;
      yielded (hcall "_render_response" [VStr msg] (render_response C (VStr msg))).

(** [sd_hash in self.streams] and [del self.streams[sd_hash]] for the
    attribute as read. *)
Definition forget_session (lbry_file : pyval) : handler W unit :=
  sd_hash <- attribute lbry_file "sd_hash" ;;
  match sd_hash with
  | VStr h =>
      waiting <- streams_contains h ;;
      if waiting : bool then
        again <- attribute lbry_file "sd_hash" ;;
        match again with
        | VStr h' => streams_del h'
        | _ => hfail (Exn KeyError "")
        end
      else hret tt
  | VList _ => hfail (Exn TypeError "unhashable type: 'list'")
  | VDict _ => hfail (Exn TypeError "unhashable type: 'dict'")
  | _ => hret tt
  end.

Fixpoint delete_files (lbry_files : list pyval) (delete_from_download_dir : pyval)
  : handler W unit :=
  match lbry_files with
  | [] => hret tt
  | lbry_file :: rest =>
      file_name <- attribute lbry_file "file_name" ;;
      stream_hash <- attribute lbry_file "stream_hash" ;;
      forget_session lbry_file ;;;
      yielded (hcall "file_manager.delete_lbry_file" [lbry_file; delete_from_download_dir]
                     (delete_lbry_file F lbry_file delete_from_download_dir)) ;;;
      hemit (Log Info (format F "Deleted file: %s" [file_name])) ;;;
      delete_files rest delete_from_download_dir
  end.

Definition jsonrpc_file_delete (delete_from_download_dir delete_all : pyval) (kwargs : dict)
  : handler W pyval :=
  lbry_files <- yielded (_get_lbry_files_with (VBool false) kwargs) ;;
  let count := VInt (Z.of_nat (List.length lbry_files)) in
  let several := (1 <? List.length lbry_files)%nat in
  if several && negb (truthy delete_all) then
    hemit (Log Warning
             (format F "There are %i files to delete, use narrower filters to select one"
                     [count])) ;;;
    yielded (hcall "_render_response" [VBool false] (render_response C (VBool false)))
  else
    (if several then hemit (Log Warning (format F "Deleting %i files" [count]))
     else hret tt) ;;;
    result <-
      (match lbry_files with
       | [] =>
           hemit (Log Warning "There is no file to delete") ;;;
           hret false
       | _ :: _ =>
           delete_files lbry_files delete_from_download_dir ;;;
           hret true
       end) ;;
    yielded (hcall "_render_response" [VBool result] (render_response C (VBool result))).

(** [_get_lbry_files] called with the keyword arguments alone: both
    parameters can come from them. *)
Definition _get_lbry_files_from (kwargs : dict) : handler W (list pyval) :=
  let return_json := match dict_lookup kwargs (KStr "return_json") with
                     | Some v => v
                     | None => VBool false
                     end in
  let full_status := match dict_lookup kwargs (KStr "full_status") with
                     | Some v => v
                     | None => VBool true
                     end in
  _get_lbry_files return_json full_status
    (dict_remove (dict_remove kwargs (KStr "return_json")) (KStr "full_status")).

Definition jsonrpc_file_reflect (kwargs : dict) : handler W pyval :=
  let reflector_server := dict_get kwargs "reflector" in
  lbry_files <- yielded (_get_lbry_files_from kwargs) ;;
  match lbry_files with
  | [] => hfail (Exn Exception "No file found")
  | [lbry_file] =>
      yielded (hcall "reupload.reflect_file" [lbry_file; reflector_server]
                     (reflect_file F lbry_file reflector_server))
  | _ :: _ :: _ =>
      hfail (Exn Exception (format F "Too many (%i) files found, need one"
                                   [VInt (Z.of_nat (List.length lbry_files))]))
  end.

End Files.

(** ** Downloading a stream by its URI *)

(** What the handlers read off a parsed URI. *)
Record parsed_uri : Type := {
  uri_name : pyval;
  uri_is_channel : bool;
  uri_path : pyval
}.

(** [parse_lbry_uri]; [claim_object value] is the object
    [ClaimDict.load_dict(value)] returns, as the coordinator passes it
    on; [data_downloading_deferred stream] is what waiting for that
    Deferred of a session gives. *)
Record uri_services (W : Type) : Type := {
  parse_lbry_uri : string -> outcome parsed_uri;
  claim_object : pyval -> pyval;
  data_downloading_deferred : nat -> W -> outcome pyval * W
}.
Arguments parse_lbry_uri {W} _ _.
Arguments claim_object {W} _ _.
Arguments data_downloading_deferred {W} _ _ _.

Definition failed_to_resolve (uri : string) : string :=
  "Failed to resolve stream at lbry://" +:+ str_replace uri "lbry://" "".

Section Get.
Context {W num : Type} (C : collaborators W num) (F : file_services W)
        (U : uri_services W) (E : surroundings W).
Local Open Scope handler_scope.

(** The claim name as the coordinator takes it: the wallet gives a
    string; any other value is passed on as its text. *)
Definition name_text (name : pyval) : string :=
  match name with
  | VStr n => n
  | other => format F "%s" [other]
  end.

(** Lines 1419-1431: the entry of the resolve result to download from. *)
Definition resolved_claim (uri : string) (resolved_result : pyval) : outcome pyval :=
  obind (if truthy resolved_result then py_contains (KStr uri) resolved_result
         else Ok false) (fun known =>
  obind (if known : bool then py_getitem resolved_result (KStr uri) else Ok VNone)
        (fun resolved =>
  obind (if negb (truthy resolved) then Ok true
         else obind (py_contains (KStr "value") resolved) (fun has => Ok (negb has)))
        (fun lacks_value =>
  if lacks_value : bool then
    obind (py_contains (KStr "claim") resolved) (fun has_claim =>
    if negb has_claim then Raise (Exn Exception (failed_to_resolve uri))
    else py_getitem resolved (KStr "claim"))
  else Ok resolved))).

(** Lines 1442-1449: a file the file manager already has. *)
Definition existing_file (lbry_file name : pyval) : handler W pyval :=
  download_directory <- attribute F lbry_file "download_directory" ;;
  file_name <- attribute F lbry_file "file_name" ;;
  full_path <- hlift (path_join F download_directory file_name) ;;
  on_disk <- hread (isfile F full_path) ;;
  (if negb on_disk then
     hemit (Log Info (format F "Already have lbry file but missing file in %s, rebuilding it"
                             [download_directory])) ;;;
     yielded F (hcall "lbry_file.start" [lbry_file] (start F lbry_file)) ;;;
     hret tt
   else hemit (Log Info (format F "Already have a file for %s" [name]))) ;;;
  yielded F (_get_lbry_file_dict F lbry_file (VBool true)).

(** Lines 1436-1454: the stream of a resolved claim, from the session
    that is waiting for it, from the file manager, or downloaded. *)
Definition stream_of_claim (name : pyval) (claim_dict : pyval) (sd_hash : string)
    (txid nout timeout file_name : pyval) : handler W pyval :=
  waiting <- streams_contains sd_hash ;;
  (if waiting : bool then
     hemit (Log Info (format F "Already waiting on lbry://%s to start downloading"
                             [name])) ;;;
     stream <- streams_get sd_hash ;;
     yielded F (hcall "GetStream.data_downloading_deferred" [VObj stream]
                      (data_downloading_deferred U stream)) ;;;
     hret tt
   else hret tt) ;;;
  lbry_file <- yielded F (_get_lbry_file F (VStr "sd_hash") (VStr sd_hash)
                                         (VBool false) (VBool false)) ;;
  result <-
    (if truthy lbry_file then existing_file lbry_file name
     else
       yielded F (of_run (run E (_download_name (name_text name) claim_dict sd_hash
                                                txid nout timeout file_name)))) ;;
  yielded F (hcall "_render_response" [result] (render_response C result)).

Definition jsonrpc_get (uri : string) (file_name timeout : pyval) : handler W pyval :=
  let timeout := if is_not_None timeout then timeout else setting C "download_timeout" in
  parsed <- hlift (parse_lbry_uri U uri) ;;
  if uri_is_channel parsed && negb (truthy (uri_path parsed)) then
    hfail (Exn Exception "cannot download a channel claim, specify a /path")
  else
    resolved_result <- yielded F (of_M (_resolve C uri)) ;;
    resolved <- hlift (resolved_claim uri resolved_result) ;;
    txid <- hlift (py_getitem resolved (KStr "txid")) ;;
    nout <- hlift (py_getitem resolved (KStr "nout")) ;;
    name <- hlift (py_getitem resolved (KStr "name")) ;;
    value <- hlift (py_getitem resolved (KStr "value")) ;;
    claim <- hlift (load_dict C value) ;;
    stream_of_claim name (claim_object U value) (source_hash claim)
                    txid nout timeout file_name.

End Get.

(** ** Resolution of several URIs *)

(** The wallet and the storage as the handlers below use them.
    [resolve uris page page_size] is [wallet.resolve] on any number of
    URIs.  A stream's blobs come from the storage as pairs of a blob hash
    and a length.  [get_blob] returns a Deferred; [gather_results] is what
    [defer.gatherResults] on such Deferreds fires with. *)
Record wallet_services (W : Type) : Type := {
  resolve : list string -> pyval -> pyval -> W -> outcome pyval * W;
  list_unspent : W -> outcome pyval * W;
  get_sd_hash : pyval -> outcome pyval;
  get_stream_hash_for_sd_hash : pyval -> W -> outcome pyval * W;
  get_sd_blob_hash_for_stream : pyval -> W -> outcome pyval * W;
  get_blobs_for_stream : pyval -> bool -> W -> outcome (list (pyval * pyval)) * W;
  blob_manager_get_blob : pyval -> pyval -> W -> outcome nat * W;
  gather_results : list nat -> W -> outcome (list pyval) * W;
  blob_manager_blobs : W -> list (pyval * pyval);
  get_is_verified : pyval -> W -> outcome bool;
  blob_hash_of : pyval -> W -> outcome pyval;
  should_single_announce_blobs : list pyval -> W -> outcome pyval * W
}.
Arguments resolve {W} _ _ _ _ _.
Arguments list_unspent {W} _ _.
Arguments get_sd_hash {W} _ _.
Arguments get_stream_hash_for_sd_hash {W} _ _ _.
Arguments get_sd_blob_hash_for_stream {W} _ _ _.
Arguments get_blobs_for_stream {W} _ _ _ _.
Arguments blob_manager_get_blob {W} _ _ _ _.
Arguments gather_results {W} _ _ _.
Arguments blob_manager_blobs {W} _ _.
Arguments get_is_verified {W} _ _ _.
Arguments blob_hash_of {W} _ _ _.
Arguments should_single_announce_blobs {W} _ _ _.

Definition not_a_valid_uri (u : string) : string := u +:+ " is not a valid uri".

(** [results[k] = resolved[k]] for every [k] the iteration of [resolved]
    gives. *)
Fixpoint copy_entries (resolved : pyval) (keys : list pyval) (results : dict)
  : outcome dict :=
  match keys with
  | [] => Ok results
  | k :: rest =>
      obind (py_getitem_value resolved k) (fun v =>
      match as_key k with
      | Some key => copy_entries resolved rest (dict_set results key v)
      | None => Raise (Exn TypeError "unhashable type")
      end)
  end.

Section Resolve.
Context {W num : Type} (C : collaborators W num) (U : uri_services W)
        (S : wallet_services W).
Variable format : string -> list pyval -> string.

(** [_resolve] on any number of URIs, with a page. *)
Definition _resolve_uris (uris : list string) (page page_size : pyval) : M W pyval :=
  results <- call "wallet.resolve" (map VStr uris ++ [page; page_size])%list
                  (resolve S uris page page_size) ;;
  values <- lift (py_values results) ;;
  save_claims C values ;;;
  ret results.

(** The loop of [jsonrpc_resolve] over the URIs: those that parse, and an
    error entry for each of the others. *)
Fixpoint valid_uris (uris : list string) (results : dict) (valid : list string)
  : outcome (dict * list string) :=
  match uris with
  | [] => Ok (results, valid)
  | u :: rest =>
      match parse_lbry_uri U u with
      | Ok _ => valid_uris rest results (valid ++ [u])%list
      | Raise e =>
          if isinstance e URIParseError then
            valid_uris rest
              (dict_set results (KStr u) (VDict [(KStr "error", VStr (not_a_valid_uri u))]))
              valid
          else Raise e
      end
  end.

Definition jsonrpc_resolve (force : pyval) (uri : option string) (uris : list string)
  : M W pyval :=
  let uris := (uris ++ option_to_list uri)%list in
  checked <- lift (valid_uris uris [] []) ;;
  resolved <- _resolve_uris (snd checked) (VInt 0) (VInt 10) ;;
  keys <- lift (py_iter resolved) ;;
  results <- lift (copy_entries resolved keys (fst checked)) ;;
  call "_render_response" [VDict results] (render_response C (VDict results)).

(** The loop of [jsonrpc_claim_list_by_channel] over the URIs. *)
Fixpoint channel_uris (uris : list string) (results : dict) (valid : list string)
  : outcome (dict * list string) :=
  match uris with
  | [] => Ok (results, valid)
  | chan_uri :: rest =>
      match parse_lbry_uri U chan_uri with
      | Ok parsed =>
          if negb (uri_is_channel parsed) then
            channel_uris rest
              (dict_set results (KStr chan_uri)
                 (VDict [(KStr "error",
                          VStr (format "%s is not a channel uri" [uri_name parsed]))]))
              valid
          else if truthy (uri_path parsed) then
            channel_uris rest
              (dict_set results (KStr chan_uri)
                 (VDict [(KStr "error",
                          VStr (format "%s is a claim in a channel" [uri_path parsed]))]))
              valid
          else channel_uris rest results (valid ++ [chan_uri])%list
      | Raise e =>
          if isinstance e URIParseError then
            channel_uris rest
              (dict_set results (KStr chan_uri)
                 (VDict [(KStr "error", VStr (not_a_valid_uri chan_uri))]))
              valid
          else Raise e
      end
  end.

(** The entry of [results] for one resolved channel. *)
Definition channel_entry (page entry : pyval) : outcome pyval :=
  obind (py_contains (KStr "error") entry) (fun has_error =>
  if has_error : bool then Ok entry
  else
    obind (py_getitem entry (KStr "claims_in_channel")) (fun claims =>
    let result := [(KStr "claims_in_channel", claims)] in
    if truthy page then
      let result := set_item result "returned_page" page in
      obind (match entry with
             | VDict d =>
                 Ok (match dict_lookup d (KStr "claims_in_channel") with
                     | Some listed => listed
                     | None => VList []
                     end)
             | _ => Raise (Exn AttributeError "object has no attribute 'get'")
             end) (fun listed =>
      Ok (VDict (set_item result "claims_in_channel" listed)))
    else Ok (VDict result))).

Fixpoint channel_entries (page resolved : pyval) (keys : list pyval) (results : dict)
  : outcome dict :=
  match keys with
  | [] => Ok results
  | u :: rest =>
      obind (py_getitem_value resolved u) (fun entry =>
      obind (channel_entry page entry) (fun shown =>
      match as_key u with
      | Some key => channel_entries page resolved rest (dict_set results key shown)
      | None => Raise (Exn TypeError "unhashable type")
      end))
  end.

Definition jsonrpc_claim_list_by_channel (page page_size : pyval) (uri : option string)
    (uris : list string) : M W pyval :=
  let uris := (uris ++ option_to_list uri)%list in
  checked <- lift (channel_uris uris [] []) ;;
  resolved <- _resolve_uris (snd checked) page page_size ;;
  keys <- lift (py_iter resolved) ;;
  results <- lift (channel_entries page resolved keys (fst checked)) ;;
  call "_render_response" [VDict results] (render_response C (VDict results)).

(** ** Unspent outputs *)

(** The four renamings of one entry, in the order of the loop body. *)
Definition rename_utxo (utxo : pyval) : outcome pyval :=
  match utxo with
  | VDict d =>
      obind (dict_pop d "prevout_hash") (fun popped =>
      let d := set_item (snd popped) "txid" (fst popped) in
      obind (dict_pop d "prevout_n") (fun popped =>
      let d := set_item (snd popped) "nout" (fst popped) in
      obind (dict_pop d "value") (fun popped =>
      let d := set_item (snd popped) "amount" (fst popped) in
      obind (dict_pop d "coinbase") (fun popped =>
      let d := set_item (snd popped) "is_coinbase" (fst popped) in
      Ok (VDict d)))))
  | _ => Raise (Exn AttributeError "object has no attribute 'pop'")
  end.

Fixpoint rename_utxos (unspent : list pyval) : outcome (list pyval) :=
  match unspent with
  | [] => Ok []
  | utxo :: rest =>
      obind (rename_utxo utxo) (fun renamed =>
      obind (rename_utxos rest) (fun others => Ok (renamed :: others)))
  end.

Definition jsonrpc_utxo_list : M W pyval :=
  unspent <- call "wallet.list_unspent" [] (list_unspent S) ;;
  match unspent with
  | VList entries =>
      renamed <- lift (rename_utxos entries) ;;
      ret (VList renamed)
  | other =>
      entries <- lift (py_iter other) ;;
      match entries with
      | [] => ret other
      | utxo :: _ =>
          lift (rename_utxo utxo) ;;;
          raise (Exn TypeError "object does not support item assignment")
      end
  end.

End Resolve.

(** ** Blobs of a stream *)

(** A page number or size as an integer. *)
Definition as_int (v : pyval) : option Z :=
  match v with
  | VInt n => Some n
  | VBool b => Some (Z.b2z b)
  | _ => None
  end.

(** The last five lines of [jsonrpc_blob_list] before the response.  A
    page or a size that is no integer ends in a [TypeError], at the
    product, at the sum or at the slice. *)
Definition blob_page (blob_hashes : list pyval) (page_size page : pyval)
  : outcome (list pyval) :=
  let page_size := py_or page_size (VInt (Z.of_nat (List.length blob_hashes))) in
  let page := py_or page (VInt 0) in
  match as_int page, as_int page_size with
  | Some p, Some size =>
      let start_index := p * size in
      let stop_index := start_index + size in
      Ok (py_slice blob_hashes start_index stop_index)
  | _, _ => Raise (Exn TypeError "slice indices must be integers or None")
  end.

Section Blobs.
Context {W num : Type} (C : collaborators W num) (S : wallet_services W).

(** [[blob for blob in blobs if blob.get_is_verified()]], or the blobs
    that are not verified. *)
Fixpoint verified_blobs (wanted : bool) (blobs : list pyval) (w : W)
  : outcome (list pyval) :=
  match blobs with
  | [] => Ok []
  | blob :: rest =>
      obind (get_is_verified S blob w) (fun verified =>
      obind (verified_blobs wanted rest w) (fun others =>
      Ok (if Bool.eqb verified wanted then blob :: others else others)))
  end.

(** [[blob.blob_hash for blob in blobs if blob.blob_hash]]. *)
Fixpoint hashes_of (blobs : list pyval) (w : W) : outcome (list pyval) :=
  match blobs with
  | [] => Ok []
  | blob :: rest =>
      obind (blob_hash_of S blob w) (fun h =>
      obind (if truthy h then blob_hash_of S blob w else Ok h) (fun h =>
      obind (hashes_of rest w) (fun others =>
      Ok (if truthy h then h :: others else others))))
  end.

(** The [get_blob] calls of the comprehension, one for each blob of the
    stream with a hash. *)
Fixpoint get_blobs (crypt_blobs : list (pyval * pyval)) : M W (list nat) :=
  match crypt_blobs with
  | [] => ret []
  | (blob_hash, length) :: rest =>
      if is_not_None blob_hash then
        d <- call "blob_manager.get_blob" [blob_hash; length]
                  (blob_manager_get_blob S blob_hash length) ;;
        others <- get_blobs rest ;;
        ret (d :: others)
      else get_blobs rest
  end.

(** [sd_hash in blobs], and [blobs[sd_hash]], for the blob manager's
    dictionary. *)
Definition held_blob (sd_hash : pyval) (w : W) : outcome (option pyval) :=
  match sd_hash with
  | VList _ => Raise (Exn TypeError "unhashable type: 'list'")
  | VDict _ => Raise (Exn TypeError "unhashable type: 'dict'")
  | _ =>
      Ok (match List.find (fun entry => py_eq sd_hash (fst entry)) (blob_manager_blobs S w) with
          | Some entry => Some (snd entry)
          | None => None
          end)
  end.

(** The blobs of the stream named by one of the three arguments, the
    descriptor first when the blob manager holds it. *)
Definition stream_blobs (uri : option string) (stream_hash sd_hash : pyval)
  : M W (list pyval) :=
  hashes <-
    match uri with
    | Some u =>
        if negb (String.eqb u EmptyString) then
          resolved <- _resolve C u ;;
          metadata <- lift (py_getitem resolved (KStr u)) ;;
          sd_hash <- lift (get_sd_hash S metadata) ;;
          stream_hash <- call "storage.get_stream_hash_for_sd_hash" [sd_hash]
                              (get_stream_hash_for_sd_hash S sd_hash) ;;
          ret (stream_hash, sd_hash)
        else if truthy stream_hash then
          sd_hash <- call "storage.get_sd_blob_hash_for_stream" [stream_hash]
                          (get_sd_blob_hash_for_stream S stream_hash) ;;
          ret (stream_hash, sd_hash)
        else if truthy sd_hash then
          stream_hash <- call "storage.get_stream_hash_for_sd_hash" [sd_hash]
                              (get_stream_hash_for_sd_hash S sd_hash) ;;
          sd_hash <- call "storage.get_sd_blob_hash_for_stream" [stream_hash]
                          (get_sd_blob_hash_for_stream S stream_hash) ;;
          ret (stream_hash, sd_hash)
        else ret (stream_hash, sd_hash)
    | None =>
        if truthy stream_hash then
          sd_hash <- call "storage.get_sd_blob_hash_for_stream" [stream_hash]
                          (get_sd_blob_hash_for_stream S stream_hash) ;;
          ret (stream_hash, sd_hash)
        else if truthy sd_hash then
          stream_hash <- call "storage.get_stream_hash_for_sd_hash" [sd_hash]
                              (get_stream_hash_for_sd_hash S sd_hash) ;;
          sd_hash <- call "storage.get_sd_blob_hash_for_stream" [stream_hash]
                          (get_sd_blob_hash_for_stream S stream_hash) ;;
          ret (stream_hash, sd_hash)
        else ret (stream_hash, sd_hash)
    end ;;
  let '(stream_hash, sd_hash) := hashes in
  blobs <-
    (if truthy stream_hash then
       crypt_blobs <- call "storage.get_blobs_for_stream" [stream_hash]
                           (get_blobs_for_stream S stream_hash false) ;;
       deferreds <- get_blobs crypt_blobs ;;
       call "defer.gatherResults" [] (gather_results S deferreds)
     else ret []) ;;
  held <- (fun s => (held_blob sd_hash (world s), s)) ;;
  ret (match held with
       | Some sd_blob => sd_blob :: blobs
       | None => blobs
       end).

Definition named (uri : option string) : bool :=
  match uri with
  | Some u => negb (String.eqb u EmptyString)
  | None => false
  end.

Definition jsonrpc_blob_list (uri : option string) (stream_hash sd_hash : pyval)
    (needed finished page_size page : pyval) : M W pyval :=
  blobs <-
    (if named uri || truthy stream_hash || truthy sd_hash then
       stream_blobs uri stream_hash sd_hash
     else fun s => (Ok (map snd (blob_manager_blobs S (world s))), s)) ;;
  blobs <- (if truthy needed then fun s => (verified_blobs false blobs (world s), s)
            else ret blobs) ;;
  blobs <- (if truthy finished then fun s => (verified_blobs true blobs (world s), s)
            else ret blobs) ;;
  blob_hashes <- (fun s => (hashes_of blobs (world s), s)) ;;
  blob_hashes_for_return <- lift (blob_page blob_hashes page_size page) ;;
  call "_render_response" [VList blob_hashes_for_return]
       (render_response C (VList blob_hashes_for_return)).

(** [blob.blob_hash for blob in blobs if blob.blob_hash is not None]. *)
Definition announced_hashes (blobs : list (pyval * pyval)) : list pyval :=
  List.filter is_not_None (map fst blobs).

Definition jsonrpc_blob_announce (blob_hash stream_hash sd_hash : pyval) : M W pyval :=
  blob_hashes <-
    (if truthy blob_hash then ret [blob_hash]
     else if truthy stream_hash || truthy sd_hash then
       if truthy sd_hash && truthy stream_hash then
         raise (Exn Exception
                  "either the sd hash or the stream hash should be provided, not both")
       else
         stream_hash <-
           (if truthy sd_hash then
              call "storage.get_stream_hash_for_sd_hash" [sd_hash]
                   (get_stream_hash_for_sd_hash S sd_hash)
            else ret stream_hash) ;;
         blobs <- call "storage.get_blobs_for_stream" [stream_hash; VBool true]
                       (get_blobs_for_stream S stream_hash true) ;;
         ret (announced_hashes blobs)
     else raise (Exn Exception "single argument must be specified")) ;;
  call "storage.should_single_announce_blobs" (blob_hashes ++ [VBool true])%list
       (should_single_announce_blobs S blob_hashes) ;;;
  call "_render_response" [VBool true] (render_response C (VBool true)).

End Blobs.

(** ** Notions and worlds for the properties of the handlers *)

(** A handler that adds no event satisfying [p] to the trace. *)
Definition hsilent {W A : Type} (p : event -> bool) (h : handler W A) : Prop :=
  forall s, List.filter p (d_trace (snd (h s))) = List.filter p (d_trace s).

(** [l_f.__dict__[search_type] == value] in world [w], as a truth value:
    false where the dictionary cannot be read. *)
Definition passes {W : Type} (F : file_services W) (w : W) (search : pyval * pyval)
    (l_f : pyval) : bool :=
  match getattr F l_f "__dict__" w with
  | Ok d =>
      match py_getitem_value d (fst search) with
      | Ok v => py_eq v (snd search)
      | Raise _ => false
      end
  | Raise _ => false
  end.

(** [l_f.__dict__.get(search_by) == val] in world [w]. *)
Definition found_in {W : Type} (F : file_services W) (w : W) (search_by val l_f : pyval)
  : bool :=
  match getattr F l_f "__dict__" w with
  | Ok d =>
      match py_get_value d search_by with
      | Ok v => py_eq v val
      | Raise _ => false
      end
  | Raise _ => false
  end.


(** Managed files for running the handlers: objects [VObj r] whose
    attributes are the entries of a dictionary, which is also their
    instance dictionary. *)
Definition scripted_getattr (files : list (nat * dict)) (obj : pyval) (name : string)
    (w : nat) : outcome pyval :=
  match obj with
  | VObj r =>
      match List.find (fun f => Nat.eqb (fst f) r) files with
      | Some f =>
          if String.eqb name "__dict__" then Ok (VDict (snd f))
          else
            match dict_lookup (snd f) (KStr name) with
            | Some v => Ok v
            | None => Raise (Exn AttributeError name)
            end
      | None => Raise (Exn AttributeError name)
      end
  | _ => Raise (Exn AttributeError name)
  end.

(** A format that shows its template only. *)
Definition template_only (template : string) (args : list pyval) : string := template.

(** The status report every scripted file gives. *)
Definition status_report : nat * dict :=
  (99%nat, [(KStr "num_completed", VInt 3); (KStr "num_known", VInt 5);
            (KStr "running_status", VStr "running")]).

Definition scripted_files (files : list (nat * dict)) (on_disk : bool)
  : file_services nat := {|
  format := template_only;
  less_than := by_rank;
  getattr := scripted_getattr (files ++ [status_report])%list;
  lbry_files := fun _ => map (fun f => VObj (fst f)) files;
  path_join := fun a b =>
    match a, b with
    | VStr x, VStr y => Ok (VStr (x +:+ "/" +:+ y))
    | _, _ => Raise (Exn AttributeError "object has no attribute 'endswith'")
    end;
  guess_type := fun _ => Ok VNone;
  isfile := fun _ _ => Ok on_disk;
  written_size := fun _ _ => Ok (VInt 1024);
  get_total_bytes := fun _ w => (Ok (VInt 2048), w);
  status := fun _ w => (Ok (VObj 99), w);
  start := fun _ w => (Ok VNone, w);
  toggle_lbry_file_running := fun _ w => (Ok VNone, w);
  delete_lbry_file := fun _ _ w => (Ok VNone, w);
  reflect_file := fun _ _ w => (Ok VNone, w);
  meanwhile := fun _ registry => registry
|}.

Definition managed_file (name sd_hash : string) (stopped : bool) : dict :=
  [(KStr "completed", VBool false); (KStr "file_name", VStr name);
   (KStr "download_directory", VStr "/downloads"); (KStr "points_paid", VInt 0);
   (KStr "stopped", VBool stopped); (KStr "stream_hash", VStr ("stream-" +:+ sd_hash));
   (KStr "stream_name", VStr name); (KStr "suggested_file_name", VStr name);
   (KStr "sd_hash", VStr sd_hash); (KStr "key", VStr "k");
   (KStr "claim_id", VNone); (KStr "txid", VNone); (KStr "nout", VNone);
   (KStr "outpoint", VNone); (KStr "metadata", VNone); (KStr "channel_claim_id", VNone);
   (KStr "channel_name", VNone); (KStr "claim_name", VStr "one")].

Definition two_files : list (nat * dict) :=
  [(1%nat, managed_file "one.mp4" "sd1" true); (2%nat, managed_file "two.mp4" "sd2" false)].

Definition twins : list (nat * dict) :=
  [(1%nat, managed_file "one.mp4" "sd1" true); (2%nat, managed_file "one.mp4" "sd2" false)].

Definition at_rest : daemon nat := Daemon 0%nat ∅ [].

(** Surroundings of the coordinator over the scripted worlds: one stream
    object, Deferred 10 for [start], 20 for the stream's
    [finished_deferred], 30 for the file dictionary, 40 to 42 for the
    analytics report, 50 for [downloader.stop]. *)
Definition numbered_answer (X : Type) (q : query X) (w : nat) : X * nat :=
  match q in query X return X * nat with
  | RandomString => ("download1", w)
  | SendDownloadStarted _ _ _ => (Ok tt, w)
  | SendDownloadFinished _ _ _ _ => (Ok tt, w)
  | SendDownloadErrored _ _ _ _ _ => (Ok tt, w)
  | SourceHash _ => (VStr "sd1", w)
  | StreamHashForSdHash _ => (VDeferred 40, w)
  | HostDownloadedFrom _ => (VDeferred 41, w)
  | BlobsForStream _ => (VDeferred 42, w)
  | NewGetStream _ => (1%nat, w)
  | StreamStart _ _ _ _ _ _ => (VDeferred 10, w)
  | StreamFinishedDeferred _ => (VDeferred 20, w)
  | StreamDownloader _ => (VObj 8, w)
  | StreamCode _ => (VStr "downloading_metadata", w)
  | DownloaderStop _ _ => (Ok (VDeferred 50), w)
  | LbryFileDict _ => (VDeferred 30, w)
  end.

Definition numbered_surroundings : surroundings nat := {|
  answer := numbered_answer;
  settle := fun d w registry =>
    (match d with
     | 10%nat => Ok (VTuple [VObj 7; VDeferred 20])
     | 20%nat => Ok (VStr "/downloads/one.mp4")
     | 30%nat => Ok (VDict [(KStr "file_name", VStr "one.mp4"); (KStr "sd_hash", VStr "sd1")])
     | 40%nat => Ok (VStr "stream1")
     | 42%nat => Ok (VList [VStr "blob1"; VStr "blob2"])
     | _ => Ok VNone
     end, w, registry);
  callbacks_added := fun d w =>
    (match d with
     | VDeferred _ => Ok tt
     | _ => Raise (Exn AttributeError "object has no attribute 'addCallbacks'")
     end, w)
|}.

(** URIs for running the handlers: a URI with a space does not parse, one
    that starts with [@] names a channel, and what follows a [/] is its
    path. *)
Definition scripted_uris : uri_services nat := {|
  parse_lbry_uri := fun uri =>
    if has_char " " uri then Raise (Exn URIParseError "Invalid URI")
    else
      match split "/" uri with
      | [name] =>
          Ok {| uri_name := VStr name; uri_is_channel := String.prefix "@" uri;
                uri_path := VNone |}
      | name :: path :: _ =>
          Ok {| uri_name := VStr name; uri_is_channel := String.prefix "@" uri;
                uri_path := VStr path |}
      | [] => Raise (Exn URIParseError "Invalid URI")
      end;
  claim_object := fun value => value;
  data_downloading_deferred := fun _ w => (Ok VNone, w)
|}.

(** The call that deletes one file. *)
Definition deletion (delete_from_download_dir lbry_file : pyval) : event :=
  Call "file_manager.delete_lbry_file" [lbry_file; delete_from_download_dir].

(** A daemon with a session waiting for the stream of the first scripted
    file. *)
Definition with_session : daemon nat := Daemon 0%nat {["sd1" := 5%nat]} [].

(** A URI that [parse_lbry_uri] accepts. *)
Definition parses {W : Type} (U : uri_services W) (u : string) : bool :=
  match parse_lbry_uri U u with
  | Ok _ => true
  | Raise _ => false
  end.

(** The entry [jsonrpc_resolve] and [jsonrpc_claim_list_by_channel] give a
    URI that does not parse. *)
Definition not_valid_entry (u : string) : pyval :=
  VDict [(KStr "error", VStr (not_a_valid_uri u))].

(** A wallet and a storage for running the handlers: every URI resolves
    to a claim of its name, a channel to two claims; a stream has two
    blobs and an unfinished third one; the blob manager holds the
    descriptor [sd1] and two more blobs, of which blob 2 is verified. *)
Definition scripted_wallet : wallet_services nat := {|
  resolve := fun uris page page_size w =>
    (Ok (VDict (map (fun u =>
                       (KStr u,
                        if String.prefix "@" u then
                          VDict [(KStr "certificate", VDict [(KStr "name", VStr u)]);
                                 (KStr "claims_in_channel",
                                  VList [VStr "claim1"; VStr "claim2"])]
                        else
                          VDict [(KStr "claim", VDict [(KStr "name", VStr u)])]))
                    uris)), w);
  list_unspent := fun w =>
    (Ok (VList [VDict [(KStr "prevout_hash", VStr "tx1"); (KStr "prevout_n", VInt 0);
                       (KStr "value", VInt 5); (KStr "coinbase", VBool false);
                       (KStr "height", VInt 100)]]), w);
  get_sd_hash := fun metadata => py_getitem metadata (KStr "sd_hash");
  get_stream_hash_for_sd_hash := fun _ w => (Ok (VStr "stream1"), w);
  get_sd_blob_hash_for_stream := fun _ w => (Ok (VStr "sd1"), w);
  get_blobs_for_stream := fun _ _ w =>
    (Ok [(VStr "blob1", VInt 10); (VStr "blob2", VInt 20); (VNone, VInt 0)], w);
  blob_manager_get_blob := fun blob_hash _ w =>
    (Ok (match blob_hash with VStr "blob1" => 1%nat | _ => 2%nat end), w);
  gather_results := fun deferreds w => (Ok (map VObj deferreds), w);
  blob_manager_blobs := fun _ =>
    [(VStr "sd1", VObj 0); (VStr "blob1", VObj 1); (VStr "blob2", VObj 2)];
  get_is_verified := fun blob _ =>
    Ok (match blob with VObj 2 => true | _ => false end);
  blob_hash_of := fun blob _ =>
    Ok (match blob with
        | VObj 0 => VStr "sd1"
        | VObj 1 => VStr "blob1"
        | VObj 2 => VStr "blob2"
        | _ => VNone
        end);
  should_single_announce_blobs := fun _ w => (Ok VNone, w)
|}.

(** The entry [jsonrpc_claim_list_by_channel] gives a URI it does not hand
    to the wallet, if it is one. *)
Definition channel_rejection {W : Type} (U : uri_services W)
    (format : string -> list pyval -> string) (u : string) : option pyval :=
  match parse_lbry_uri U u with
  | Raise _ => Some (not_valid_entry u)
  | Ok parsed =>
      if negb (uri_is_channel parsed) then
        Some (VDict [(KStr "error", VStr (format "%s is not a channel uri" [uri_name parsed]))])
      else if truthy (uri_path parsed) then
        Some (VDict [(KStr "error",
                      VStr (format "%s is a claim in a channel" [uri_path parsed]))])
      else None
  end.

(** A URI of a channel, without a path. *)
Definition names_channel {W : Type} (U : uri_services W) (u : string) : bool :=
  match parse_lbry_uri U u with
  | Ok parsed => uri_is_channel parsed && negb (truthy (uri_path parsed))
  | Raise _ => false
  end.

(** One entry of [utxo_list] against the wallet's entry it was made from:
    the four new keys hold what the four old keys held, the old keys are
    gone, and every other key is as it was. *)
Definition utxo_renamed (d d' : dict) : Prop :=
  (exists v, dict_lookup d (KStr "prevout_hash") = Some v
             /\ dict_lookup d' (KStr "txid") = Some v)
  /\ (exists v, dict_lookup d (KStr "prevout_n") = Some v
                /\ dict_lookup d' (KStr "nout") = Some v)
  /\ (exists v, dict_lookup d (KStr "value") = Some v
                /\ dict_lookup d' (KStr "amount") = Some v)
  /\ (exists v, dict_lookup d (KStr "coinbase") = Some v
                /\ dict_lookup d' (KStr "is_coinbase") = Some v)
  /\ (forall old, In old ["prevout_hash"; "prevout_n"; "value"; "coinbase"] ->
                  dict_lookup d' (KStr old) = None)
  /\ (forall k, ~ In k (map KStr ["prevout_hash"; "prevout_n"; "value"; "coinbase";
                                  "txid"; "nout"; "amount"; "is_coinbase"]) ->
                dict_lookup d' k = dict_lookup d k).

(** * Properties *)

Local Open Scope list_scope.

(** ** Cost estimation *)

Section EstimatorFacts.
Context {W num : Type} (N : numeric num) (C : collaborators W num).

Lemma handle_err_logs_and_zeroes (name : string) (e : exn) (s : state W) :
  _handle_err N name (Failure e) s
  = (Ok (zero N), State (world s) (trace s ++ [Log Warning (timeout_warning name)])).
Proof. reflexivity. Qed.

Lemma metadata_cost_after_failure (metadata : ClaimDict num) (name : string)
    (s s1 : state W) (e : exn) :
  get_est_cost_from_sd_hash N C (source_hash metadata) s = (Raise e, s1) ->
  _get_est_cost_from_metadata N C metadata name s
  = _add_key_fee_to_est_data_cost N C (source_fee metadata) (zero N)
      (State (world s1) (trace s1 ++ [Log Warning (timeout_warning name)])).
Proof.
  intros H. unfold _get_est_cost_from_metadata, bind, attempt.
  rewrite H. cbn. reflexivity.
Qed.

End EstimatorFacts.

(** C7.  When fetching the descriptor blob fails, with a timeout or
    with any other failure, [_get_est_cost_from_metadata] does not pass the
    failure on: it logs the warning, takes [0.0] as the data cost and goes
    on to add the key fee.  Without a fee the estimate is [0.0 + 0.0]; with
    a fee whose conversion yields [a] it is [0.0 + a]. *)
Theorem cost_estimate_degrades_when_descriptor_fails
    {W num : Type} (N : numeric num) (C : collaborators W num)
    (metadata : ClaimDict num) (name : string) (s s1 : state W) (e : exn) :
  get_est_cost_from_sd_hash N C (source_hash metadata) s = (Raise e, s1) ->
  let logged := State (world s1) (trace s1 ++ [Log Warning (timeout_warning name)]) in
  _get_est_cost_from_metadata N C metadata name s
  = _add_key_fee_to_est_data_cost N C (source_fee metadata) (zero N) logged
  /\ (source_fee metadata = None ->
      _get_est_cost_from_metadata N C metadata name s
      = (Ok (add N (zero N) (zero N)), logged))
  /\ (forall f a w',
        source_fee metadata = Some f ->
        convert_currency C (currency f) "LBC" (amount f) (world s1) = (Ok a, w') ->
        fst (_get_est_cost_from_metadata N C metadata name s) = Ok (add N (zero N) a)
        /\ In (Log Warning (timeout_warning name))
              (trace (snd (_get_est_cost_from_metadata N C metadata name s)))).
Proof.
  intros H logged.
  pose proof (metadata_cost_after_failure N C metadata name s s1 e H) as Heq.
  fold logged in Heq.
  split; [exact Heq|]. split.
  - intros Hfee. rewrite Heq. unfold _add_key_fee_to_est_data_cost. rewrite Hfee.
    reflexivity.
  - intros f a w' Hfee Hconv. rewrite Heq.
    unfold _add_key_fee_to_est_data_cost. rewrite Hfee.
    unfold bind, call, ret. cbn. rewrite Hconv. cbn.
    split; [reflexivity|].
    apply in_or_app. left. apply in_or_app. right. left. reflexivity.
Qed.

Lemma cost_estimate_degrades_witness :
  get_est_cost_from_sd_hash integer_costs (scripted sd_timeout_script)
    (source_hash paid_claim) start_state
  = (Raise (Exn DownloadSDTimeout "sd1"),
     State 0%nat [Call "blob_manager.completed_blobs" [VList [VStr "sd1"]];
                  Call "download_sd_blob" [VStr "sd1"; VInt 3]])
  /\ fst (_get_est_cost_from_metadata integer_costs (scripted sd_timeout_script)
            paid_claim "name" start_state) = Ok 7.
Proof.
  split; [reflexivity|].
  refine (proj1 (proj2 (proj2 (cost_estimate_degrades_when_descriptor_fails
            integer_costs (scripted sd_timeout_script) paid_claim "name"
            start_state _ _ _)) _ 7 0%nat eq_refl _)).
  - reflexivity.
  - reflexivity.
Defined.

(** Through [get_est_cost_from_uri], on an answer of the wallet in which
    the function finds a claim value: the descriptor download times out,
    the warning is logged, and the estimate is the rounded key fee. *)
Lemma est_cost_from_uri_survives_descriptor_timeout :
  fst (get_est_cost_from_uri integer_costs (scripted (timeout_by_uri_script "lbry://one"))
         "lbry://one" start_state)
  = Ok (Some 7)
  /\ In (Log Warning "Timeout getting blob for cost est for lbry://lbry://one, using only key fee")
        (trace (snd (get_est_cost_from_uri integer_costs
                       (scripted (timeout_by_uri_script "lbry://one"))
                       "lbry://one" start_state))).
Proof.
  split; [reflexivity|]. vm_compute.
  do 4 right. left. reflexivity.
Qed.

(** The wallet answers [resolve(uri)] with a dictionary keyed by URI.
    [get_est_cost_from_uri] takes the entry for [uri] out of it and then
    indexes that entry by [uri] once more; whenever the entry is a
    non-empty dictionary without such a key the lookup raises. *)
Lemma est_cost_from_uri_indexes_entry_by_uri
    {W num : Type} (N : numeric num) (C : collaborators W num)
    (uri : string) (s s1 : state W) (results : pyval) (items : dict) :
  _resolve C uri s = (Ok results, s1) ->
  py_getitem results (KStr uri) = Ok (VDict items) ->
  items <> [] ->
  dict_lookup items (KStr uri) = None ->
  get_est_cost_from_uri N C uri s = (Raise (Exn KeyError (key_repr (KStr uri))), s1).
Proof.
  intros Hres Hentry Hne Hmiss.
  unfold get_est_cost_from_uri, bind. rewrite Hres. unfold lift at 1. rewrite Hentry.
  destruct items as [|item items]; [congruence|]. cbn [truthy List.length Nat.eqb negb].
  unfold lift, py_getitem. rewrite Hmiss. reflexivity.
Qed.

(** C8.  On a name the wallet reports as not resolvable, the estimate
    by URI raises [KeyError] instead of returning [None], while the
    estimate for a known size returns [None] on the same answer. *)
Theorem est_cost_from_uri_raises_for_unresolved_name :
  fst (get_est_cost_from_uri integer_costs (scripted (unresolved_script "lbry://one"))
         "lbry://one" start_state)
  = Raise (Exn KeyError "'lbry://one'")
  /\ fst (get_est_cost_using_known_size integer_costs
            (scripted (unresolved_script "lbry://one")) "lbry://one" (NInt 5000000)
            start_state)
     = Ok None.
Proof. split; reflexivity. Qed.

(** On a name that resolves to a claim with a value the estimate by URI
    raises the same [KeyError]; the estimate for a known size returns a
    number. *)
Lemma est_cost_from_uri_raises_for_resolved_name :
  fst (get_est_cost_from_uri integer_costs (scripted (resolved_script "lbry://one"))
         "lbry://one" start_state)
  = Raise (Exn KeyError "'lbry://one'")
  /\ fst (get_est_cost_using_known_size integer_costs
            (scripted (resolved_script "lbry://one")) "lbry://one" (NInt 5000000)
            start_state)
     = Ok (Some 12).
Proof. split; reflexivity. Qed.

(** What the estimate by URI does return without raising: [None] when
    the entry for the URI is empty. *)
Lemma est_cost_from_uri_none_on_empty_entry
    {W num : Type} (N : numeric num) (C : collaborators W num)
    (uri : string) (s s1 : state W) (results : pyval) :
  _resolve C uri s = (Ok results, s1) ->
  py_getitem results (KStr uri) = Ok (VDict []) ->
  get_est_cost_from_uri N C uri s = (Ok None, s1).
Proof.
  intros Hres Hentry.
  unfold get_est_cost_from_uri, bind. rewrite Hres. unfold lift at 1. rewrite Hentry.
  reflexivity.
Qed.

(** ** Blob availability *)

Section ProberFacts.
Context {W num : Type} (C : collaborators W num).
Variable peer_list : pyval -> pyval -> M W pyval.

(** [DeferredList] fires with one entry per Deferred; it calls nothing
    and never fails. *)
Lemma DeferredList_ok (dl : list nat) :
  forall s, exists results s',
    DeferredList C dl s = (Ok results, s')
    /\ List.length results = List.length dl
    /\ trace s' = trace s.
Proof.
  induction dl as [|d dl IH]; intros s.
  - exists [], s. repeat split.
  - cbn [DeferredList]. unfold bind.
    destruct (deferred_result C d (world s)) as [r w'].
    destruct (IH (State w' (trace s))) as [results [s' [Hrun [Hlen Htrace]]]].
    rewrite Hrun. exists (list_entry r :: results), s'.
    repeat split; [cbn; lia|exact Htrace].
Qed.

Lemma with_downloader_ok (downloader : option handle) (s : state W) :
  exists d, with_downloader C downloader s = (Ok d, snd (with_downloader C downloader s)).
Proof.
  destruct downloader as [d|]; cbn.
  - exists d. reflexivity.
  - unfold _get_single_peer_downloader.
    destruct (new_single_peer_downloader C (world s)) as [d w]. exists d. reflexivity.
Qed.

(** The probe never raises, and what it returns is always a report of
    the three documented entries. *)
Lemma blob_availability_locals_cases (blob_hash search_timeout blob_timeout : pyval)
    (downloader : option handle) (s s0 : state W) (d : handle) :
  with_downloader C downloader s = (Ok d, s0) ->
  match start_probes C peer_list d blob_hash
          (py_or search_timeout (setting C "peer_search_timeout"))
          (py_or blob_timeout (setting C "sd_download_timeout")) s0 with
  | (Ok (dl, dl_peers), s1) =>
      exists results s2,
        DeferredList C dl s1 = (Ok results, s2)
        /\ List.length results = List.length dl
        /\ _blob_availability_locals C peer_list blob_hash search_timeout blob_timeout
             downloader s
           = (Ok ([], report (existsb truthy (dl_results (classify dl_peers results)))
                             (reachable_peers (classify dl_peers results))
                             (unreachable_peers (classify dl_peers results))), s2)
  | (Raise err, s1) =>
      _blob_availability_locals C peer_list blob_hash search_timeout blob_timeout
        downloader s
      = (Ok ([(KStr "error", VStr (failure_note err))], report false [] []), s1)
  end.
Proof.
  intros Hd.
  destruct (start_probes C peer_list d blob_hash
              (py_or search_timeout (setting C "peer_search_timeout"))
              (py_or blob_timeout (setting C "sd_download_timeout")) s0)
    as [[[dl dl_peers]|err] s1] eqn:Hsp.
  - destruct (DeferredList_ok dl s1) as [results [s2 [Hdl [Hlen _]]]].
    exists results, s2. split; [exact Hdl|]. split; [exact Hlen|].
    unfold _blob_availability_locals; fold (with_downloader C downloader).
    unfold bind at 1. rewrite Hd.
    unfold bind, attempt, probe, bind. rewrite Hsp. cbn [fst snd]. rewrite Hdl.
    reflexivity.
  - unfold _blob_availability_locals; fold (with_downloader C downloader).
    unfold bind at 1. rewrite Hd.
    unfold bind, attempt, probe, bind. rewrite Hsp. reflexivity.
Qed.

End ProberFacts.

Section ReportFacts.
Context {W num : Type} (C : collaborators W num).
Variable peer_list : pyval -> pyval -> M W pyval.

Lemma blob_availability_response (blob_hash search_timeout blob_timeout : pyval)
    (downloader : option handle) (s : state W) :
  _blob_availability_over C peer_list blob_hash search_timeout blob_timeout downloader s
  = (Ok (snd (match fst (_blob_availability_locals C peer_list blob_hash search_timeout
                           blob_timeout downloader s) with
              | Ok locals => locals
              | Raise _ => ([], [])
              end)),
     snd (_blob_availability_locals C peer_list blob_hash search_timeout blob_timeout
            downloader s)).
Proof.
  destruct (with_downloader_ok C downloader s) as [d Hd].
  pose proof (blob_availability_locals_cases C peer_list blob_hash search_timeout
                blob_timeout downloader s _ d Hd) as Hcases.
  unfold _blob_availability_over, bind.
  destruct (start_probes C peer_list d blob_hash
              (py_or search_timeout (setting C "peer_search_timeout"))
              (py_or blob_timeout (setting C "sd_download_timeout"))
              (snd (with_downloader C downloader s)))
    as [[[dl dl_peers]|err] s1];
    [destruct Hcases as [results [s2 [_ [_ Hcases]]]]|]; rewrite Hcases; reflexivity.
Qed.

(** The shape of every answer: the three documented entries, whatever
    the lookup and the downloads did. *)
Lemma blob_availability_total (blob_hash search_timeout blob_timeout : pyval)
    (downloader : option handle) (s : state W) :
  exists is_available reachable unreachable s',
    _blob_availability_over C peer_list blob_hash search_timeout blob_timeout downloader s
    = (Ok (report is_available reachable unreachable), s').
Proof.
  destruct (with_downloader_ok C downloader s) as [d Hd].
  pose proof (blob_availability_locals_cases C peer_list blob_hash search_timeout
                blob_timeout downloader s _ d Hd) as Hcases.
  rewrite blob_availability_response.
  destruct (start_probes C peer_list d blob_hash
              (py_or search_timeout (setting C "peer_search_timeout"))
              (py_or blob_timeout (setting C "sd_download_timeout"))
              (snd (with_downloader C downloader s)))
    as [[[dl dl_peers]|err] s1];
    [destruct Hcases as [results [s2 [_ [_ Hcases]]]]|]; rewrite Hcases; cbn [fst snd];
    do 4 eexists; reflexivity.
Qed.

End ReportFacts.

(** C10.  A blob hash the DHT rejects makes the lookup raise.  The
    message is stored in the local dictionary [result]; the dictionary
    that is returned is built from the three other locals and has no
    error entry. *)
Theorem lookup_failure_note_is_not_returned :
  fst (_blob_availability_locals (scripted quiet) (jsonrpc_peer_list (scripted quiet))
         (VStr "zz") VNone VNone None start_state)
  = Ok ([(KStr "error", VStr "Failed to get peers for blob: invalid blob hash")],
        report false [] [])
  /\ fst (jsonrpc_blob_availability (scripted quiet) (VStr "zz") VNone VNone start_state)
     = Ok (report false [] [])
  /\ dict_lookup (report false [] []) (KStr "error") = None.
Proof. repeat split. Qed.

(** The same for every failure of the lookup or of the start of the
    downloads, in every world. *)
Lemma probe_failure_note_is_not_returned
    {W num : Type} (C : collaborators W num) (peer_list : pyval -> pyval -> M W pyval)
    (blob_hash search_timeout blob_timeout : pyval) (downloader : option handle)
    (s s0 s1 : state W) (d : handle) (err : exn) :
  with_downloader C downloader s = (Ok d, s0) ->
  start_probes C peer_list d blob_hash
    (py_or search_timeout (setting C "peer_search_timeout"))
    (py_or blob_timeout (setting C "sd_download_timeout")) s0
  = (Raise err, s1) ->
  _blob_availability_locals C peer_list blob_hash search_timeout blob_timeout downloader s
  = (Ok ([(KStr "error", VStr (failure_note err))], report false [] []), s1)
  /\ _blob_availability_over C peer_list blob_hash search_timeout blob_timeout downloader s
     = (Ok (report false [] []), s1).
Proof.
  intros Hd Hsp.
  pose proof (blob_availability_locals_cases C peer_list blob_hash search_timeout
                blob_timeout downloader s s0 d Hd) as Hcases.
  rewrite Hsp in Hcases. split; [exact Hcases|].
  unfold _blob_availability_over, bind. rewrite Hcases. reflexivity.
Qed.

(** No report ever has an error entry. *)
Lemma report_has_no_error_entry
    {W num : Type} (C : collaborators W num) (peer_list : pyval -> pyval -> M W pyval)
    (blob_hash search_timeout blob_timeout : pyval) (downloader : option handle)
    (s s' : state W) (response : dict) :
  _blob_availability_over C peer_list blob_hash search_timeout blob_timeout downloader s
  = (Ok response, s') ->
  dict_lookup response (KStr "error") = None.
Proof.
  intros Hrun.
  destruct (blob_availability_total C peer_list blob_hash search_timeout blob_timeout
              downloader s) as [b [r [u [s1 Heq]]]].
  rewrite Heq in Hrun. inversion Hrun. reflexivity.
Qed.

(** The peer list as [jsonrpc_peer_list] returns it is a list of
    dictionaries keyed by [node_id], [host] and [port]; the probe indexes
    its entries by position.  With the two bound together, a lookup that
    finds any peer ends in the handler, and no peer is ever contacted. *)
Lemma bound_probe_reports_nothing
    {W num : Type} (C : collaborators W num)
    (blob_hash search_timeout blob_timeout : pyval) (downloader : option handle)
    (s : state W) :
  exists s',
    _blob_availability C blob_hash search_timeout blob_timeout downloader s
    = (Ok (report false [] []), s')
    /\ List.filter (called "download_temp_blob_from_peer") (trace s')
       = List.filter (called "download_temp_blob_from_peer") (trace s).
Proof.
  destruct (with_downloader_ok C downloader s) as [d Hd].
  set (s0 := snd (with_downloader C downloader s)) in *.
  assert (Htrace0 : List.filter (called "download_temp_blob_from_peer") (trace s0)
                    = List.filter (called "download_temp_blob_from_peer") (trace s)).
  { subst s0. destruct downloader as [d'|]; cbn; [reflexivity|].
    unfold _get_single_peer_downloader.
    destruct (new_single_peer_downloader C (world s)) as [d' w]. cbn.
    rewrite List.filter_app. cbn. apply app_nil_r. }
  pose proof (blob_availability_locals_cases C (jsonrpc_peer_list C) blob_hash
                search_timeout blob_timeout downloader s s0 d Hd) as Hcases.
  unfold _blob_availability, _blob_availability_over, bind.
  set (st := py_or search_timeout (setting C "peer_search_timeout")) in *.
  set (bt := py_or blob_timeout (setting C "sd_download_timeout")) in *.
  assert (Hsp : exists r s1,
             start_probes C (jsonrpc_peer_list C) d blob_hash st bt s0 = (r, s1)
             /\ (r = Ok ([], []) \/ exists err, r = Raise err)
             /\ List.filter (called "download_temp_blob_from_peer") (trace s1)
                = List.filter (called "download_temp_blob_from_peer") (trace s0)).
  { unfold start_probes, jsonrpc_peer_list, bind, raise, attempt, lift, call, ret.
    destruct (is_valid_blobhash C blob_hash); cbn [negb].
    - destruct (iterativeFindValue C blob_hash (py_or st (setting C "peer_search_timeout"))
                  (world s0)) as [[peers|e] w1].
      + destruct peers as [|[[node_id host] port] peers].
        * do 2 eexists. split; [reflexivity|]. split; [left; reflexivity|].
          cbn. rewrite List.filter_app. cbn. apply app_nil_r.
        * do 2 eexists. split; [reflexivity|]. split; [right; eexists; reflexivity|].
          cbn. rewrite List.filter_app. cbn. apply app_nil_r.
      + unfold trap_timeout. destruct (isinstance e DeferTimeoutError).
        * do 2 eexists. split; [reflexivity|]. split; [left; reflexivity|].
          cbn. rewrite List.filter_app. cbn. apply app_nil_r.
        * do 2 eexists. split; [reflexivity|]. split; [right; eexists; reflexivity|].
          cbn. rewrite List.filter_app. cbn. apply app_nil_r.
    - do 2 eexists. split; [reflexivity|]. split; [right; eexists; reflexivity|reflexivity]. }
  destruct Hsp as [r [s1 [Hsp [Hr Htrace1]]]]. rewrite Hsp in Hcases.
  exists s1. split; [|congruence].
  destruct Hr as [Hr|[err Hr]]; subst r.
  - destruct Hcases as [results [s2 [Hdl [_ Hcases]]]].
    cbn in Hdl. inversion Hdl; subst results s2. rewrite Hcases. reflexivity.
  - rewrite Hcases. reflexivity.
Qed.

(** C3.  In every report of a probe the reachable and the unreachable
    list are disjoint, every entry of either is the address of one of the
    peers the lookup found, and the two lists together are no longer than
    the list of those peers.  (They are in fact empty in every report, by
    [bound_probe_reports_nothing].) *)
Theorem probe_lists_are_disjoint_and_within_candidates
    {W num : Type} (C : collaborators W num)
    (blob_hash search_timeout blob_timeout : pyval) (downloader : option handle)
    (s : state W) :
  exists response s',
    _blob_availability C blob_hash search_timeout blob_timeout downloader s
    = (Ok response, s')
    /\ (forall p, In p (strings_of (dict_get response "reachable_peers")) ->
                  ~ In p (strings_of (dict_get response "unreachable_peers")))
    /\ (forall p, In p (strings_of (dict_get response "reachable_peers"))
                  \/ In p (strings_of (dict_get response "unreachable_peers")) ->
                  In p (contact_addresses C
                          (found_peers C blob_hash search_timeout downloader s)))
    /\ (List.length (strings_of (dict_get response "reachable_peers"))
        + List.length (strings_of (dict_get response "unreachable_peers"))
        <= List.length (found_peers C blob_hash search_timeout downloader s))%nat.
Proof.
  destruct (bound_probe_reports_nothing C blob_hash search_timeout blob_timeout downloader s)
    as [s' [Hrun _]].
  exists (report false [] []), s'. split; [exact Hrun|].
  change (dict_get (report false [] []) "reachable_peers") with (VList []).
  change (dict_get (report false [] []) "unreachable_peers") with (VList []).
  cbn [strings_of flat_map In List.length Nat.add].
  split; [intros p []|]. split; [intros p [[]|[]]|]. lia.
Qed.

(** C4.  The DHT knows one peer for the blob, and a download from it
    would fire with data.  The lookup returns the peer as a contact
    dictionary; the probe indexes it by position, [x[2]], which raises
    [KeyError]; the handler stores the note in [result], and the report
    lists the peer in neither list and has no error.  No download is
    started. *)
Theorem found_peer_is_classified_nowhere :
  fst (jsonrpc_peer_list (scripted (peer_script [Ok (VStr "data")])) (VStr "b1") (VInt 3)
         (State 0%nat [Call "SinglePeerDownloader" []]))
  = Ok (VList [VDict [(KStr "node_id", VStr "6e31"); (KStr "host", VStr "10.0.0.1");
                      (KStr "port", VInt 3333)]])
  /\ fst (_blob_availability_locals (scripted (peer_script [Ok (VStr "data")]))
            (jsonrpc_peer_list (scripted (peer_script [Ok (VStr "data")])))
            (VStr "b1") VNone VNone None start_state)
     = Ok ([(KStr "error", VStr "Failed to get peers for blob: 2")], report false [] [])
  /\ fst (jsonrpc_blob_availability (scripted (peer_script [Ok (VStr "data")]))
            (VStr "b1") VNone VNone start_state)
     = Ok (report false [] [])
  /\ dict_lookup (report false [] []) (KStr "error") = None
  /\ List.filter (called "download_temp_blob_from_peer")
       (trace (snd (jsonrpc_blob_availability (scripted (peer_script [Ok (VStr "data")]))
                      (VStr "b1") VNone VNone start_state)))
     = [].
Proof. repeat split. Qed.

(** ** Stream availability *)

Lemma pykey_eqb_eq (a b : pykey) : pykey_eqb a b = true -> a = b.
Proof.
  destruct a, b; cbn; intros H; try discriminate.
  - apply String.eqb_eq in H. congruence.
  - apply Z.eqb_eq in H. congruence.
Qed.

Lemma pykey_eqb_refl (a : pykey) : pykey_eqb a a = true.
Proof. destruct a; cbn; [apply String.eqb_refl|apply Z.eqb_refl]. Qed.

Lemma pykey_eqb_sym (a b : pykey) : pykey_eqb a b = pykey_eqb b a.
Proof. destruct a, b; cbn; [apply String.eqb_sym|reflexivity|reflexivity|apply Z.eqb_sym]. Qed.

Lemma dict_lookup_set (d : dict) (k k' : pykey) (v : pyval) :
  dict_lookup (dict_set d k v) k'
  = if pykey_eqb k k' then Some v else dict_lookup d k'.
Proof.
  induction d as [|[k0 v0] d IH]; cbn.
  - reflexivity.
  - destruct (pykey_eqb k0 k) eqn:H0k; cbn.
    + apply pykey_eqb_eq in H0k. subst k0.
      destruct (pykey_eqb k k'); reflexivity.
    + rewrite IH. destruct (pykey_eqb k0 k') eqn:H0k'; [|reflexivity].
      apply pykey_eqb_eq in H0k'. subst k0.
      rewrite pykey_eqb_sym, H0k. reflexivity.
Qed.



Section CheckerFacts.
Context {W num : Type} (C : collaborators W num).
Variable peer_list : pyval -> pyval -> M W pyval.



End CheckerFacts.

(** The check takes the entry for [uri] out of the wallet's answer and
    then indexes that entry by [uri] once more; when the entry is a
    dictionary without such a key the lookup raises [KeyError], which the
    handler for [DecodeError] lets through: the claim is not decoded. *)
Lemma stream_availability_indexes_entry_by_uri
    {W num : Type} (C : collaborators W num) (peer_list : pyval -> pyval -> M W pyval)
    (uri : string) (search_timeout blob_timeout : pyval) (s s1 : state W)
    (entry : dict) :
  resolve_entry C uri s = (Ok (VDict entry), s1) ->
  dict_lookup entry (KStr uri) = None ->
  jsonrpc_stream_availability_over C peer_list uri search_timeout blob_timeout s
  = (Raise (Exn KeyError (key_repr (KStr uri))), s1).
Proof.
  intros Hres Hmiss.
  unfold jsonrpc_stream_availability_over, bind, attempt. rewrite Hres.
  unfold decode_entry. cbn [py_getitem]. rewrite Hmiss. reflexivity.
Qed.

(** C9.  The name resolves to a claim that decodes as a claim without a
    stream.  The check raises [KeyError] for the URI to its caller instead
    of returning a response: the second lookup by URI fails before the
    claim is decoded. *)
Theorem non_stream_claim_raises_key_error :
  wallet_resolve (scripted (claim_script "lbry://one" (Ok channel_claim))) "lbry://one" 0%nat
  = (Ok (VDict [(KStr "lbry://one",
                 VDict [(KStr "claim",
                         VDict [(KStr "value", VDict [(KStr "version", VStr "_0_0_1")]);
                                (KStr "hex", VStr "080110")])])]), 0%nat)
  /\ smart_decode (scripted (claim_script "lbry://one" (Ok channel_claim))) (VStr "080110")
     = Ok channel_claim
  /\ is_stream channel_claim = false
  /\ fst (jsonrpc_stream_availability (scripted (claim_script "lbry://one" (Ok channel_claim)))
            "lbry://one" VNone VNone start_state)
     = Raise (Exn KeyError "'lbry://one'").
Proof. repeat split. Qed.

Section AvailabilityCases.
Context {W num : Type} (C : collaborators W num).
Variable peer_list : pyval -> pyval -> M W pyval.


End AvailabilityCases.

Section BoundProbe.
Context {W num : Type} (C : collaborators W num).


End BoundProbe.


(** A stream whose descriptor names a head blob, with a peer known for
    both blobs: the head blob is found and both probes report it
    unavailable without a download from the peer. *)
Lemma stream_with_known_peers_is_reported_unavailable :
  exists response s',
    probe_stream (scripted stream_script) (jsonrpc_peer_list (scripted stream_script))
      (stream_response (scripted stream_script) 0%nat free_claim) free_claim
      (VInt 3) (VInt 3) start_state = (Ok response, s')
    /\ dict_get response "head_blob_hash" = VStr "head1"
    /\ dict_get response "sd_blob_availability" = VDict (report false [] [])
    /\ dict_get response "head_blob_availability" = VDict (report false [] [])
    /\ dict_get response "is_available" = VBool false
    /\ List.length (List.filter (called "dht_node.iterativeFindValue") (trace s')) = 2%nat
    /\ List.filter (called "download_temp_blob_from_peer") (trace s') = [].
Proof. do 2 eexists. split; [vm_compute; reflexivity|]. repeat split. Qed.



(** ** Download coordination *)

Section SequentialFacts.
Context {W : Type} (E : surroundings W).

Lemma run_pbind {A B : Type} (p : prog A) (f : A -> prog B) (s : daemon W) :
  run E (pbind p f) s
  = match run E p s with
    | (Ok a, s') => run E (f a) s'
    | (Raise e, s') => (Raise e, s')
    end.
Proof.
  revert s. induction p as [a|e|X o k IH]; intros s; cbn [pbind run]; try reflexivity.
  destruct (step E o s) as [x s']. apply IH.
Qed.

(** A [finally] clause runs on every way out of its [try]. *)
Lemma run_pfinally {A : Type} (p : prog A) (cleanup : prog unit) (s : daemon W) :
  run E (pfinally p cleanup) s
  = match run E p s with
    | (r, s1) =>
        match run E cleanup s1 with
        | (Ok _, s2) => (r, s2)
        | (Raise e, s2) => (Raise e, s2)
        end
    end.
Proof.
  revert s. induction p as [a|e|X o k IH]; intros s; cbn [pfinally run].
  - rewrite run_pbind. destruct (run E cleanup s) as [[u|e] s2]; reflexivity.
  - rewrite run_pbind. destruct (run E cleanup s) as [[u|e'] s2]; reflexivity.
  - destruct (step E o s) as [x s']. apply IH.
Qed.

(** [del self.streams[sd_hash]] leaves no entry for [sd_hash], whether
    it finds one or raises [KeyError]. *)
Lemma streams_del_leaves_none (sd_hash : string) (s s' : daemon W) (r : outcome unit) :
  run E (pbind (perform (StreamsDel sd_hash)) plift) s = (r, s') ->
  streams s' !! sd_hash = None.
Proof.
  cbn. destruct (streams s !! sd_hash) as [stream|] eqn:Hlook; cbn;
    intros H; inversion H; subst; cbn.
  - apply lookup_delete_eq.
  - exact Hlook.
Qed.

End SequentialFacts.

(** C2.  A call of [_download_name] that finds no session for
    [sd_hash] leaves none behind, however it ends: with the file
    dictionary, with the error dictionary, or with an exception (raised by
    the analytics calls, by the handler, or by the [del] itself), and
    whatever the tasks that ran while it waited did to the registry. *)
Theorem download_name_leaves_no_session
    {W : Type} (E : surroundings W) (name : string) (claim_dict : pyval) (sd_hash : string)
    (txid nout timeout file_name : pyval) (s s' : daemon W) (r : outcome pyval) :
  streams s !! sd_hash = None ->
  run E (_download_name name claim_dict sd_hash txid nout timeout file_name) s = (r, s') ->
  streams s' !! sd_hash = None.
Proof.
  intros Hfresh. unfold _download_name.
  rewrite run_pbind. cbn [perform run step]. rewrite Hfresh.
  replace (bool_decide (is_Some (@None nat))) with false
    by (symmetry; apply bool_decide_eq_false; intros [x Hx]; discriminate).
  rewrite run_pbind. cbn [ask perform run step].
  destruct (answer E RandomString (d_world s)) as [download_id w1].
  rewrite run_pbind. cbn [ask perform run step d_world streams d_trace].
  destruct (answer E (SendDownloadStarted download_id name claim_dict) w1) as [sent w2].
  rewrite run_pbind.
  destruct sent as [[]|e]; cbn [plift run].
  2:{ intros H. inversion H; subst. exact Hfresh. }
  rewrite run_pbind. cbn [ask perform run step d_world streams d_trace].
  destruct (answer E (NewGetStream timeout) w2) as [stream w3].
  rewrite run_pbind. cbn [perform run step d_world streams d_trace].
  rewrite run_pbind, run_pfinally.
  match goal with
  | |- context [run E (pcatch ?body ?handler) ?s0] =>
      destruct (run E (pcatch body handler) s0) as [tried s1]
  end.
  match goal with
  | |- context [run E ?cleanup s1] =>
      destruct (run E cleanup s1) as [cleaned s2] eqn:Hdel
  end.
  apply streams_del_leaves_none in Hdel.
  destruct cleaned as [[]|e]; [destruct tried as [result|e]|];
    cbn [run]; intros H; inversion H; subst; exact Hdel.
Qed.

Lemma download_name_leaves_no_session_witness :
  streams idle !! "sd1" = None
  /\ exists s',
       run (scripted_surroundings (Raise (Exn DownloadDataTimeout "no data")) (Ok tt))
           get_one idle
       = (Ok (VDict [(KStr "error", VStr "no data")]), s')
       /\ streams s' !! "sd1" = None.
Proof.
  split; [reflexivity|].
  destruct (run (scripted_surroundings (Raise (Exn DownloadDataTimeout "no data")) (Ok tt))
                get_one idle) as [r s'] eqn:Hrun.
  exists s'. split.
  - pose proof Hrun as Hvalue. vm_compute in Hvalue. inversion Hvalue. reflexivity.
  - exact (download_name_leaves_no_session
             (scripted_surroundings (Raise (Exn DownloadDataTimeout "no data")) (Ok tt))
             "one" (VObj 3) "sd1" (VStr "txid1") (VInt 0) (VInt 30) VNone idle s' r
             eq_refl Hrun).
Defined.

(** When another task has removed the session in the meantime, the
    [del] in the [finally] clause raises [KeyError] and the call ends with
    that exception instead of its result. *)
Lemma download_name_raises_when_session_was_removed :
  fst (run meddling_surroundings get_one idle) = Raise (Exn KeyError "'sd1'")
  /\ streams (snd (run meddling_surroundings get_one idle)) !! "sd1" = None.
Proof. split; reflexivity. Qed.

Section ConcurrentFacts.
Context {W : Type} (E : surroundings W).

(** A call that finds a session for [sd_hash] registered reads the
    session's [finished_deferred] and waits for it: it changes nothing in
    the registry and calls [start] on nothing. *)
Lemma attaching_starts_nothing (t : nat) (name : string) (claim_dict : pyval)
    (sd_hash : string) (txid nout timeout file_name : pyval) (s : reactor W)
    (stream : nat) :
  streams (r_daemon s) !! sd_hash = Some stream ->
  streams (r_daemon (spawn E t name claim_dict sd_hash txid nout timeout file_name s))
  = streams (r_daemon s)
  /\ d_trace (r_daemon (spawn E t name claim_dict sd_hash txid nout timeout file_name s))
     = d_trace (r_daemon s) ++ [Call "GetStream.finished_deferred" [VObj stream]]
  /\ starts_of (d_trace (r_daemon (spawn E t name claim_dict sd_hash txid nout timeout
                                     file_name s)))
     = starts_of (d_trace (r_daemon s)).
Proof.
  intros Hreg.
  assert (Hmain :
    streams (r_daemon (spawn E t name claim_dict sd_hash txid nout timeout file_name s))
    = streams (r_daemon s)
    /\ d_trace (r_daemon (spawn E t name claim_dict sd_hash txid nout timeout file_name s))
       = d_trace (r_daemon s) ++ [Call "GetStream.finished_deferred" [VObj stream]]).
  { unfold spawn, _download_name.
    cbn [pbind perform exec step_in step r_daemon]. rewrite Hreg.
    replace (bool_decide (is_Some (Some stream))) with true
      by (symmetry; apply bool_decide_eq_true; eauto).
    cbn [pbind streams_item perform ask plift exec step_in step r_daemon streams
         d_world d_trace].
    rewrite Hreg.
    cbn [pbind streams_item perform ask plift exec step_in step r_daemon streams
         d_world d_trace].
    destruct (answer E (StreamFinishedDeferred stream) (d_world (r_daemon s)))
      as [finished_deferred w1].
    cbn [pbind await perform plift exec step_in r_daemon streams d_world d_trace
         deferreds tasks query_event].
    destruct finished_deferred as [| | | | | | | | |d];
      try (cbn; split; reflexivity).
    destruct (fired (deferred_at _ d)) as [[v|e]|]; cbn; split; reflexivity. }
  destruct Hmain as [Hstreams Htrace]. split; [exact Hstreams|]. split; [exact Htrace|].
  rewrite Htrace. unfold starts_of. rewrite List.filter_app. cbn.
  rewrite app_nil_r. reflexivity.
Qed.

(** Single flight: however many calls for [sd_hash] arrive while a
    session for it is registered, the registry keeps that session and
    [start] is called for none of them. *)
Lemma later_calls_start_nothing (name : string) (claim_dict : pyval) (sd_hash : string)
    (txid nout timeout file_name : pyval) (ts : list nat) (s : reactor W) (stream : nat) :
  streams (r_daemon s) !! sd_hash = Some stream ->
  streams (r_daemon (spawn_all E name claim_dict sd_hash txid nout timeout file_name ts s))
  = streams (r_daemon s)
  /\ starts_of (d_trace (r_daemon (spawn_all E name claim_dict sd_hash txid nout timeout
                                     file_name ts s)))
     = starts_of (d_trace (r_daemon s)).
Proof.
  revert s. induction ts as [|t ts IH]; intros s Hreg; [split; reflexivity|].
  cbn [spawn_all fold_left].
  destruct (attaching_starts_nothing t name claim_dict sd_hash txid nout timeout
              file_name s stream Hreg) as [Hstreams [_ Hstarts]].
  destruct (IH (spawn E t name claim_dict sd_hash txid nout timeout file_name s))
    as [Hs Hn].
  { rewrite Hstreams. exact Hreg. }
  unfold spawn_all in *. rewrite Hs, Hn. split; [exact Hstreams|exact Hstarts].
Qed.

End ConcurrentFacts.

Section JoinFacts.
Context {W : Type} (E : surroundings W).

(** What a call that joins a session leaves in the reactor when the
    session's [finished_deferred] has not fired: its task, waiting, and
    its resumption callback at the end of the Deferred's callbacks. *)
Lemma joining_a_pending_session (t : nat) (name : string) (claim_dict : pyval)
    (sd_hash : string) (txid nout timeout file_name : pyval) (s : reactor W)
    (stream d : nat) :
  streams (r_daemon s) !! sd_hash = Some stream ->
  fst (answer E (StreamFinishedDeferred stream) (d_world (r_daemon s))) = VDeferred d ->
  fired (deferred_at s d) = None ->
  let s' := spawn E t name claim_dict sd_hash txid nout timeout file_name s in
  streams (r_daemon s') = streams (r_daemon s)
  /\ deferreds s' = <[d := Deferred None (callbacks (deferred_at s d) ++ [Resume t])]>
                      (deferreds s)
  /\ tasks s' = <[t := Waiting (fun r => pbind (plift r) (fun result => Return result))]>
                  (tasks s).
Proof.
  intros Hreg Hanswer Hpending. cbv zeta.
  unfold spawn, _download_name.
  cbn [pbind perform exec step_in step r_daemon]. rewrite Hreg.
  replace (bool_decide (is_Some (Some stream))) with true
    by (symmetry; apply bool_decide_eq_true; eauto).
  cbn [pbind streams_item perform ask plift exec step_in step r_daemon streams
       d_world d_trace].
  rewrite Hreg.
  cbn [pbind streams_item perform ask plift exec step_in step r_daemon streams
       d_world d_trace].
  destruct (answer E (StreamFinishedDeferred stream) (d_world (r_daemon s)))
    as [finished_deferred w1].
  cbn [fst] in Hanswer. subst finished_deferred.
  cbn [pbind await perform plift exec step_in r_daemon streams d_world d_trace
       deferreds tasks query_event].
  unfold deferred_at in *. cbn [deferreds].
  rewrite Hpending. cbn. repeat split.
Qed.

(** Two calls join a session whose [finished_deferred] is pending and has
    no callback yet.  When the Deferred fires with [r], the call that
    joined first receives [r] and the one that joined second receives
    [None]. *)
Lemma second_joiner_receives_None (t1 t2 : nat) (name : string) (claim_dict : pyval)
    (sd_hash : string) (txid nout timeout file_name : pyval) (s : reactor W)
    (stream d : nat) (r : outcome pyval) :
  t1 <> t2 ->
  streams (r_daemon s) !! sd_hash = Some stream ->
  (forall w, fst (answer E (StreamFinishedDeferred stream) w) = VDeferred d) ->
  deferred_at s d = Deferred None [] ->
  let joined :=
    spawn E t2 name claim_dict sd_hash txid nout timeout file_name
      (spawn E t1 name claim_dict sd_hash txid nout timeout file_name s) in
  result_of (fire E d r joined) t1 = Some r
  /\ result_of (fire E d r joined) t2 = Some (Ok VNone).
Proof.
  intros Hne Hreg Hanswer Hpending. cbv zeta.
  destruct (joining_a_pending_session t1 name claim_dict sd_hash txid nout timeout
              file_name s stream d Hreg (Hanswer _)) as [Hs1 [Hd1 Ht1]].
  { rewrite Hpending. reflexivity. }
  set (s1 := spawn E t1 name claim_dict sd_hash txid nout timeout file_name s) in *.
  assert (Hat1 : deferred_at s1 d = Deferred None [Resume t1]).
  { unfold deferred_at. rewrite Hd1, lookup_insert_eq, Hpending. reflexivity. }
  destruct (joining_a_pending_session t2 name claim_dict sd_hash txid nout timeout
              file_name s1 stream d) as [Hs2 [Hd2 Ht2]].
  { rewrite Hs1. exact Hreg. }
  { apply Hanswer. }
  { rewrite Hat1. reflexivity. }
  set (s2 := spawn E t2 name claim_dict sd_hash txid nout timeout file_name s1) in *.
  assert (Hat2 : deferred_at s2 d = Deferred None [Resume t1; Resume t2]).
  { unfold deferred_at at 1. rewrite Hd2, lookup_insert_eq, Hat1. reflexivity. }
  assert (Htasks : tasks (fire E d r s2)
                   = <[t2 := Finished (Ok VNone)]> (<[t1 := Finished r]> (tasks s2))).
  { unfold fire. rewrite Hat2. cbn [fired callbacks fold_left].
    unfold run_callback at 2. cbn [fst snd tasks].
    rewrite Ht2, Ht1, (lookup_insert_ne _ t2 t1), lookup_insert_eq by congruence.
    destruct r as [v|e]; cbn [plift pbind exec r_daemon deferreds tasks];
      unfold run_callback; cbn [fst snd tasks];
      rewrite (lookup_insert_ne _ t1 t2), lookup_insert_eq by congruence;
      reflexivity. }
  unfold result_of. rewrite Htasks. split.
  - rewrite (lookup_insert_ne _ t2 t1), lookup_insert_eq by congruence. reflexivity.
  - rewrite lookup_insert_eq. reflexivity.
Qed.

End JoinFacts.

Section SingleFlight.
Context {W : Type} (E : surroundings W).

(** A call that finds no session for [sd_hash], whose
    [send_download_started] raises nothing and whose [start] answers with
    a Deferred that has not fired: it registers a session, calls [start]
    once, and waits. *)
Lemma creating_a_session (t : nat) (name : string) (claim_dict : pyval)
    (sd_hash : string) (txid nout timeout file_name : pyval) (s : reactor W) :
  streams (r_daemon s) !! sd_hash = None ->
  (forall download_id w,
      fst (answer E (SendDownloadStarted download_id name claim_dict) w) = Ok tt) ->
  (forall stream w,
      exists d, fst (answer E (StreamStart stream claim_dict name txid nout file_name) w)
                = VDeferred d
                /\ fired (deferred_at s d) = None) ->
  let s' := spawn E t name claim_dict sd_hash txid nout timeout file_name s in
  is_Some (streams (r_daemon s') !! sd_hash)
  /\ starts_of (d_trace (r_daemon s')) = S (starts_of (d_trace (r_daemon s))).
Proof.
  intros Hfresh Hsent Hstart. cbv zeta.
  unfold spawn, _download_name.
  cbn [pbind perform exec step_in step r_daemon]. rewrite Hfresh.
  replace (bool_decide (is_Some (@None nat))) with false
    by (symmetry; apply bool_decide_eq_false; intros [x Hx]; discriminate).
  cbn [pbind ask perform exec step_in step r_daemon streams d_world d_trace].
  destruct (answer E RandomString (d_world (r_daemon s))) as [download_id w1].
  cbn [pbind ask perform exec step_in step r_daemon streams d_world d_trace].
  pose proof (Hsent download_id w1) as Hs.
  destruct (answer E (SendDownloadStarted download_id name claim_dict) w1) as [sent w2].
  cbn [fst] in Hs. subst sent.
  cbn [pbind plift ask perform exec step_in step r_daemon streams d_world d_trace].
  destruct (answer E (NewGetStream timeout) w2) as [stream w3].
  cbn [pbind pfinally pcatch streams_item plift ask perform exec step_in step r_daemon
       streams d_world d_trace].
  rewrite lookup_insert_eq.
  cbn [pbind pfinally pcatch streams_item plift ask perform exec step_in step r_daemon
       streams d_world d_trace].
  destruct (Hstart stream w3) as [d [Hd Hpending]].
  destruct (answer E (StreamStart stream claim_dict name txid nout file_name) w3)
    as [starting w4].
  cbn [fst] in Hd. subst starting.
  cbn [pbind pfinally pcatch await plift perform exec step_in step r_daemon streams
       d_world d_trace deferreds tasks].
  assert (Hstill : fired (deferred_at
                     (Reactor (Daemon w4 (<[sd_hash := stream]> (streams (r_daemon s)))
                                 (((((d_trace (r_daemon s) ++ [query_event RandomString])
                                  ++ [query_event (SendDownloadStarted download_id name
                                                     claim_dict)])
                                  ++ [query_event (NewGetStream timeout)])
                                  ++ [query_event (StreamStart stream claim_dict name txid
                                                     nout file_name)])))
                        (deferreds s) (tasks s)) d) = None) by exact Hpending.
  rewrite Hstill. cbn [r_daemon streams d_trace]. split.
  - rewrite lookup_insert_eq. eauto.
  - unfold starts_of. rewrite !List.filter_app. cbn. rewrite !app_nil_r, length_app.
    cbn. lia.
Qed.

(** Single flight.  A first call for [sd_hash] that is left waiting for
    [start], followed by any number of further calls for [sd_hash] before
    anything fires: [start] is called exactly once, and the session stays
    registered. *)
Lemma start_is_called_once (t : nat) (ts : list nat) (name : string) (claim_dict : pyval)
    (sd_hash : string) (txid nout timeout file_name : pyval) (s : reactor W) :
  streams (r_daemon s) !! sd_hash = None ->
  (forall download_id w,
      fst (answer E (SendDownloadStarted download_id name claim_dict) w) = Ok tt) ->
  (forall stream w,
      exists d, fst (answer E (StreamStart stream claim_dict name txid nout file_name) w)
                = VDeferred d
                /\ fired (deferred_at s d) = None) ->
  let s' := spawn_all E name claim_dict sd_hash txid nout timeout file_name ts
              (spawn E t name claim_dict sd_hash txid nout timeout file_name s) in
  is_Some (streams (r_daemon s') !! sd_hash)
  /\ starts_of (d_trace (r_daemon s')) = S (starts_of (d_trace (r_daemon s))).
Proof.
  intros Hfresh Hsent Hstart. cbv zeta.
  destruct (creating_a_session t name claim_dict sd_hash txid nout timeout file_name s
              Hfresh Hsent Hstart) as [[stream Hreg] Hone].
  destruct (later_calls_start_nothing E name claim_dict sd_hash txid nout timeout file_name
              ts _ stream Hreg) as [Hstreams Hstarts].
  rewrite Hstreams, Hstarts. split; [eauto|exact Hone].
Qed.

End SingleFlight.

(** C1.  Three calls for one descriptor.  The first creates the
    session, and [start] is called once.  The second and the third find
    the session registered and wait for its [finished_deferred].  When
    that fires, the callback of the first call reports to analytics, which
    fails; the second call is resumed with that failure, and its resumption
    callback returns [None], which is the result the third call is resumed
    with.  The two callers that joined the session receive different
    outcomes. *)
Theorem joined_callers_receive_different_results :
  starts_of (d_trace (r_daemon (three_callers analytics_down))) = 1%nat
  /\ result_of (three_callers analytics_down) 2
     = Some (Raise (Exn Exception "analytics unavailable"))
  /\ result_of (three_callers analytics_down) 3 = Some (Ok VNone).
Proof. repeat split; vm_compute; reflexivity. Qed.

(** With analytics working, both receive [None]; and callers that join
    while the first call still waits for [start] receive the download's
    result and [None]. *)
Lemma joined_callers_otherwise :
  result_of (three_callers (Ok tt)) 2 = Some (Ok VNone)
  /\ result_of (three_callers (Ok tt)) 3 = Some (Ok VNone)
  /\ result_of early_callers 2 = Some (Ok (VStr "/downloads/one.mp4"))
  /\ result_of early_callers 3 = Some (Ok VNone).
Proof. repeat split; vm_compute; reflexivity. Qed.
(** * Properties of the core beyond the specification *)

(** ** What a computation leaves out of the trace *)

Section Silence.
Context {W : Type} (p : event -> bool).

Lemma silent_ret {A : Type} (a : A) : silent p (@ret W A a).
Proof. intros s. reflexivity. Qed.

Lemma silent_raise {A : Type} (e : exn) : silent p (@raise W A e).
Proof. intros s. reflexivity. Qed.

Lemma silent_lift {A : Type} (r : outcome A) : silent p (@lift W A r).
Proof. intros s. reflexivity. Qed.

Lemma silent_read {A : Type} (f : W -> A) : silent p (fun s : state W => (Ok (f (world s)), s)).
Proof. intros s. reflexivity. Qed.

Lemma silent_bind {A B : Type} (m : M W A) (f : A -> M W B) :
  silent p m -> (forall a, silent p (f a)) -> silent p (bind m f).
Proof.
  intros Hm Hf s. unfold bind. specialize (Hm s).
  destruct (m s) as [[a|e] s1]; cbn [snd] in *; [rewrite Hf|]; exact Hm.
Qed.

Lemma silent_attempt {A : Type} (m : M W A) : silent p m -> silent p (attempt m).
Proof.
  intros Hm s. unfold attempt. specialize (Hm s).
  destruct (m s) as [r s1]. exact Hm.
Qed.

Lemma silent_call {A : Type} (callee : string) (args : list pyval)
    (f : W -> outcome A * W) :
  p (Call callee args) = false -> silent p (call callee args f).
Proof.
  intros Hp s. unfold call. destruct (f (world s)) as [r w1]. cbn [snd trace].
  rewrite List.filter_app. cbn [List.filter]. rewrite Hp. apply app_nil_r.
Qed.

Lemma silent_emit (ev : event) : p ev = false -> silent p (@emit W ev).
Proof.
  intros Hp s. unfold emit. cbn [snd trace].
  rewrite List.filter_app. cbn [List.filter]. rewrite Hp. apply app_nil_r.
Qed.

End Silence.

Ltac silence :=
  repeat first
    [ apply silent_ret | apply silent_raise | apply silent_lift | apply silent_read
    | apply silent_call; reflexivity | apply silent_emit; reflexivity
    | apply silent_attempt
    | apply silent_bind; [|intros ?]
    | match goal with
      | |- silent _ (if ?b then _ else _) => destruct b
      | |- silent _ (match ?x with _ => _ end) => destruct x
      end ].

Section CoreSilence.
Context {W num : Type} (N : numeric num) (C : collaborators W num).

Lemma silent_save_claims (p : event -> bool) (claim_infos : list pyval) :
  (forall to_save, p (Call "storage.save_claims" to_save) = false) ->
  silent p (save_claims C claim_infos).
Proof.
  intros Hp s. unfold save_claims.
  destruct (claims_to_save claim_infos []) as [to_save|e]; [|reflexivity].
  cbn [snd trace]. rewrite List.filter_app. cbn [List.filter]. rewrite Hp. apply app_nil_r.
Qed.

Lemma silent_resolve (p : event -> bool) (uri : string) :
  (forall args, p (Call "wallet.resolve" args) = false) ->
  (forall to_save, p (Call "storage.save_claims" to_save) = false) ->
  silent p (_resolve C uri).
Proof.
  intros Hw Hs. unfold _resolve.
  apply silent_bind; [apply silent_call; apply Hw|intros results].
  apply silent_bind; [apply silent_lift|intros values].
  apply silent_bind; [apply silent_save_claims; exact Hs|intros _].
  apply silent_ret.
Qed.

Lemma silent_add_key_fee (p : event -> bool) (fee : option (Fee num)) (data_cost : num) :
  (forall args, p (Call "exchange_rate_manager.convert_currency" args) = false) ->
  silent p (_add_key_fee_to_est_data_cost N C fee data_cost).
Proof.
  intros Hc. unfold _add_key_fee_to_est_data_cost.
  apply silent_bind; [|intros ?; apply silent_ret].
  destruct fee; [apply silent_call; apply Hc|apply silent_ret].
Qed.

End CoreSilence.

(** X1.  A cost estimate for a stream whose size the caller supplies
    looks for no descriptor, downloads none and reads none, whatever the
    wallet and the exchange rates answer. *)
Theorem known_size_estimate_fetches_no_descriptor
    {W num : Type} (N : numeric num) (C : collaborators W num)
    (uri : string) (size : number num) (s : state W) :
  List.filter descriptor_call (trace (snd (get_est_cost N C uri (Some size) s)))
  = List.filter descriptor_call (trace s).
Proof.
  revert s. change (silent descriptor_call (get_est_cost N C uri (Some size))).
  unfold get_est_cost, get_est_cost_using_known_size.
  apply silent_bind; [apply silent_read|intros cost].
  apply silent_bind; [apply silent_resolve; reflexivity|intros resolved].
  apply silent_bind; [apply silent_lift|intros known].
  apply silent_bind.
  { destruct known; [|apply silent_ret].
    apply silent_bind; [apply silent_lift|intros entry]. apply silent_lift. }
  intros has_claim. destruct has_claim; [|apply silent_ret].
  apply silent_bind; [apply silent_lift|intros entry].
  apply silent_bind; [apply silent_lift|intros claim_info].
  apply silent_bind; [apply silent_lift|intros value].
  apply silent_bind; [apply silent_lift|intros claim].
  apply silent_bind; [apply silent_add_key_fee; reflexivity|intros final_fee].
  apply silent_bind; [apply silent_call; reflexivity|intros result].
  apply silent_ret.
Qed.

(** X2.  With a known size, a name the wallet's answer does not hold,
    or holds without a claim, is estimated as [None]: no claim is decoded
    and no exchange rate is asked for. *)
Theorem known_size_estimate_of_unresolved_name
    {W num : Type} (N : numeric num) (C : collaborators W num)
    (uri : string) (size : number num) (s : state W) (d : dict) (w1 : W) :
  wallet_resolve C uri (world s) = (Ok (VDict d), w1) ->
  match dict_lookup d (KStr uri) with
  | None => True
  | Some entry => py_contains (KStr "claim") entry = Ok false
  end ->
  fst (get_est_cost_using_known_size N C uri size s) = Ok None
  /\ List.filter (called "exchange_rate_manager.convert_currency")
       (trace (snd (get_est_cost_using_known_size N C uri size s)))
     = List.filter (called "exchange_rate_manager.convert_currency") (trace s).
Proof.
  intros Hresolve Hentry.
  assert (Hrun : exists s1,
             get_est_cost_using_known_size N C uri size s = (Ok None, s1)
             /\ List.filter (called "exchange_rate_manager.convert_currency") (trace s1)
                = List.filter (called "exchange_rate_manager.convert_currency") (trace s)).
  { unfold get_est_cost_using_known_size, _resolve, bind, call, lift, ret.
    rewrite Hresolve. cbn [py_values].
    unfold save_claims. destruct (claims_to_save (map snd d) []) as [to_save|e].
    - cbn [py_contains py_getitem]. destruct (dict_lookup d (KStr uri)) as [entry|].
      + rewrite Hentry. eexists. split; [reflexivity|]. cbn [trace].
        rewrite !List.filter_app. cbn. rewrite !app_nil_r. reflexivity.
      + eexists. split; [reflexivity|]. cbn [trace].
        rewrite !List.filter_app. cbn. rewrite !app_nil_r. reflexivity.
    - unfold ret. cbn [py_contains py_getitem].
      destruct (dict_lookup d (KStr uri)) as [entry|].
      + rewrite Hentry. eexists. split; [reflexivity|]. cbn [trace].
        rewrite !List.filter_app. cbn. rewrite !app_nil_r. reflexivity.
      + eexists. split; [reflexivity|]. cbn [trace].
        rewrite !List.filter_app. cbn. rewrite !app_nil_r. reflexivity. }
  destruct Hrun as [s1 [Hrun Htrace]]. rewrite Hrun. split; [reflexivity|exact Htrace].
Qed.

Lemma known_size_estimate_of_unresolved_name_witness :
  fst (get_est_cost_using_known_size integer_costs (scripted (unresolved_script "lbry://one"))
         "lbry://one" (NInt 5000000) start_state) = Ok None
  /\ List.filter (called "exchange_rate_manager.convert_currency")
       (trace (snd (get_est_cost_using_known_size integer_costs
                      (scripted (unresolved_script "lbry://one"))
                      "lbry://one" (NInt 5000000) start_state)))
     = List.filter (called "exchange_rate_manager.convert_currency") (trace start_state).
Proof.
  apply (known_size_estimate_of_unresolved_name integer_costs
           (scripted (unresolved_script "lbry://one")) "lbry://one" (NInt 5000000)
           start_state
           [(KStr "lbry://one", VDict [(KStr "error", VStr "URI not resolvable")])] 0%nat).
  - reflexivity.
  - reflexivity.
Defined.

(** X3.  The descriptor of a stream is downloaded only when the blob
    manager does not hold it: a completed blob is fetched from the blob
    manager and nothing is downloaded; otherwise one download is started,
    with the configured search timeout, and the blob manager is not asked
    for the blob. *)
Theorem sd_blob_is_downloaded_only_when_missing
    {W num : Type} (C : collaborators W num) (sd_hash : string) (s : state W)
    (blob : list string) (w1 : W) :
  completed_blobs C [sd_hash] (world s) = (Ok blob, w1) ->
  let run := get_or_download_sd_blob C sd_hash s in
  match blob with
  | first :: _ =>
      fst run = fst (get_blob C first w1)
      /\ List.filter (called "download_sd_blob") (trace (snd run))
         = List.filter (called "download_sd_blob") (trace s)
  | [] =>
      fst run = fst (download_sd_blob C sd_hash (setting C "search_timeout") w1)
      /\ List.filter (called "download_sd_blob") (trace (snd run))
         = List.filter (called "download_sd_blob") (trace s)
           ++ [Call "download_sd_blob" [VStr sd_hash; setting C "search_timeout"]]
      /\ List.filter (called "blob_manager.get_blob") (trace (snd run))
         = List.filter (called "blob_manager.get_blob") (trace s)
  end.
Proof.
  intros Hdone. cbv zeta.
  unfold get_or_download_sd_blob, bind, call. rewrite Hdone.
  destruct blob as [|first more]; cbn [_get_or_download_sd_blob world trace].
  - unfold call. cbn [world trace].
    destruct (download_sd_blob C sd_hash (setting C "search_timeout") w1) as [r w2].
    cbn [fst snd trace]. rewrite !List.filter_app. cbn. rewrite !app_nil_r.
    repeat split.
  - unfold call. cbn [world trace].
    destruct (get_blob C first w1) as [r w2].
    cbn [fst snd trace]. rewrite !List.filter_app. cbn. rewrite !app_nil_r.
    repeat split.
Qed.

Lemma sd_blob_is_downloaded_only_when_missing_witness :
  fst (get_or_download_sd_blob (scripted sd_timeout_script) "sd1" start_state)
  = Raise (Exn DownloadSDTimeout "sd1")
  /\ List.filter (called "blob_manager.get_blob")
       (trace (snd (get_or_download_sd_blob (scripted sd_timeout_script) "sd1" start_state)))
     = [].
Proof.
  destruct (sd_blob_is_downloaded_only_when_missing (scripted sd_timeout_script) "sd1"
              start_state [] 0%nat eq_refl) as [Hres [_ Hget]].
  split; [exact Hres|exact Hget].
Defined.

Lemma valued_field_some (info : pyval) (name : string) (sub : pyval) :
  valued_field info name = Ok (Some sub) ->
  py_getitem info (KStr name) = Ok sub
  /\ exists v, py_getitem sub (KStr "value") = Ok v /\ truthy v = true.
Proof.
  unfold valued_field, obind. intros H.
  destruct (py_contains (KStr name) info) as [[|]|e]; try discriminate.
  destruct (py_getitem info (KStr name)) as [sub'|e]; [|discriminate].
  destruct (py_getitem sub' (KStr "value")) as [v|e] eqn:Hv; [|discriminate].
  destruct (truthy v) eqn:Ht; inversion H; subst sub'.
  split; [reflexivity|]. exists v. split; assumption.
Qed.

Lemma storable_later (info : pyval) (infos : list pyval) (x : pyval) :
  storable infos x -> storable (info :: infos) x.
Proof.
  intros [i [Hin H]]. exists i. split; [right; exact Hin|exact H].
Qed.

Lemma claims_to_save_storable (infos : list pyval) :
  forall acc saved,
    claims_to_save infos acc = Ok saved ->
    forall x, In x saved -> In x acc \/ storable infos x.
Proof.
  induction infos as [|info infos IH]; intros acc saved Hrun x Hx.
  - cbn in Hrun. inversion Hrun; subst. left. exact Hx.
  - cbn [claims_to_save] in Hrun. unfold obind in Hrun.
    destruct (py_contains (KStr "error") info) as [has_error|e] eqn:Herr; [|discriminate].
    destruct has_error.
    { destruct (IH _ _ Hrun x Hx) as [H|H]; [left; exact H|right; apply storable_later, H]. }
    destruct (py_contains (KStr "value") info) as [has_value|e] eqn:Hval; [|discriminate].
    destruct has_value.
    + destruct (py_getitem info (KStr "value")) as [v|e] eqn:Hv; [|discriminate].
      destruct (IH _ _ Hrun x Hx) as [H|H]; [|right; apply storable_later, H].
      destruct (truthy v) eqn:Ht; [|left; exact H].
      apply in_app_or in H as [H|[H|[]]]; [left; exact H|]. subst x.
      right. exists info. split; [left; reflexivity|]. split; [exact Herr|].
      split; [left; reflexivity|]. exists v. split; assumption.
    + destruct (valued_field info "certificate") as [cert|e] eqn:Hcert; [|discriminate].
      destruct (valued_field info "claim") as [claim|e] eqn:Hclaim; [|discriminate].
      destruct (IH _ _ Hrun x Hx) as [H|H]; [|right; apply storable_later, H].
      apply in_app_or in H as [H|H]; [left; exact H|].
      apply in_app_or in H as [H|H].
      * destruct cert as [cert|]; [|contradiction]. destruct H as [H|[]]. subst x.
        apply valued_field_some in Hcert as [Hget Hv].
        right. exists info. split; [left; reflexivity|]. split; [exact Herr|].
        split; [right; left; exact Hget|exact Hv].
      * destruct claim as [claim|]; [|contradiction]. destruct H as [H|[]]. subst x.
        apply valued_field_some in Hclaim as [Hget Hv].
        right. exists info. split; [left; reflexivity|]. split; [exact Herr|].
        split; [right; right; exact Hget|exact Hv].
Qed.

(** X4.  Resolution returns the wallet's answer as it is, whatever
    becomes of saving it; and what it hands to the storage is taken from
    entries without an error only: such an entry itself, its certificate
    or its claim, each with a truthy value. *)
Theorem resolve_saves_only_claims_without_error
    {W num : Type} (C : collaborators W num) (uri : string) (s : state W)
    (d : dict) (w1 : W) :
  wallet_resolve C uri (world s) = (Ok (VDict d), w1) ->
  fst (_resolve C uri s) = Ok (VDict d)
  /\ forall saved,
       In (Call "storage.save_claims" saved) (trace (snd (_resolve C uri s))) ->
       In (Call "storage.save_claims" saved) (trace s)
       \/ forall x, In x saved -> storable (map snd d) x.
Proof.
  intros Hresolve.
  unfold _resolve, bind, call, lift, ret. rewrite Hresolve. cbn [py_values].
  unfold save_claims.
  destruct (claims_to_save (map snd d) []) as [to_save|e] eqn:Hsave.
  - cbn [fst snd trace]. split; [reflexivity|]. intros saved Hin.
    apply in_app_or in Hin as [Hin|[Hin|[]]].
    + apply in_app_or in Hin as [Hin|[Hin|[]]]; [left; exact Hin|discriminate].
    + inversion Hin; subst saved. right. intros x Hx.
      destruct (claims_to_save_storable _ _ _ Hsave x Hx) as [[]|H]. exact H.
  - unfold ret. cbn [fst snd trace]. split; [reflexivity|]. intros saved Hin.
    apply in_app_or in Hin as [Hin|[Hin|[]]]; [left; exact Hin|discriminate].
Qed.

Lemma resolve_saves_only_claims_without_error_witness :
  fst (_resolve (scripted (unresolved_script "lbry://one")) "lbry://one" start_state)
  = Ok (VDict [(KStr "lbry://one", VDict [(KStr "error", VStr "URI not resolvable")])])
  /\ trace (snd (_resolve (scripted (unresolved_script "lbry://one")) "lbry://one"
                   start_state))
     = [Call "wallet.resolve" [VStr "lbry://one"; VInt 0; VInt 10];
        Call "storage.save_claims" []].
Proof.
  split; [|reflexivity].
  exact (proj1 (resolve_saves_only_claims_without_error
                  (scripted (unresolved_script "lbry://one")) "lbry://one" start_state
                  [(KStr "lbry://one", VDict [(KStr "error", VStr "URI not resolvable")])]
                  0%nat eq_refl)).
Defined.

(** X5.  A peer search that ends in the search timeout is answered
    with an empty list of peers; any other failure of the search is raised
    to the caller. *)
Theorem peer_search_timeout_yields_no_peers
    {W num : Type} (C : collaborators W num) (blob_hash timeout : pyval) (s : state W)
    (e : exn) (w1 : W) :
  is_valid_blobhash C blob_hash = true ->
  iterativeFindValue C blob_hash (py_or timeout (setting C "peer_search_timeout")) (world s)
  = (Raise e, w1) ->
  fst (jsonrpc_peer_list C blob_hash timeout s)
  = if isinstance e DeferTimeoutError then Ok (VList []) else Raise e.
Proof.
  intros Hvalid Hfind.
  unfold jsonrpc_peer_list. rewrite Hvalid. cbn [negb].
  unfold bind, attempt, call, lift, ret. rewrite Hfind. unfold trap_timeout.
  destruct (isinstance e DeferTimeoutError); reflexivity.
Qed.

Lemma peer_search_timeout_yields_no_peers_witness :
  fst (jsonrpc_peer_list (scripted search_timeout_script) (VStr "b1") VNone start_state)
  = Ok (VList []).
Proof.
  exact (peer_search_timeout_yields_no_peers (scripted search_timeout_script) (VStr "b1")
           VNone start_state (Exn DeferTimeoutError "") 0%nat eq_refl eq_refl).
Defined.

Lemma hex_encode_length (s : string) :
  String.length (hex_encode s) = (2 * String.length s)%nat.
Proof.
  induction s as [|c s IH]; [reflexivity|].
  cbn [hex_encode String.length]. rewrite IH. lia.
Qed.

(** X6.  The answer of a peer search that succeeds has one entry per
    peer found, in the order found: the node id in hexadecimal, twice as
    long as the id, and the peer's host and port. *)
Theorem peer_list_has_one_entry_per_peer
    {W num : Type} (C : collaborators W num) (blob_hash timeout : pyval) (s : state W)
    (peers : list (string * pyval * pyval)) (w1 : W) :
  is_valid_blobhash C blob_hash = true ->
  iterativeFindValue C blob_hash (py_or timeout (setting C "peer_search_timeout")) (world s)
  = (Ok peers, w1) ->
  exists entries,
    fst (jsonrpc_peer_list C blob_hash timeout s) = Ok (VList entries)
    /\ List.length entries = List.length peers
    /\ forall i node_id host port,
         nth_error peers i = Some (node_id, host, port) ->
         exists entry,
           nth_error entries i = Some (VDict entry)
           /\ dict_get entry "node_id" = VStr (hex_encode node_id)
           /\ String.length (hex_encode node_id) = (2 * String.length node_id)%nat
           /\ dict_get entry "host" = host
           /\ dict_get entry "port" = port.
Proof.
  intros Hvalid Hfind.
  exists (map contact_dict peers). split; [|split].
  - unfold jsonrpc_peer_list. rewrite Hvalid. cbn [negb].
    unfold bind, attempt, call, lift, ret. rewrite Hfind. reflexivity.
  - apply length_map.
  - intros i node_id host port Hi.
    exists [(KStr "node_id", VStr (hex_encode node_id)); (KStr "host", host);
            (KStr "port", port)].
    split; [|repeat split; apply hex_encode_length].
    rewrite nth_error_map, Hi. reflexivity.
Qed.

Lemma peer_list_has_one_entry_per_peer_witness :
  exists entries,
    fst (jsonrpc_peer_list (scripted two_peers_script) (VStr "b1") VNone start_state)
    = Ok (VList entries)
    /\ List.length entries = 2%nat.
Proof.
  destruct (peer_list_has_one_entry_per_peer (scripted two_peers_script) (VStr "b1") VNone
              start_state
              [("n1", VStr "10.0.0.1", VInt 3333); ("n2", VStr "10.0.0.2", VInt 4444)]
              0%nat eq_refl eq_refl) as [entries [Hrun [Hlen _]]].
  exists entries. split; [exact Hrun|exact Hlen].
Defined.

(** X7.  Deleting a blob asks the blob manager to delete exactly that
    blob, once, when the blob manager holds it, and asks for no deletion
    when it does not; in that case the answer is the rendered
    "Don't have that blob". *)
Theorem blob_is_deleted_only_when_held
    {W num : Type} (C : collaborators W num) (blob_hash : string) (s : state W) :
  List.filter (called "blob_manager.delete_blobs")
    (trace (snd (jsonrpc_blob_delete C blob_hash s)))
  = List.filter (called "blob_manager.delete_blobs") (trace s)
    ++ (if have_blob C blob_hash (world s)
        then [Call "blob_manager.delete_blobs" [VList [VStr blob_hash]]]
        else [])
  /\ (if have_blob C blob_hash (world s) then True
      else fst (jsonrpc_blob_delete C blob_hash s)
           = fst (render_response C (VStr "Don't have that blob") (world s))
           /\ List.filter (called "storage.delete_stream")
                (trace (snd (jsonrpc_blob_delete C blob_hash s)))
              = List.filter (called "storage.delete_stream") (trace s)).
Proof.
  destruct (have_blob C blob_hash (world s)) eqn:Hheld.
  - split; [|exact I].
    unfold jsonrpc_blob_delete, forget_stream, bind, call. rewrite Hheld. cbn [world trace].
    destruct (delete_blobs C [blob_hash] (storage_delete_stream_for C blob_hash (world s)))
      as [[[]|e] w1]; cbn [world trace snd].
    + destruct (render_response C (VStr ("Deleted " +:+ blob_hash)) w1) as [r w2].
      cbn [snd trace]. rewrite !List.filter_app. cbn. rewrite !app_nil_r. reflexivity.
    + rewrite !List.filter_app. cbn. rewrite !app_nil_r. reflexivity.
  - unfold jsonrpc_blob_delete, bind, call. rewrite Hheld.
    destruct (render_response C (VStr "Don't have that blob") (world s)) as [r w1].
    cbn [fst snd trace]. rewrite !List.filter_app. cbn. rewrite !app_nil_r.
    repeat split.
Qed.

(** * Properties of the request handlers *)

(** ** Search types *)

Lemma FileID_values :
  FileID = map VStr ["channel_claim_id"; "channel_name"; "claim_id"; "claim_name";
                     "file_name"; "nout"; "outpoint"; "rowid"; "sd_hash"; "stream_hash";
                     "txid"].
Proof. vm_compute. reflexivity. Qed.

Lemma dict_get_value_str (d : dict) (name : string) :
  dict_get_value d (VStr name) = Ok (dict_get d name).
Proof.
  unfold dict_get_value, dict_get. cbn [as_key].
  destruct (dict_lookup d (KStr name)); reflexivity.
Qed.

Lemma is_not_None_false (v : pyval) : is_not_None v = false -> v = VNone.
Proof. destruct v; cbn; congruence. Qed.

Lemma is_not_None_true (v : pyval) : is_not_None v = true -> v <> VNone.
Proof. destruct v; cbn; congruence. Qed.

Lemma first_search_value_cases (names : list string) (d : dict) :
  match first_search_value (map VStr names) d with
  | Ok (Some (t, v)) =>
      exists i name,
        nth_error names i = Some name /\ t = VStr name
        /\ dict_lookup d (KStr name) = Some v /\ v <> VNone
        /\ forall j other, (j < i)%nat -> nth_error names j = Some other ->
                           dict_get d other = VNone
  | Ok None => forall name, In name names -> dict_get d name = VNone
  | Raise _ => False
  end.
Proof.
  induction names as [|name names IH]; [intros name []|].
  cbn [map first_search_value]. rewrite dict_get_value_str. cbn [obind].
  destruct (is_not_None (dict_get d name)) eqn:Hv.
  - exists 0%nat, name. split; [reflexivity|]. split; [reflexivity|].
    apply is_not_None_true in Hv. unfold dict_get in *.
    destruct (dict_lookup d (KStr name)) as [v|]; [|congruence].
    split; [reflexivity|]. split; [exact Hv|]. intros j other Hj. lia.
  - apply is_not_None_false in Hv.
    destruct (first_search_value (map VStr names) d) as [[[t v]|]|e]; [| |exact IH].
    + destruct IH as [i [n [Hi [Ht [Hl [Hv' Hbefore]]]]]].
      exists (S i), n. repeat split; try assumption.
      intros [|j] other Hj Hother.
      * cbn in Hother. inversion Hother; subst other. exact Hv.
      * cbn in Hother. apply (Hbefore j); [lia|exact Hother].
    + intros n [Hn|Hn]; [subst n; exact Hv|apply IH, Hn].
Qed.

(** X8.  The search types are tried in the order in which [dir] lists
    the attributes of [FileID], which is alphabetical: the search value is
    the first of them that the arguments give a value other than [None],
    whatever else they give; with none, [NoValidSearch] is raised. *)
Theorem search_value_is_first_in_attribute_order
    (format : string -> list pyval -> string) (search_fields : dict) :
  FileID = map VStr ["channel_claim_id"; "channel_name"; "claim_id"; "claim_name";
                     "file_name"; "nout"; "outpoint"; "rowid"; "sd_hash"; "stream_hash";
                     "txid"]
  /\ match get_lbry_file_search_value format search_fields with
     | Reply (searchtype, value) =>
         exists i, nth_error FileID i = Some searchtype
           /\ dict_get_value search_fields searchtype = Ok value
           /\ value <> VNone
           /\ forall j other, (j < i)%nat -> nth_error FileID j = Some other ->
                              dict_get_value search_fields other = Ok VNone
     | Fail e =>
         e = NoValidSearch (format "{} is missing a valid search type" [VDict search_fields])
         /\ forall other, In other FileID -> dict_get_value search_fields other = Ok VNone
     end.
Proof.
  split; [exact FileID_values|].
  unfold get_lbry_file_search_value. rewrite FileID_values.
  pose proof (first_search_value_cases
                ["channel_claim_id"; "channel_name"; "claim_id"; "claim_name";
                 "file_name"; "nout"; "outpoint"; "rowid"; "sd_hash"; "stream_hash";
                 "txid"] search_fields) as H.
  destruct (first_search_value _ search_fields) as [[[t v]|]|e]; [| |contradiction].
  - destruct H as [i [name [Hi [Ht [Hl [Hv Hbefore]]]]]]. subst t.
    exists i. split; [rewrite nth_error_map, Hi; reflexivity|].
    split; [rewrite dict_get_value_str; unfold dict_get; rewrite Hl; reflexivity|].
    split; [exact Hv|].
    intros j other Hj Hother. rewrite nth_error_map in Hother.
    destruct (nth_error _ j) as [o|] eqn:Ho; [|discriminate].
    cbn in Hother. inversion Hother; subst other.
    rewrite dict_get_value_str. f_equal. apply (Hbefore j o Hj Ho).
  - split; [reflexivity|]. intros other Hin.
    apply in_map_iff in Hin as [name [Hname Hin]]. subst other.
    rewrite dict_get_value_str. f_equal. apply H, Hin.
Qed.

Lemma flat_map_agree {A B : Type} (f g : A -> list B) (l : list A) :
  (forall a, In a l -> f a = g a) -> flat_map f l = flat_map g l.
Proof.
  induction l as [|a l IH]; intros H; [reflexivity|].
  cbn [flat_map]. rewrite (H a (or_introl eq_refl)), IH; [reflexivity|].
  intros b Hb. apply H. right. exact Hb.
Qed.

Lemma search_values_cases (names : list string) (d : dict) :
  search_values (map VStr names) d
  = Ok (flat_map (fun name => if is_not_None (dict_get d name)
                              then [(VStr name, dict_get d name)] else [])
                 names).
Proof.
  induction names as [|name names IH]; [reflexivity|].
  cbn [map search_values flat_map]. rewrite dict_get_value_str, IH. cbn [obind].
  destruct (is_not_None (dict_get d name)); reflexivity.
Qed.

Lemma first_search_value_heads (names : list string) (d : dict) :
  first_search_value (map VStr names) d
  = Ok (hd_error (flat_map (fun name => if is_not_None (dict_get d name)
                                        then [(VStr name, dict_get d name)] else [])
                           names)).
Proof.
  induction names as [|name names IH]; [reflexivity|].
  cbn [map first_search_value flat_map]. rewrite dict_get_value_str. cbn [obind].
  destruct (is_not_None (dict_get d name)); [reflexivity|exact IH].
Qed.

(** X9.  The two search helpers agree: the search value of a request is
    the first of its search values, and [NoValidSearch] is raised exactly
    when it has none.  Arguments that are no search types, such as
    [reflector] or [full_status], change no search value. *)
Theorem search_helpers_agree
    (format : string -> list pyval -> string) (search_fields : dict) :
  (exists found,
     iter_lbry_file_search_values search_fields = Ok found
     /\ get_lbry_file_search_value format search_fields
        = match found with
          | first :: _ => Reply first
          | [] => Fail (NoValidSearch (format "{} is missing a valid search type"
                                              [VDict search_fields]))
          end)
  /\ forall (k : string) (v : pyval),
       In (VStr k) FileID
       \/ iter_lbry_file_search_values (dict_set search_fields (KStr k) v)
          = iter_lbry_file_search_values search_fields.
Proof.
  split.
  - unfold iter_lbry_file_search_values, get_lbry_file_search_value.
    rewrite FileID_values, search_values_cases, first_search_value_heads.
    eexists. split; [reflexivity|].
    destruct (flat_map _ _) as [|first rest]; reflexivity.
  - intros k v.
    destruct (in_dec string_dec k
                ["channel_claim_id"; "channel_name"; "claim_id"; "claim_name";
                 "file_name"; "nout"; "outpoint"; "rowid"; "sd_hash"; "stream_hash";
                 "txid"]) as [Hin|Hout].
    + left. rewrite FileID_values. apply in_map. exact Hin.
    + right. unfold iter_lbry_file_search_values.
      rewrite FileID_values, !search_values_cases. f_equal.
      apply flat_map_agree. intros name Hname.
      assert (Hget : dict_get (dict_set search_fields (KStr k) v) name
                     = dict_get search_fields name).
      { unfold dict_get. rewrite dict_lookup_set. cbn [pykey_eqb].
        destruct (String.eqb k name) eqn:Hk; [|reflexivity].
        apply String.eqb_eq in Hk. subst k. contradiction. }
      rewrite Hget. reflexivity.
Qed.

(** ** Sort arguments *)

Lemma split_no_separator (sep : ascii) (s : string) :
  has_char sep s = false -> split sep s = [s].
Proof.
  induction s as [|c s IH]; [reflexivity|].
  cbn [has_char split]. intros H. apply orb_false_iff in H as [Hc Hs].
  rewrite Hc, (IH Hs). reflexivity.
Qed.

Lemma split_at_separator (sep : ascii) (a b : string) :
  has_char sep a = false -> split sep (a +:+ String sep b) = a :: split sep b.
Proof.
  induction a as [|c a IH]; intros H.
  - change (EmptyString +:+ String sep b) with (String sep b).
    cbn [split]. rewrite Ascii.eqb_refl. reflexivity.
  - cbn [has_char] in H. apply orb_false_iff in H as [Hc Ha].
    change (String c a +:+ String sep b) with (String c (a +:+ String sep b)).
    cbn [split]. rewrite Hc, (IH Ha). reflexivity.
Qed.




(** ** Key getters *)

Lemma split_concat (sep : ascii) (keys : list string) :
  keys <> [] ->
  Forall (fun key => has_char sep key = false) keys ->
  split sep (String.concat (String sep EmptyString) keys) = keys.
Proof.
  induction keys as [|key keys IH]; [congruence|].
  intros _ Hall. inversion Hall as [|? ? Hkey Hkeys]; subst.
  destruct keys as [|key' keys].
  - cbn. apply split_no_separator. exact Hkey.
  - replace (String.concat (String sep EmptyString) (key :: key' :: keys))
      with (key +:+ String sep (String.concat (String sep EmptyString) (key' :: keys)))
      by reflexivity.
    rewrite split_at_separator by exact Hkey. f_equal.
    apply IH; [congruence|exact Hkeys].
Qed.

Lemma get_along_holds (field : string) (keys : list string) :
  forall value v, holds_at value keys v -> get_along field keys value = Ok v.
Proof.
  induction keys as [|key keys IH]; intros value v H.
  - cbn in *. congruence.
  - cbn [holds_at get_along] in *. destruct H as [inner [Hget Hrest]].
    rewrite Hget. apply IH, Hrest.
Qed.

Lemma get_along_missing (field : string) (keys : list string) :
  forall value d key rest,
    holds_at value keys (VDict d) ->
    dict_lookup d (KStr key) = None ->
    get_along field (keys ++ key :: rest) value
    = Raise (Exn Exception (key_not_found field key)).
Proof.
  induction keys as [|k keys IH]; intros value d key rest H Hmissing.
  - cbn in H. subst value. cbn [app get_along py_getitem]. rewrite Hmissing.
    reflexivity.
  - cbn [holds_at app get_along] in *. destruct H as [inner [Hget Hrest]].
    rewrite Hget. eapply IH; eassumption.
Qed.

(** X12.  The key getter of a dotted field reads the value found by
    following the field's parts through nested dictionaries, and where a
    part is missing from the dictionary reached it raises an exception
    that names the field and the missing part. *)
Theorem key_getter_follows_dotted_path (keys : list string) (value : pyval) :
  keys <> [] ->
  Forall (fun key => has_char "." key = false) keys ->
  let field := String.concat "." keys in
  (forall v, holds_at value keys v -> create_key_getter field value = Ok v)
  /\ (forall before key after d,
        keys = before ++ key :: after ->
        holds_at value before (VDict d) ->
        dict_lookup d (KStr key) = None ->
        create_key_getter field value = Raise (Exn Exception (key_not_found field key))).
Proof.
  intros Hne Hdots. cbv zeta. unfold create_key_getter.
  rewrite (split_concat "." keys Hne Hdots). split.
  - intros v H. apply get_along_holds, H.
  - intros before key after d Hkeys Hat Hmissing. subst keys.
    eapply get_along_missing; eassumption.
Qed.

Lemma key_getter_follows_dotted_path_witness :
  create_key_getter "metadata.author"
    (VDict [(KStr "file_name", VStr "a");
            (KStr "metadata", VDict [(KStr "author", VStr "someone")])])
  = Ok (VStr "someone")
  /\ create_key_getter "metadata.author"
       (VDict [(KStr "file_name", VStr "a"); (KStr "metadata", VDict [])])
     = Raise (Exn Exception (key_not_found "metadata.author" "author")).
Proof.
  destruct (key_getter_follows_dotted_path ["metadata"; "author"]
              (VDict [(KStr "file_name", VStr "a");
                      (KStr "metadata", VDict [(KStr "author", VStr "someone")])]))
    as [Hfound _].
  { discriminate. }
  { repeat constructor. }
  destruct (key_getter_follows_dotted_path ["metadata"; "author"]
              (VDict [(KStr "file_name", VStr "a"); (KStr "metadata", VDict [])]))
    as [_ Hmissing].
  { discriminate. }
  { repeat constructor. }
  split.
  - apply Hfound. cbn. eexists. split; [reflexivity|]. eexists. split; reflexivity.
  - apply (Hmissing ["metadata"] "author" [] []); [reflexivity| |reflexivity].
    cbn. eexists. split; reflexivity.
Defined.

(** ** Sorting *)

Lemma ordered_app (R : pyval -> pyval -> Prop) (l1 l2 : list pyval) :
  ordered R (l1 ++ l2)
  <-> ordered R l1 /\ ordered R l2 /\ forall a b, In a l1 -> In b l2 -> R a b.
Proof.
  induction l1 as [|x l1 IH]; cbn [app ordered].
  - split; [intros H; repeat split; [exact H|intros a b []]|intros [_ [H _]]; exact H].
  - rewrite IH, List.Forall_app, !List.Forall_forall. split.
    + intros [[H1 H2] [H3 [H4 H5]]]. repeat split; try assumption.
      intros a b [Ha|Ha] Hb; [subst a; apply H2, Hb|apply H5; assumption].
    + intros [[H1 H2] [H3 H4]]. repeat split; try assumption.
      * intros b Hb. apply H4; [left; reflexivity|exact Hb].
      * intros a b Ha Hb. apply H4; [right; exact Ha|exact Hb].
Qed.

Lemma ordered_rev (R : pyval -> pyval -> Prop) (l : list pyval) :
  ordered R l -> ordered (fun a b => R b a) (rev l).
Proof.
  induction l as [|x l IH]; [intros _; exact I|].
  cbn [ordered rev]. intros [Hx Hl]. apply ordered_app.
  split; [apply IH, Hl|]. split; [cbn; split; [constructor|exact I]|].
  intros a b Ha [Hb|[]]. subst b. rewrite List.Forall_forall in Hx.
  apply Hx. apply in_rev. exact Ha.
Qed.

Section SortFacts.
Context {A : Type} (less_than : pyval -> pyval -> bool).

Lemma insert_by_key_permutation (x : pyval * A) (l : list (pyval * A)) :
  Permutation (insert_by_key less_than x l) (x :: l).
Proof.
  induction l as [|y l IH]; [reflexivity|].
  cbn [insert_by_key]. destruct (less_than (fst y) (fst x)); [|reflexivity].
  rewrite IH. apply perm_swap.
Qed.

Lemma sort_by_key_permutation (l : list (pyval * A)) :
  Permutation (sort_by_key less_than l) l.
Proof.
  induction l as [|x l IH]; [reflexivity|].
  cbn [sort_by_key fold_right]. rewrite insert_by_key_permutation.
  apply perm_skip. exact IH.
Qed.

Lemma sorted_keyed_permutation (l : list (pyval * A)) (reverse : bool) :
  Permutation (sorted_keyed less_than l reverse) l.
Proof.
  unfold sorted_keyed. destruct reverse; [|apply sort_by_key_permutation].
  rewrite <- Permutation_rev, sort_by_key_permutation, <- Permutation_rev. reflexivity.
Qed.

(** Stability needs nothing of the order: an element is inserted before
    the first element that is not smaller than it. *)
Lemma insert_by_key_filter (same : pyval -> bool) (x : pyval * A) (l : list (pyval * A)) :
  (forall y, In y l -> less_than (fst y) (fst x) = true -> same (fst x) = true ->
             same (fst y) = false) ->
  List.filter (fun kx => same (fst kx)) (insert_by_key less_than x l)
  = List.filter (fun kx => same (fst kx)) (x :: l).
Proof.
  induction l as [|y l IH]; intros Hsep; [reflexivity|].
  cbn [insert_by_key]. destruct (less_than (fst y) (fst x)) eqn:Hlt; [|reflexivity].
  cbn [List.filter]. rewrite IH by (intros z Hz; apply Hsep; right; exact Hz).
  cbn [List.filter]. destruct (same (fst x)) eqn:Hx; [|reflexivity].
  rewrite (Hsep y (or_introl eq_refl) Hlt eq_refl). reflexivity.
Qed.

Hypothesis less_than_asymmetric :
  forall a b, less_than a b = true -> less_than b a = false.
Hypothesis less_than_negatively_transitive :
  forall a b c, less_than a c = true -> less_than a b = true \/ less_than b c = true.

Lemma insert_by_key_ordered (x : pyval * A) (l : list (pyval * A)) :
  ordered (ascending less_than) (map fst l) ->
  ordered (ascending less_than) (map fst (insert_by_key less_than x l)).
Proof.
  induction l as [|y l IH]; [intros _; cbn; split; [constructor|exact I]|].
  cbn [map ordered insert_by_key]. intros [Hy Hl].
  destruct (less_than (fst y) (fst x)) eqn:Hlt; cbn [map ordered].
  - split; [|apply IH, Hl].
    rewrite List.Forall_forall in *. intros k Hk.
    apply in_map_iff in Hk as [kx [Hkx Hin]]. subst k.
    apply (Permutation_in _ (insert_by_key_permutation x l)) in Hin as [Hin|Hin].
    + subst kx. apply less_than_asymmetric, Hlt.
    + apply Hy. apply in_map. exact Hin.
  - split; [|split; assumption].
    constructor; [exact Hlt|].
    rewrite List.Forall_forall in *. intros k Hk. unfold ascending.
    destruct (less_than k (fst x)) eqn:Hkx; [|reflexivity].
    destruct (less_than_negatively_transitive k (fst y) (fst x) Hkx) as [H|H].
    + specialize (Hy k Hk). unfold ascending in Hy. congruence.
    + congruence.
Qed.

Lemma sort_by_key_ordered (l : list (pyval * A)) :
  ordered (ascending less_than) (map fst (sort_by_key less_than l)).
Proof.
  induction l as [|x l IH]; [exact I|].
  cbn [sort_by_key fold_right]. apply insert_by_key_ordered, IH.
Qed.

Lemma sorted_keyed_ordered (l : list (pyval * A)) (reverse : bool) :
  ordered (if reverse then descending less_than else ascending less_than)
          (map fst (sorted_keyed less_than l reverse)).
Proof.
  unfold sorted_keyed. destruct reverse; [|apply sort_by_key_ordered].
  rewrite map_rev.
  apply (ordered_rev (ascending less_than)), sort_by_key_ordered.
Qed.

Let same (k k' : pyval) : bool := negb (less_than k k') && negb (less_than k' k).

Lemma sort_by_key_stable (k : pyval) (l : list (pyval * A)) :
  List.filter (fun kx => same k (fst kx)) (sort_by_key less_than l)
  = List.filter (fun kx => same k (fst kx)) l.
Proof.
  induction l as [|x l IH]; [reflexivity|].
  cbn [sort_by_key fold_right]. rewrite insert_by_key_filter.
  - cbn [List.filter]. fold (sort_by_key less_than l). rewrite IH. reflexivity.
  - intros y _ Hlt Hx. unfold same in *.
    apply andb_true_iff in Hx as [Hkx Hxk]. apply negb_true_iff in Hkx, Hxk.
    destruct (less_than_negatively_transitive (fst y) k (fst x) Hlt) as [H|H];
      [|congruence].
    rewrite H. apply andb_false_r.
Qed.

Lemma sorted_keyed_stable (k : pyval) (l : list (pyval * A)) (reverse : bool) :
  List.filter (fun kx => same k (fst kx)) (sorted_keyed less_than l reverse)
  = List.filter (fun kx => same k (fst kx)) l.
Proof.
  unfold sorted_keyed. destruct reverse; [|apply sort_by_key_stable].
  rewrite filter_rev, sort_by_key_stable, filter_rev, rev_involutive. reflexivity.
Qed.

End SortFacts.

Lemma with_keys_keyed {A : Type} (key : A -> outcome pyval) (xs : list A) :
  forall keyed,
    with_keys key xs = Ok keyed ->
    map snd keyed = xs /\ Forall (fun kx => key (snd kx) = Ok (fst kx)) keyed.
Proof.
  induction xs as [|x xs IH]; intros keyed H.
  - cbn in H. inversion H; subst. split; [reflexivity|constructor].
  - cbn [with_keys] in H. unfold obind in H.
    destruct (key x) as [k|e] eqn:Hk; [|discriminate].
    destruct (with_keys key xs) as [rest|e]; [|discriminate].
    inversion H; subst keyed. destruct (IH rest eq_refl) as [Hsnd Hall].
    split; [cbn; rewrite Hsnd; reflexivity|constructor; assumption].
Qed.

Lemma filter_keyed (less_than : pyval -> pyval -> bool) (key : pyval -> outcome pyval)
    (k : pyval) (keyed : list (pyval * pyval)) :
  Forall (fun kx => key (snd kx) = Ok (fst kx)) keyed ->
  List.filter (same_rank less_than key k) (map snd keyed)
  = map snd (List.filter (fun kx => negb (less_than k (fst kx))
                                    && negb (less_than (fst kx) k)) keyed).
Proof.
  induction keyed as [|kx keyed IH]; intros Hall; [reflexivity|].
  inversion Hall as [|? ? Hkx Hrest]; subst.
  cbn [map List.filter]. unfold same_rank at 1. rewrite Hkx.
  destruct (negb (less_than k (fst kx)) && negb (less_than (fst kx) k));
    cbn [map]; rewrite (IH Hrest); reflexivity.
Qed.

Section SortFilesFacts.
Variable less_than : pyval -> pyval -> bool.

Lemma sorted_facts (files : list pyval) (key_getter : option (pyval -> outcome pyval))
    (is_reverse : bool) (result : list pyval) :
  sorted less_than files key_getter is_reverse = Ok result ->
  let key := match key_getter with Some getter => getter | None => fun v => Ok v end in
  Permutation files result
  /\ exists keyed,
       result = map snd keyed
       /\ Forall (fun kx => key (snd kx) = Ok (fst kx)) keyed
       /\ ((forall a b c, less_than a c = true ->
                          less_than a b = true \/ less_than b c = true) ->
           forall k, List.filter (same_rank less_than key k) result
                     = List.filter (same_rank less_than key k) files)
       /\ ((forall a b, less_than a b = true -> less_than b a = false) ->
           (forall a b c, less_than a c = true ->
                          less_than a b = true \/ less_than b c = true) ->
           ordered (if is_reverse then descending less_than else ascending less_than)
                   (map fst keyed)).
Proof.
  unfold sorted, obind. cbv zeta.
  set (key := match key_getter with Some getter => getter | None => fun v => Ok v end).
  destruct (with_keys key files) as [keyed|e] eqn:Hkeys; [|discriminate].
  intros H. inversion H; subst result. clear H.
  destruct (with_keys_keyed key files keyed Hkeys) as [Hsnd Hall].
  pose proof (sorted_keyed_permutation less_than keyed is_reverse) as Hperm.
  assert (Hall' : Forall (fun kx => key (snd kx) = Ok (fst kx))
                         (sorted_keyed less_than keyed is_reverse)).
  { rewrite List.Forall_forall in *. intros kx Hin. apply Hall.
    eapply Permutation_in; eassumption. }
  split.
  - rewrite <- Hsnd. symmetry. apply Permutation_map. exact Hperm.
  - exists (sorted_keyed less_than keyed is_reverse).
    split; [reflexivity|]. split; [exact Hall'|]. split.
    + intros Hneg k.
      rewrite <- Hsnd, !filter_keyed by assumption.
      rewrite (sorted_keyed_stable less_than Hneg). reflexivity.
    + intros Hasym Hneg. apply sorted_keyed_ordered; assumption.
Qed.

End SortFilesFacts.

Section SortLbryFiles.
Variable less_than : pyval -> pyval -> bool.

Lemma sort_lbry_files_app (files : list pyval) (first second : list (string * string)) :
  _sort_lbry_files less_than files (first ++ second)
  = obind (_sort_lbry_files less_than files first)
          (fun mid => _sort_lbry_files less_than mid second).
Proof.
  revert files. induction first as [|[field direction] first IH]; intros files.
  - reflexivity.
  - cbn [app _sort_lbry_files].
    destruct (sorted less_than files _ _) as [sorted_files|e]; cbn [obind]; [apply IH|].
    reflexivity.
Qed.

Lemma sort_lbry_files_permutation (sort_by : list (string * string)) :
  forall files result,
    _sort_lbry_files less_than files sort_by = Ok result -> Permutation files result.
Proof.
  induction sort_by as [|[field direction] sort_by IH]; intros files result H.
  - cbn in H. inversion H. reflexivity.
  - cbn [_sort_lbry_files] in H.
    destruct (sorted less_than files _ _) as [sorted_files|e] eqn:Hsorted;
      cbn [obind] in H; [|discriminate].
    apply sorted_facts in Hsorted as [Hperm _].
    rewrite Hperm. apply IH, H.
Qed.

End SortLbryFiles.

(** X13.  Sorting the file list loses no file and adds none: when it
    succeeds, its result is a rearrangement of the list it was given, for
    any sort fields and directions and whatever the comparison of keys
    answers; with no sort field it is the list itself. *)
Theorem sort_keeps_every_file
    (less_than : pyval -> pyval -> bool) (files result : list pyval)
    (sort_by : list (string * string)) :
  _sort_lbry_files less_than files sort_by = Ok result ->
  Permutation files result
  /\ List.length result = List.length files
  /\ (sort_by = [] -> result = files).
Proof.
  intros H. pose proof (sort_lbry_files_permutation less_than sort_by files result H) as Hp.
  split; [exact Hp|]. split; [symmetry; apply Permutation_length, Hp|].
  intros Hempty. subst sort_by. cbn in H. congruence.
Qed.

Lemma sort_keeps_every_file_witness :
  exists result,
    _sort_lbry_files by_rank three_files [("points_paid", "desc"); ("file_name", "asc")]
    = Ok result
    /\ Permutation three_files result
    /\ List.length result = 3%nat.
Proof.
  eexists. split; [vm_compute; reflexivity|].
  destruct (sort_keeps_every_file by_rank three_files _
              [("points_paid", "desc"); ("file_name", "asc")] eq_refl) as [Hp [Hl _]].
  split; [exact Hp|exact Hl].
Defined.

(** X14.  The last sort field given is the one the result is ordered
    by, provided [<] is a strict weak order on the keys: ascending, or
    descending for the direction [desc]; files whose keys for that field
    rank the same stay in the order the earlier sort fields gave them, in
    both directions. *)
Theorem last_sort_field_orders_the_files
    (less_than : pyval -> pyval -> bool) (files result : list pyval)
    (sort_by : list (string * string)) (field direction : string) :
  (forall a b, less_than a b = true -> less_than b a = false) ->
  (forall a b c, less_than a c = true -> less_than a b = true \/ less_than b c = true) ->
  field <> EmptyString ->
  _sort_lbry_files less_than files (sort_by ++ [(field, direction)]) = Ok result ->
  exists mid keys,
    _sort_lbry_files less_than files sort_by = Ok mid
    /\ map (create_key_getter field) result = map Ok keys
    /\ ordered (if String.eqb direction DIRECTION_DESCENDING
                then descending less_than else ascending less_than) keys
    /\ forall k, List.filter (same_rank less_than (create_key_getter field) k) result
                 = List.filter (same_rank less_than (create_key_getter field) k) mid.
Proof.
  intros Hasym Hneg Hfield Hrun.
  rewrite sort_lbry_files_app in Hrun.
  destruct (_sort_lbry_files less_than files sort_by) as [mid|e]; [|discriminate].
  cbn [obind _sort_lbry_files] in Hrun.
  assert (Hnonempty : String.eqb field "" = false).
  { apply String.eqb_neq. exact Hfield. }
  rewrite Hnonempty in Hrun. cbn [negb] in Hrun.
  destruct (sorted less_than mid (Some (create_key_getter field))
              (String.eqb direction DIRECTION_DESCENDING)) as [sorted_files|e] eqn:Hsorted;
    cbn [obind] in Hrun; [|discriminate].
  inversion Hrun; subst sorted_files. clear Hrun.
  apply sorted_facts in Hsorted. cbv zeta in Hsorted.
  destruct Hsorted as [_ [keyed [Hresult [Hall [Hstable Hordered]]]]].
  exists mid, (map fst keyed). split; [reflexivity|]. split; [|split].
  - subst result. rewrite !map_map. apply map_ext_in. intros kx Hin.
    rewrite List.Forall_forall in Hall. apply Hall, Hin.
  - apply Hordered; assumption.
  - apply Hstable, Hneg.
Qed.

Lemma by_rank_asymmetric (a b : pyval) : by_rank a b = true -> by_rank b a = false.
Proof. unfold by_rank. intros H. apply Z.ltb_lt in H. apply Z.ltb_ge. lia. Qed.

Lemma by_rank_negatively_transitive (a b c : pyval) :
  by_rank a c = true -> by_rank a b = true \/ by_rank b c = true.
Proof.
  unfold by_rank. intros H. apply Z.ltb_lt in H.
  destruct (Z.ltb (rank a) (rank b)) eqn:Hab; [left; reflexivity|right].
  apply Z.ltb_ge in Hab. apply Z.ltb_lt. lia.
Qed.

Lemma last_sort_field_orders_the_files_witness :
  _sort_lbry_files by_rank three_files [("file_name", "asc"); ("points_paid", "asc")]
  = Ok [VDict [(KStr "file_name", VStr "a"); (KStr "points_paid", VInt 1)];
        VDict [(KStr "file_name", VStr "c"); (KStr "points_paid", VInt 1)];
        VDict [(KStr "file_name", VStr "b"); (KStr "points_paid", VInt 2)]]
  /\ exists mid keys,
       _sort_lbry_files by_rank three_files [("file_name", "asc")] = Ok mid
       /\ map (create_key_getter "points_paid")
              [VDict [(KStr "file_name", VStr "a"); (KStr "points_paid", VInt 1)];
               VDict [(KStr "file_name", VStr "c"); (KStr "points_paid", VInt 1)];
               VDict [(KStr "file_name", VStr "b"); (KStr "points_paid", VInt 2)]]
          = map Ok keys
       /\ ordered (ascending by_rank) keys.
Proof.
  split; [vm_compute; reflexivity|].
  destruct (last_sort_field_orders_the_files by_rank three_files _ [("file_name", "asc")]
              "points_paid" "asc" by_rank_asymmetric by_rank_negatively_transitive
              ltac:(discriminate) eq_refl) as [mid [keys [Hmid [Hkeys [Hordered _]]]]].
  exists mid, keys. split; [exact Hmid|]. split; [exact Hkeys|exact Hordered].
Defined.

(** ** Files *)

Lemma filter_all {A : Type} (l : list A) : List.filter (fun _ => true) l = l.
Proof. induction l as [|x l IH]; [reflexivity|]. cbn. rewrite IH. reflexivity. Qed.

Lemma filter_twice {A : Type} (p q : A -> bool) (l : list A) :
  List.filter q (List.filter p l) = List.filter (fun x => p x && q x) l.
Proof.
  induction l as [|x l IH]; [reflexivity|].
  cbn [List.filter]. destruct (p x); cbn [List.filter andb]; [|exact IH].
  destruct (q x); rewrite IH; reflexivity.
Qed.

Lemma py_eq_str (item : pyval) (name : string) : py_eq item (VStr name) = true -> item = VStr name.
Proof.
  destruct item; cbn; try discriminate.
  intros H. apply String.eqb_eq in H. congruence.
Qed.

Lemma FileID_contains (item : pyval) :
  IterableContainer_contains _FileID item = true <-> In item FileID.
Proof.
  unfold IterableContainer_contains. fold FileID. rewrite existsb_exists. split.
  - intros [attr [Hin Heq]]. pose proof Hin as Hin'. rewrite FileID_values in Hin'.
    apply in_map_iff in Hin' as [name [Hname _]]. subst attr.
    apply py_eq_str in Heq. subst item. exact Hin.
  - intros Hin. exists item. split; [exact Hin|].
    rewrite FileID_values in Hin. apply in_map_iff in Hin as [name [Hname _]].
    subst item. cbn. apply String.eqb_refl.
Qed.

Section FileFacts.
Context {W : Type} (F : file_services W).

Lemma keep_files_cases (search_type value : pyval) (candidates : list pyval)
    (s : daemon W) :
  match keep_files F search_type value candidates s with
  | (Reply kept, s') =>
      s' = s /\ kept = List.filter (passes F (d_world s) (search_type, value)) candidates
  | (Fail _, s') => s' = s
  end.
Proof.
  induction candidates as [|l_f candidates IH]; [cbn; split; reflexivity|].
  cbn [keep_files List.filter].
  unfold hbind at 1, kept_by, hbind, attribute, hread, hlift, hret, passes.
  cbn [fst snd].
  destruct (getattr F l_f "__dict__" (d_world s)) as [d|e]; cbn [of_outcome]; [|reflexivity].
  destruct (py_getitem_value d search_type) as [v|e]; cbn [of_outcome]; [|reflexivity].
  destruct (keep_files F search_type value candidates s) as [[kept|e] s'].
  - destruct IH as [Hs Hkept]. subst s' kept. split; [reflexivity|].
    destruct (py_eq v value); reflexivity.
  - exact IH.
Qed.

Lemma narrow_cases (searches : list (pyval * pyval)) :
  forall (candidates : list pyval) (s : daemon W),
    match narrow F searches candidates s with
    | (Reply files, s') =>
        s' = s
        /\ files = List.filter (fun l_f => forallb (fun search => passes F (d_world s) search l_f)
                                                 searches) candidates
    | (Fail _, s') => s' = s
    end.
Proof.
  induction searches as [|[search_type value] searches IH]; intros candidates s.
  - cbn. split; [reflexivity|]. symmetry. apply filter_all.
  - cbn [narrow]. unfold hbind.
    pose proof (keep_files_cases search_type value candidates s) as Hkeep.
    destruct (keep_files F search_type value candidates s) as [[kept|e] s1]; [|exact Hkeep].
    destruct Hkeep as [Hs Hkept]. subst s1 kept.
    specialize (IH (List.filter (passes F (d_world s) (search_type, value)) candidates) s).
    destruct (narrow F searches _ s) as [[files|e] s2]; [|exact IH].
    destruct IH as [Hs Hfiles]. subst s2 files. split; [reflexivity|].
    rewrite filter_twice. reflexivity.
Qed.

Lemma first_found_cases (search_by val : pyval) (candidates : list pyval) (s : daemon W) :
  match first_found F search_by val candidates s with
  | (Reply found, s') =>
      s' = s
      /\ found = match List.find (found_in F (d_world s) search_by val) candidates with
                 | Some l_f => l_f
                 | None => VNone
                 end
  | (Fail e, s') => s' = s /\ exists core, e = Core core
  end.
Proof.
  induction candidates as [|l_f candidates IH]; [cbn; split; reflexivity|].
  cbn [first_found List.find].
  unfold hbind at 1, found_by, hbind, attribute, hread, hlift, hret, found_in.
  cbn [fst snd].
  destruct (getattr F l_f "__dict__" (d_world s)) as [d|e]; cbn [of_outcome];
    [|split; [reflexivity|eexists; reflexivity]].
  destruct (py_get_value d search_by) as [v|e]; cbn [of_outcome];
    [|split; [reflexivity|eexists; reflexivity]].
  destruct (py_eq v val); [split; reflexivity|exact IH].
Qed.

End FileFacts.

Lemma get_lbry_files_cases
    {W : Type} (F : file_services W) (return_json full_status : pyval) (kwargs : dict)
    (s : daemon W) :
  truthy return_json = false ->
  exists searches,
    iter_lbry_file_search_values kwargs = Ok searches
    /\ match _get_lbry_files F return_json full_status kwargs s with
       | (Reply files, s') =>
           s' = s
           /\ files = List.filter
                        (fun l_f => forallb (fun search => passes F (d_world s) search l_f)
                                            searches)
                        (lbry_files F (d_world s))
       | (Fail _, s') => s' = s
       end.
Proof.
  intros Hjson. unfold iter_lbry_file_search_values.
  rewrite FileID_values, search_values_cases.
  eexists. split; [reflexivity|].
  unfold _get_lbry_files, hbind at 1. unfold hbind at 1. rewrite Hjson.
  destruct (truthy (VDict kwargs)) eqn:Hkw.
  - unfold hbind at 1, hlift, iter_lbry_file_search_values.
    rewrite FileID_values, search_values_cases. cbn [of_outcome].
    match goal with
    | |- context [narrow F ?searches ?candidates s] =>
        pose proof (narrow_cases F searches candidates s) as Hnarrow;
        destruct (narrow F searches candidates s) as [[files|e] s1]; exact Hnarrow
    end.
  - cbn [hret]. split; [reflexivity|].
    destruct kwargs as [|kv kwargs]; [|discriminate].
    cbn. symmetry. apply filter_all.
Qed.

(** X15.  Without [return_json], the files for a request are the files
    of the file manager, in its order, whose instance dictionary holds the
    requested value under every search type the arguments give; nothing is
    called and nothing changes.  With no search type given these are all
    the files. *)
Theorem lbry_files_pass_every_search
    {W : Type} (F : file_services W) (return_json full_status : pyval) (kwargs : dict)
    (s : daemon W) :
  truthy return_json = false ->
  exists searches,
    iter_lbry_file_search_values kwargs = Ok searches
    /\ snd (_get_lbry_files F return_json full_status kwargs s) = s
    /\ forall files,
         fst (_get_lbry_files F return_json full_status kwargs s) = Reply files ->
         files = List.filter (fun l_f => forallb (fun search => passes F (d_world s) search l_f)
                                                 searches)
                             (lbry_files F (d_world s)).
Proof.
  intros Hjson.
  destruct (get_lbry_files_cases F return_json full_status kwargs s Hjson)
    as [searches [Hsearches Hrun]].
  exists searches. split; [exact Hsearches|].
  destruct (_get_lbry_files F return_json full_status kwargs s) as [[files|e] s1];
    cbn [fst snd].
  - destruct Hrun as [Hs Hfiles]. split; [exact Hs|].
    intros files' H. injection H as <-. exact Hfiles.
  - split; [exact Hrun|]. intros files H. discriminate.
Qed.

Lemma lbry_files_pass_every_search_witness :
  fst (_get_lbry_files (scripted_files twins true) (VBool false) (VBool true)
         [(KStr "file_name", VStr "one.mp4"); (KStr "sd_hash", VStr "sd2");
          (KStr "reflector", VStr "somewhere")] at_rest)
  = Reply [VObj 2].
Proof.
  destruct (lbry_files_pass_every_search (scripted_files twins true) (VBool false)
              (VBool true)
              [(KStr "file_name", VStr "one.mp4"); (KStr "sd_hash", VStr "sd2");
               (KStr "reflector", VStr "somewhere")] at_rest eq_refl)
    as [searches [Hsearches [_ Hfiles]]].
  vm_compute in Hsearches. injection Hsearches as <-.
  destruct (fst (_get_lbry_files (scripted_files twins true) (VBool false) (VBool true)
                   [(KStr "file_name", VStr "one.mp4"); (KStr "sd_hash", VStr "sd2");
                    (KStr "reflector", VStr "somewhere")] at_rest)) as [files|e] eqn:Hrun.
  - rewrite (Hfiles files eq_refl). reflexivity.
  - vm_compute in Hrun. discriminate.
Defined.

Lemma get_lbry_file_cases
    {W : Type} (F : file_services W) (search_by val return_json full_status : pyval)
    (s : daemon W) :
  truthy return_json = false ->
  match _get_lbry_file F search_by val return_json full_status s with
  | (Reply found, s') =>
      s' = s
      /\ In search_by FileID
      /\ found = match List.find (found_in F (d_world s) search_by val)
                                 (lbry_files F (d_world s)) with
                 | Some l_f => l_f
                 | None => VNone
                 end
  | (Fail (NoValidSearch msg), s') =>
      s' = s
      /\ ~ In search_by FileID
      /\ msg = format F "{} is not a valid search operation" [search_by]
  | (Fail _, s') => s' = s /\ In search_by FileID
  end.
Proof.
  intros Hjson. unfold _get_lbry_file.
  destruct (IterableContainer_contains _FileID search_by) eqn:Hin.
  - apply FileID_contains in Hin.
    unfold hbind at 1. unfold hbind at 1.
    pose proof (first_found_cases F search_by val (lbry_files F (d_world s)) s) as Hfound.
    destruct (first_found F search_by val (lbry_files F (d_world s)) s) as [[found|e] s1].
    + destruct Hfound as [Hs Hfound]. subst s1. rewrite Hjson. cbn [andb hret].
      split; [reflexivity|]. split; [exact Hin|exact Hfound].
    + destruct Hfound as [Hs [core He]]. subst s1 e.
      split; [reflexivity|exact Hin].
  - cbn [hraise]. split; [reflexivity|]. split; [|reflexivity].
    intros H. apply FileID_contains in H. congruence.
Qed.

(** X16.  Looking one file up by a search type of [FileID] returns the
    first file of the file manager whose instance dictionary holds the
    value under that type, or [None] when there is none, and changes
    nothing; any other search type raises [NoValidSearch] before a file is
    looked at. *)
Theorem lbry_file_is_the_first_match
    {W : Type} (F : file_services W) (search_by val return_json full_status : pyval)
    (s : daemon W) :
  truthy return_json = false ->
  match _get_lbry_file F search_by val return_json full_status s with
  | (Reply found, s') =>
      s' = s
      /\ In search_by FileID
      /\ found = match List.find (found_in F (d_world s) search_by val)
                                 (lbry_files F (d_world s)) with
                 | Some l_f => l_f
                 | None => VNone
                 end
  | (Fail (NoValidSearch msg), s') =>
      s' = s
      /\ ~ In search_by FileID
      /\ msg = format F "{} is not a valid search operation" [search_by]
  | (Fail _, s') => s' = s /\ In search_by FileID
  end.
Proof. exact (get_lbry_file_cases F search_by val return_json full_status s). Qed.

Lemma lbry_file_is_the_first_match_witness :
  fst (_get_lbry_file (scripted_files twins true) (VStr "file_name") (VStr "one.mp4")
         (VBool false) (VBool true) at_rest) = Reply (VObj 1)
  /\ fst (_get_lbry_file (scripted_files twins true) (VStr "metadata") (VStr "one.mp4")
            (VBool false) (VBool true) at_rest)
     = Fail (NoValidSearch "{} is not a valid search operation").
Proof.
  split.
  - pose proof (lbry_file_is_the_first_match (scripted_files twins true) (VStr "file_name")
                  (VStr "one.mp4") (VBool false) (VBool true) at_rest eq_refl) as H.
    destruct (_get_lbry_file (scripted_files twins true) (VStr "file_name")
                (VStr "one.mp4") (VBool false) (VBool true) at_rest)
      as [[found|e] s'] eqn:Hrun; [|vm_compute in Hrun; discriminate].
    destruct H as [_ [_ H]]. cbn [fst]. rewrite H. reflexivity.
  - pose proof (lbry_file_is_the_first_match (scripted_files twins true) (VStr "metadata")
                  (VStr "one.mp4") (VBool false) (VBool true) at_rest eq_refl) as H.
    destruct (_get_lbry_file (scripted_files twins true) (VStr "metadata")
                (VStr "one.mp4") (VBool false) (VBool true) at_rest)
      as [[found|e] s'] eqn:Hrun; [vm_compute in Hrun; discriminate|].
    destruct e as [core|msg]; try (vm_compute in Hrun; discriminate).
    destruct H as [_ [_ H]]. cbn [fst]. rewrite H. reflexivity.
Defined.

(** ** Unspent outputs *)

Lemma dict_lookup_remove (d : dict) (k k' : pykey) :
  dict_lookup (dict_remove d k) k' = if pykey_eqb k k' then None else dict_lookup d k'.
Proof.
  induction d as [|[k0 v0] d IH]; cbn [dict_remove dict_lookup fst].
  - destruct (pykey_eqb k k'); reflexivity.
  - destruct (pykey_eqb k0 k) eqn:H0k.
    + apply pykey_eqb_eq in H0k. subst k0. rewrite IH.
      destruct (pykey_eqb k k'); reflexivity.
    + cbn [dict_lookup]. rewrite IH.
      destruct (pykey_eqb k0 k') eqn:H0k'; [|reflexivity].
      apply pykey_eqb_eq in H0k'. subst k0. rewrite pykey_eqb_sym, H0k. reflexivity.
Qed.

Lemma pykey_eqb_neq (a b : pykey) : a <> b -> pykey_eqb a b = false.
Proof.
  intros Hab. destruct (pykey_eqb a b) eqn:H; [|reflexivity].
  apply pykey_eqb_eq in H. contradiction.
Qed.

(** The four renamings of one entry: the entry that comes back has under
    [txid], [nout], [amount] and [is_coinbase] what the entry had under
    [prevout_hash], [prevout_n], [value] and [coinbase], has the four old
    keys no more, and has every other key as it was; an entry without one
    of the four old keys ends in the [KeyError] of that key. *)
Lemma rename_utxo_cases (d : dict) :
  match rename_utxo (VDict d) with
  | Ok renamed => exists d', renamed = VDict d' /\ utxo_renamed d d'
  | Raise e =>
      exists old, In old ["prevout_hash"; "prevout_n"; "value"; "coinbase"]
                  /\ dict_lookup d (KStr old) = None
                  /\ e = Exn KeyError (key_repr (KStr old))
  end.
Proof.
  unfold utxo_renamed, rename_utxo, dict_pop, set_item.
  destruct (dict_lookup d (KStr "prevout_hash")) as [v1|] eqn:H1; cbn [obind fst snd];
    [|exists "prevout_hash"; cbn; auto].
  rewrite dict_lookup_set, dict_lookup_remove. cbn [pykey_eqb String.eqb Ascii.eqb Bool.eqb].
  destruct (dict_lookup d (KStr "prevout_n")) as [v2|] eqn:H2; cbn [obind fst snd];
    [|exists "prevout_n"; cbn; auto].
  rewrite dict_lookup_set, dict_lookup_remove, dict_lookup_set, dict_lookup_remove.
  cbn [pykey_eqb String.eqb Ascii.eqb Bool.eqb].
  destruct (dict_lookup d (KStr "value")) as [v3|] eqn:H3; cbn [obind fst snd];
    [|exists "value"; cbn; auto].
  repeat rewrite ?dict_lookup_set, ?dict_lookup_remove.
  cbn [pykey_eqb String.eqb Ascii.eqb Bool.eqb].
  destruct (dict_lookup d (KStr "coinbase")) as [v4|] eqn:H4; cbn [obind fst snd];
    [|exists "coinbase"; cbn; auto 6].
  eexists. split; [reflexivity|].
  repeat split.
  - exists v1. split; [reflexivity|].
    repeat rewrite ?dict_lookup_set, ?dict_lookup_remove.
    cbn [pykey_eqb String.eqb Ascii.eqb Bool.eqb]. reflexivity.
  - exists v2. split; [reflexivity|].
    repeat rewrite ?dict_lookup_set, ?dict_lookup_remove.
    cbn [pykey_eqb String.eqb Ascii.eqb Bool.eqb]. reflexivity.
  - exists v3. split; [reflexivity|].
    repeat rewrite ?dict_lookup_set, ?dict_lookup_remove.
    cbn [pykey_eqb String.eqb Ascii.eqb Bool.eqb]. reflexivity.
  - exists v4. split; [reflexivity|].
    repeat rewrite ?dict_lookup_set, ?dict_lookup_remove.
    cbn [pykey_eqb String.eqb Ascii.eqb Bool.eqb]. reflexivity.
  - intros old Hold.
    repeat rewrite ?dict_lookup_set, ?dict_lookup_remove.
    cbn [In] in Hold.
    destruct Hold as [<-|[<-|[<-|[<-|[]]]]];
      cbn [pykey_eqb String.eqb Ascii.eqb Bool.eqb]; reflexivity.
  - intros k Hk.
    repeat rewrite ?dict_lookup_set, ?dict_lookup_remove.
    cbn [map In] in Hk.
    repeat match goal with
           | |- context [pykey_eqb (KStr ?name) k] =>
               rewrite (pykey_eqb_neq (KStr name) k) by (intros Heq; apply Hk; tauto)
           end.
    reflexivity.
Qed.

Lemma rename_utxos_cases (entries : list dict) :
  match rename_utxos (map VDict entries) with
  | Ok result =>
      exists renamed, result = map VDict renamed /\ Forall2 utxo_renamed entries renamed
  | Raise e =>
      exists d old, In d entries
                    /\ In old ["prevout_hash"; "prevout_n"; "value"; "coinbase"]
                    /\ dict_lookup d (KStr old) = None
                    /\ e = Exn KeyError (key_repr (KStr old))
  end.
Proof.
  induction entries as [|d entries IH]; [exists []; split; [reflexivity|constructor]|].
  cbn [map rename_utxos].
  pose proof (rename_utxo_cases d) as Hd.
  destruct (rename_utxo (VDict d)) as [first|e]; cbn [obind].
  - destruct Hd as [d' [-> Hd']].
    destruct (rename_utxos (map VDict entries)) as [others|e]; cbn [obind].
    + destruct IH as [renamed [-> Hall]].
      exists (d' :: renamed). split; [reflexivity|constructor; assumption].
    + destruct IH as [d0 [old [Hin H]]]. exists d0, old. split; [right; exact Hin|exact H].
  - destruct Hd as [old H]. exists d, old. split; [left; reflexivity|exact H].
Qed.

(** X17.  [utxo_list] asks the wallet once and returns its entries, as
    many and in the same order, each with four keys renamed: an entry has
    under [txid], [nout], [amount] and [is_coinbase] what the wallet's
    entry had under [prevout_hash], [prevout_n], [value] and [coinbase],
    has the four old keys no more, and has every other key as it was.
    When an entry of the wallet lacks one of the four old keys, the call
    ends in the [KeyError] of that key. *)
Theorem utxo_list_renames_the_keys
    {W : Type} (S : wallet_services W) (entries : list dict) (w1 : W) (s : state W) :
  list_unspent S (world s) = (Ok (VList (map VDict entries)), w1) ->
  match jsonrpc_utxo_list S s with
  | (Ok result, s') =>
      (exists renamed,
         result = VList (map VDict renamed) /\ Forall2 utxo_renamed entries renamed)
      /\ s' = State w1 (trace s ++ [Call "wallet.list_unspent" []])
  | (Raise e, s') =>
      exists d old, In d entries
                    /\ In old ["prevout_hash"; "prevout_n"; "value"; "coinbase"]
                    /\ dict_lookup d (KStr old) = None
                    /\ e = Exn KeyError (key_repr (KStr old))
  end.
Proof.
  intros Hwallet. unfold jsonrpc_utxo_list, bind at 1, call. rewrite Hwallet.
  unfold bind, lift, ret.
  pose proof (rename_utxos_cases entries) as Hcases.
  destruct (rename_utxos (map VDict entries)) as [result|e].
  - destruct Hcases as [renamed [-> Hall]].
    split; [exists renamed; split; [reflexivity|exact Hall]|reflexivity].
  - exact Hcases.
Qed.

Lemma utxo_list_renames_the_keys_witness :
  fst (jsonrpc_utxo_list scripted_wallet start_state)
  = Ok (VList [VDict [(KStr "height", VInt 100); (KStr "txid", VStr "tx1");
                      (KStr "nout", VInt 0); (KStr "amount", VInt 5);
                      (KStr "is_coinbase", VBool false)]])
  /\ exists renamed,
       fst (jsonrpc_utxo_list scripted_wallet start_state) = Ok (VList (map VDict renamed))
       /\ Forall2 utxo_renamed
            [[(KStr "prevout_hash", VStr "tx1"); (KStr "prevout_n", VInt 0);
              (KStr "value", VInt 5); (KStr "coinbase", VBool false);
              (KStr "height", VInt 100)]]
            renamed.
Proof.
  split; [reflexivity|].
  pose proof (utxo_list_renames_the_keys scripted_wallet
                [[(KStr "prevout_hash", VStr "tx1"); (KStr "prevout_n", VInt 0);
                  (KStr "value", VInt 5); (KStr "coinbase", VBool false);
                  (KStr "height", VInt 100)]] 0%nat start_state eq_refl) as H.
  destruct (jsonrpc_utxo_list scripted_wallet start_state) as [[result|e] s'] eqn:Hrun.
  - destruct H as [[renamed [-> Hall]] _]. exists renamed. split; [reflexivity|exact Hall].
  - vm_compute in Hrun. discriminate Hrun.
Defined.


(** ** Pages of blob hashes *)

Lemma firstn_add {A : Type} (a b : nat) (l : list A) :
  firstn (a + b) l = (firstn a l ++ firstn b (skipn a l))%list.
Proof.
  revert l. induction a as [|a IH]; intros l; [reflexivity|].
  destruct l as [|x l]; cbn [Nat.add firstn skipn app].
  - destruct b; reflexivity.
  - rewrite IH. reflexivity.
Qed.

Lemma firstn_long {A : Type} (n m : nat) (l : list A) :
  (List.length l <= n)%nat -> (List.length l <= m)%nat -> firstn n l = firstn m l.
Proof.
  intros Hn Hm. rewrite (firstn_all2 (n:=n)) by exact Hn.
  rewrite (firstn_all2 (n:=m)) by exact Hm. reflexivity.
Qed.

Lemma clamp_within (n i : Z) : 0 <= n -> 0 <= i -> clamp n i = Z.min n i.
Proof.
  intros Hn Hi. unfold clamp.
  destruct (Z.ltb_spec i 0) as [H|_]; [lia|].
  destruct (Z.ltb_spec i 0) as [H|_]; [lia|].
  destruct (Z.ltb_spec n i); lia.
Qed.

Lemma blob_page_content (blob_hashes : list pyval) (size p : Z) :
  0 < size -> 0 <= p ->
  blob_page blob_hashes (VInt size) (VInt p)
  = Ok (firstn (Z.to_nat size) (skipn (Z.to_nat p * Z.to_nat size) blob_hashes)).
Proof.
  intros Hsize Hp. unfold blob_page, py_or. cbn [truthy].
  replace (size =? 0) with false by (symmetry; apply Z.eqb_neq; lia). cbn [negb].
  assert (Hpage : as_int (if negb (p =? 0) then VInt p else VInt 0) = Some p).
  { destruct (Z.eqb_spec p 0) as [->|Hne]; reflexivity. }
  rewrite Hpage. cbn [as_int]. f_equal.
  unfold py_slice.
  set (n := Z.of_nat (List.length blob_hashes)).
  assert (Hn : 0 <= n) by (subst n; lia).
  assert (Hstart : 0 <= p * size) by nia.
  rewrite !clamp_within by lia.
  replace (Z.to_nat p * Z.to_nat size)%nat with (Z.to_nat (p * size))
    by (rewrite Z2Nat.inj_mul by lia; reflexivity).
  destruct (Z.le_gt_cases n (p * size)) as [Hbeyond|Hwithin].
  - (* the page starts after the last hash *)
    rewrite !Z.min_l by lia. replace (n - n) with 0 by lia. cbn [Z.to_nat firstn].
    rewrite (skipn_all2 (n:=Z.to_nat (p * size))) by (subst n; lia).
    destruct (Z.to_nat size); reflexivity.
  - rewrite (Z.min_r n (p * size)) by lia.
    destruct (Z.le_gt_cases n (p * size + size)) as [Hshort|Hfull].
    + rewrite Z.min_l by lia.
      apply firstn_long; rewrite length_skipn; subst n; lia.
    + rewrite Z.min_r by lia. f_equal. lia.
Qed.

(** X18.  With neither a page nor a page size the whole list of hashes
    is returned.  With a positive page size the pages 0, 1, ..., k-1, one
    after another, are the first k times [page_size] hashes: no hash is
    left out between two pages and none is returned twice. *)
Theorem blob_pages_partition (blob_hashes : list pyval) (size : Z) (k : nat) :
  0 < size ->
  blob_page blob_hashes VNone VNone = Ok blob_hashes
  /\ exists pages,
       Forall2 (fun p page => blob_page blob_hashes (VInt size) (VInt (Z.of_nat p)) = Ok page)
               (seq 0 k) pages
       /\ concat pages = firstn (k * Z.to_nat size) blob_hashes.
Proof.
  intros Hsize. split.
  - unfold blob_page, py_or, py_slice. cbn [truthy as_int].
    set (n := Z.of_nat (List.length blob_hashes)).
    assert (Hn : 0 <= n) by (subst n; lia).
    replace (0 * n) with 0 by lia. replace (0 + n) with n by lia.
    rewrite !clamp_within by lia.
    rewrite (Z.min_r n 0), Z.min_id by lia. cbn [Z.to_nat skipn].
    replace (n - 0) with n by lia. subst n. rewrite Nat2Z.id, firstn_all. reflexivity.
  - induction k as [|k [pages [Hpages Hconcat]]].
    + exists []. split; [constructor|reflexivity].
    + exists (pages ++ [firstn (Z.to_nat size)
                          (skipn (k * Z.to_nat size) blob_hashes)])%list.
      split.
      * rewrite seq_S. apply List.Forall2_app; [exact Hpages|].
        constructor; [|constructor]. cbn [Nat.add].
        rewrite blob_page_content by lia. rewrite Nat2Z.id. reflexivity.
      * rewrite concat_app, Hconcat. cbn [concat]. rewrite app_nil_r.
        replace (Datatypes.S k * Z.to_nat size)%nat with (k * Z.to_nat size + Z.to_nat size)%nat
          by lia.
        symmetry. apply firstn_add.
Qed.

Lemma blob_pages_partition_witness :
  blob_page [VStr "a"; VStr "b"; VStr "c"; VStr "d"; VStr "e"] VNone VNone
  = Ok [VStr "a"; VStr "b"; VStr "c"; VStr "d"; VStr "e"]
  /\ exists pages,
       Forall2 (fun p page =>
                  blob_page [VStr "a"; VStr "b"; VStr "c"; VStr "d"; VStr "e"]
                            (VInt 2) (VInt (Z.of_nat p)) = Ok page)
               (seq 0 3) pages
       /\ concat pages
          = firstn (3 * Z.to_nat 2) [VStr "a"; VStr "b"; VStr "c"; VStr "d"; VStr "e"].
Proof.
  apply (blob_pages_partition [VStr "a"; VStr "b"; VStr "c"; VStr "d"; VStr "e"] 2 3).
  reflexivity.
Defined.

(** ** What a handler leaves out of the trace *)

Section HandlerSilence.
Context {W : Type} (p : event -> bool).

Lemma hsilent_ret {A : Type} (a : A) : hsilent p (@hret W A a).
Proof. intros s. reflexivity. Qed.

Lemma hsilent_raise {A : Type} (e : request_exn) : hsilent p (@hraise W A e).
Proof. intros s. reflexivity. Qed.

Lemma hsilent_fail {A : Type} (e : exn) : hsilent p (@hfail W A e).
Proof. intros s. reflexivity. Qed.

Lemma hsilent_lift {A : Type} (r : outcome A) : hsilent p (@hlift W A r).
Proof. intros s. reflexivity. Qed.

Lemma hsilent_reply {A : Type} (r : reply A) : hsilent p (@hreply W A r).
Proof. intros s. reflexivity. Qed.

Lemma hsilent_read {A : Type} (f : W -> outcome A) : hsilent p (hread f).
Proof. intros s. reflexivity. Qed.

Lemma hsilent_bind {A B : Type} (h : handler W A) (f : A -> handler W B) :
  hsilent p h -> (forall a, hsilent p (f a)) -> hsilent p (hbind h f).
Proof.
  intros Hh Hf s. unfold hbind. specialize (Hh s).
  destruct (h s) as [[a|e] s1]; cbn [snd] in *; [rewrite Hf|]; exact Hh.
Qed.


Lemma hsilent_emit (ev : event) : p ev = false -> hsilent p (@hemit W ev).
Proof.
  intros Hp s. unfold hemit. cbn [snd d_trace].
  rewrite List.filter_app. cbn [List.filter]. rewrite Hp. apply app_nil_r.
Qed.

Lemma hsilent_call {A : Type} (callee : string) (args : list pyval)
    (f : W -> outcome A * W) :
  p (Call callee args) = false -> hsilent p (hcall callee args f).
Proof.
  intros Hp s. unfold hcall. destruct (f (d_world s)) as [r w1]. cbn [snd d_trace].
  rewrite List.filter_app. cbn [List.filter]. rewrite Hp. apply app_nil_r.
Qed.

Lemma hsilent_of_M {A : Type} (m : M W A) : silent p m -> hsilent p (of_M m).
Proof.
  intros Hm s. unfold of_M. specialize (Hm (State (d_world s) (d_trace s))).
  destruct (m (State (d_world s) (d_trace s))) as [r s1]. exact Hm.
Qed.

Lemma hsilent_streams_contains (sd_hash : string) : hsilent p (@streams_contains W sd_hash).
Proof. intros s. reflexivity. Qed.

Lemma hsilent_streams_get (sd_hash : string) : hsilent p (@streams_get W sd_hash).
Proof. intros s. reflexivity. Qed.

Lemma hsilent_streams_del (sd_hash : string) : hsilent p (@streams_del W sd_hash).
Proof. intros s. unfold streams_del. destruct (streams s !! sd_hash); reflexivity. Qed.

Lemma hsilent_resumed (F : file_services W) : hsilent p (resumed F).
Proof. intros s. reflexivity. Qed.

Lemma hsilent_yielded {A : Type} (F : file_services W) (h : handler W A) :
  hsilent p h -> hsilent p (yielded F h).
Proof.
  intros Hh. unfold yielded.
  apply hsilent_bind; [exact Hh|intros a].
  apply hsilent_bind; [apply hsilent_resumed|intros _; apply hsilent_ret].
Qed.

Lemma hsilent_attribute (F : file_services W) (obj : pyval) (name : string) :
  hsilent p (attribute F obj name).
Proof. apply hsilent_read. Qed.

Lemma hsilent_read_attributes (F : file_services W) (obj : pyval) (names : list string) :
  hsilent p (read_attributes F obj names).
Proof.
  induction names as [|name names IH]; [apply hsilent_ret|].
  cbn [read_attributes].
  apply hsilent_bind; [apply hsilent_attribute|intros v].
  apply hsilent_bind; [exact IH|intros entries; apply hsilent_ret].
Qed.

End HandlerSilence.

Ltac hsilence :=
  repeat first
    [ apply hsilent_ret | apply hsilent_raise | apply hsilent_fail | apply hsilent_lift
    | apply hsilent_reply | apply hsilent_read | apply hsilent_attribute
    | apply hsilent_read_attributes
    | apply hsilent_streams_contains | apply hsilent_streams_get
    | apply hsilent_streams_del | apply hsilent_resumed
    | apply hsilent_call; reflexivity | apply hsilent_emit; reflexivity
    | apply hsilent_yielded
    | apply hsilent_bind; [|intros ?]
    | match goal with
      | |- hsilent _ (if ?b then _ else _) => destruct b
      | |- hsilent _ (let '(_, _) := ?x in _) => destruct x
      | |- hsilent _ (match ?x with _ => _ end) => destruct x
      end ].

Section FileSilence.
Context {W : Type} (F : file_services W) (p : event -> bool).
Hypothesis quiet_total_bytes : forall args, p (Call "lbry_file.get_total_bytes" args) = false.
Hypothesis quiet_status : forall args, p (Call "lbry_file.status" args) = false.


End FileSilence.

(** ** Downloading a stream by its URI *)



Lemma resolved_claim_unknown (uri : string) (results : dict) :
  dict_lookup results (KStr uri) = None ->
  resolved_claim uri (VDict results)
  = Raise (Exn TypeError "argument of type 'NoneType' is not iterable").
Proof.
  intros Hnone. unfold resolved_claim.
  destruct (truthy (VDict results)); cbn [py_contains obind]; [rewrite Hnone|]; reflexivity.
Qed.

Lemma resolved_claim_without_claim (uri : string) (results entry : dict) :
  dict_lookup results (KStr uri) = Some (VDict entry) ->
  dict_lookup entry (KStr "value") = None ->
  dict_lookup entry (KStr "claim") = None ->
  resolved_claim uri (VDict results) = Raise (Exn Exception (failed_to_resolve uri)).
Proof.
  intros Hentry Hvalue Hclaim. unfold resolved_claim.
  assert (Htruthy : truthy (VDict results) = true).
  { destruct results; [discriminate|reflexivity]. }
  rewrite Htruthy. cbn [py_contains py_getitem obind]. rewrite Hentry. cbn [obind].
  destruct (negb (truthy (VDict entry))); cbn [py_contains obind];
    rewrite ?Hvalue, ?Hclaim; cbn [negb obind]; rewrite ?Hclaim; reflexivity.
Qed.

(** X20.  [get] on a URI the wallet did not resolve ends before
    anything is looked up or downloaded: when the wallet's answer has the
    URI with neither a [value] nor a [claim] (an error entry), in the
    exception "Failed to resolve stream at lbry://..." with the URI's
    scheme taken off; when the answer lacks the URI, in the [TypeError] of
    the test ['claim' not in None]. *)
Theorem get_of_unresolved_uri
    {W num : Type} (C : collaborators W num) (F : file_services W) (U : uri_services W)
    (E : surroundings W) (uri : string) (file_name timeout : pyval) (parsed : parsed_uri)
    (results : dict) (s : daemon W) (s1 : state W) :
  parse_lbry_uri U uri = Ok parsed ->
  uri_is_channel parsed && negb (truthy (uri_path parsed)) = false ->
  _resolve C uri (State (d_world s) (d_trace s)) = (Ok (VDict results), s1) ->
  let after := Daemon (world s1) (meanwhile F (world s1) (streams s)) (trace s1) in
  (dict_lookup results (KStr uri) = None ->
   jsonrpc_get C F U E uri file_name timeout s
   = (Fail (Core (Exn TypeError "argument of type 'NoneType' is not iterable")), after))
  /\ (forall entry,
        dict_lookup results (KStr uri) = Some (VDict entry) ->
        dict_lookup entry (KStr "value") = None ->
        dict_lookup entry (KStr "claim") = None ->
        jsonrpc_get C F U E uri file_name timeout s
        = (Fail (Core (Exn Exception (failed_to_resolve uri))), after)).
Proof.
  intros Hparse Hchannel Hresolve after.
  assert (Hrun : forall e,
             resolved_claim uri (VDict results) = Raise e ->
             jsonrpc_get C F U E uri file_name timeout s = (Fail (Core e), after)).
  { intros e He. unfold jsonrpc_get. rewrite Hparse.
    unfold hbind at 1. cbn [hlift of_outcome]. rewrite Hchannel.
    unfold hbind at 1, yielded, hbind at 1, of_M. rewrite Hresolve.
    cbn [of_outcome]. unfold hbind at 1, resumed. cbn [hret d_world d_trace streams].
    unfold hbind, hlift. rewrite He. reflexivity. }
  split.
  - intros Hnone. apply Hrun, resolved_claim_unknown, Hnone.
  - intros entry Hentry Hvalue Hclaim.
    apply Hrun, (resolved_claim_without_claim uri results entry); assumption.
Qed.

Lemma get_of_unresolved_uri_witness :
  jsonrpc_get (scripted (unresolved_script "lbry://one")) (scripted_files two_files true)
    scripted_uris numbered_surroundings "lbry://one" VNone VNone at_rest
  = (Fail (Core (Exn Exception "Failed to resolve stream at lbry://one")),
     Daemon 0%nat ∅ [Call "wallet.resolve" [VStr "lbry://one"; VInt 0; VInt 10];
                     Call "storage.save_claims" []]).
Proof.
  apply (proj2 (get_of_unresolved_uri (scripted (unresolved_script "lbry://one"))
                  (scripted_files two_files true) scripted_uris numbered_surroundings
                  "lbry://one" VNone VNone
                  {| uri_name := VStr "lbry:"; uri_is_channel := false;
                     uri_path := VStr "" |}
                  [(KStr "lbry://one", VDict [(KStr "error", VStr "URI not resolvable")])]
                  at_rest
                  (State 0%nat [Call "wallet.resolve" [VStr "lbry://one"; VInt 0; VInt 10];
                                Call "storage.save_claims" []])
                  eq_refl eq_refl eq_refl)
               [(KStr "error", VStr "URI not resolvable")]);
    reflexivity.
Defined.

(** ** Deleting files *)

Section DeleteFacts.
Context {W num : Type} (C : collaborators W num) (F : file_services W).

Lemma hbind_yielded_reply {A B : Type} (h : handler W A) (f : A -> handler W B)
    (s s' : daemon W) (a : A) :
  h s = (Reply a, s') ->
  hbind (yielded F h) f s
  = f a (Daemon (d_world s') (meanwhile F (d_world s') (streams s')) (d_trace s')).
Proof. intros Hrun. unfold hbind, yielded, hbind. rewrite Hrun. reflexivity. Qed.

Lemma get_lbry_files_with_unchanged (kwargs : dict) (s : daemon W) :
  snd (_get_lbry_files_with F (VBool false) kwargs s) = s.
Proof.
  unfold _get_lbry_files_with.
  destruct (dict_lookup kwargs (KStr "return_json")); [reflexivity|].
  match goal with
  | |- snd (_get_lbry_files F _ ?full_status ?kw s) = s =>
      destruct (get_lbry_files_cases F (VBool false) full_status kw s eq_refl)
        as [searches [_ Hrun]];
      destruct (_get_lbry_files F (VBool false) full_status kw s) as [[files|e] s1]
  end; cbn [snd]; [destruct Hrun as [Hs _]|]; congruence.
Qed.

Lemma hsilent_forget_session (p : event -> bool) (lbry_file : pyval) :
  hsilent p (forget_session F lbry_file).
Proof. unfold forget_session. hsilence. Qed.

Lemma delete_files_calls (delete_from_download_dir : pyval) (lbry_files : list pyval) :
  forall s,
    match delete_files F lbry_files delete_from_download_dir s with
    | (r, s') =>
        exists n,
          List.filter (called "file_manager.delete_lbry_file") (d_trace s')
          = (List.filter (called "file_manager.delete_lbry_file") (d_trace s)
             ++ map (deletion delete_from_download_dir) (firstn n lbry_files))%list
          /\ (forall x, r = Reply x -> n = List.length lbry_files)
    end.
Proof.
  induction lbry_files as [|lbry_file rest IH]; intros s.
  - exists 0%nat. cbn. rewrite app_nil_r. split; reflexivity.
  - cbn [delete_files].
    unfold hbind at 1, attribute at 1, hread.
    destruct (getattr F lbry_file "file_name" (d_world s)) as [file_name|e];
      cbn [of_outcome];
      [|exists 0%nat; cbn [firstn map]; rewrite app_nil_r;
        split; [reflexivity|intros x Hx; discriminate Hx]].
    unfold hbind at 1, attribute at 1, hread.
    destruct (getattr F lbry_file "stream_hash" (d_world s)) as [stream_hash|e];
      cbn [of_outcome];
      [|exists 0%nat; cbn [firstn map]; rewrite app_nil_r;
        split; [reflexivity|intros x Hx; discriminate Hx]].
    unfold hbind at 1.
    pose proof (hsilent_forget_session (called "file_manager.delete_lbry_file") lbry_file s)
      as Hforget.
    destruct (forget_session F lbry_file s) as [[[]|e] s1]; cbn [snd] in Hforget;
      [|exists 0%nat; cbn [firstn map]; rewrite app_nil_r;
        split; [exact Hforget|intros x Hx; discriminate Hx]].
    unfold hbind at 1, yielded, hbind at 1, hcall.
    destruct (delete_lbry_file F lbry_file delete_from_download_dir (d_world s1))
      as [[deleted|e] w2]; cbn [of_outcome].
    + unfold hbind at 1, resumed. cbn [hret d_world streams d_trace].
      unfold hbind at 1, hemit. cbn [d_world streams d_trace].
      match goal with
      | |- context [delete_files F rest delete_from_download_dir ?s3] =>
          specialize (IH s3);
          destruct (delete_files F rest delete_from_download_dir s3) as [r s']
      end.
      destruct IH as [n [Hcalls Hall]].
      exists (Datatypes.S n). split.
      * rewrite Hcalls. cbn [d_trace firstn map].
        rewrite !List.filter_app. cbn [List.filter called deletion].
        rewrite Hforget. cbn. rewrite app_nil_r, <- app_assoc. reflexivity.
      * intros x Hx. cbn [List.length]. f_equal. exact (Hall x Hx).
    + exists 1%nat. cbn [d_trace firstn map].
      split; [|intros x Hx; discriminate Hx].
      rewrite List.filter_app. cbn [List.filter called deletion].
      rewrite Hforget. reflexivity.
Qed.

Lemma hsilent_delete_files (p : event -> bool) (delete_from_download_dir : pyval)
    (lbry_files : list pyval) :
  (forall args, p (Call "file_manager.delete_lbry_file" args) = false) ->
  (forall level msg, p (Log level msg) = false) ->
  hsilent p (delete_files F lbry_files delete_from_download_dir).
Proof.
  intros Hcall Hlog.
  induction lbry_files as [|lbry_file rest IH]; [apply hsilent_ret|].
  cbn [delete_files].
  apply hsilent_bind; [apply hsilent_attribute|intros file_name].
  apply hsilent_bind; [apply hsilent_attribute|intros stream_hash].
  apply hsilent_bind; [apply hsilent_forget_session|intros _].
  apply hsilent_bind; [apply hsilent_yielded, hsilent_call, Hcall|intros _].
  apply hsilent_bind; [apply hsilent_emit, Hlog|intros _].
  exact IH.
Qed.

Lemma get_lbry_files_with_run (kwargs : dict) (s : daemon W) (files : list pyval) :
  fst (_get_lbry_files_with F (VBool false) kwargs s) = Reply files ->
  _get_lbry_files_with F (VBool false) kwargs s = (Reply files, s).
Proof.
  intros Hfiles. pose proof (get_lbry_files_with_unchanged kwargs s) as Hs.
  destruct (_get_lbry_files_with F (VBool false) kwargs s) as [r s1].
  cbn [fst snd] in *. congruence.
Qed.

End DeleteFacts.

(** X21.  When the search of [file_delete] matches more than one file
    and [delete_all] is not given, no file is deleted: the file manager is
    not asked to delete anything and [False] is the response. *)
Theorem several_files_are_not_deleted
    {W num : Type} (C : collaborators W num) (F : file_services W)
    (delete_from_download_dir delete_all : pyval) (kwargs : dict) (files : list pyval)
    (s : daemon W) :
  truthy delete_all = false ->
  fst (_get_lbry_files_with F (VBool false) kwargs s) = Reply files ->
  (1 < List.length files)%nat ->
  match jsonrpc_file_delete C F delete_from_download_dir delete_all kwargs s with
  | (r, s') =>
      List.filter (called "file_manager.delete_lbry_file") (d_trace s')
      = List.filter (called "file_manager.delete_lbry_file") (d_trace s)
      /\ List.filter (called "_render_response") (d_trace s')
         = (List.filter (called "_render_response") (d_trace s)
            ++ [Call "_render_response" [VBool false]])%list
  end.
Proof.
  intros Hall Hfiles Hseveral. apply get_lbry_files_with_run in Hfiles.
  unfold jsonrpc_file_delete. rewrite (hbind_yielded_reply F _ _ s s files Hfiles).
  replace (1 <? List.length files)%nat with true by (symmetry; apply Nat.ltb_lt; exact Hseveral).
  rewrite Hall. cbn [negb andb].
  unfold hbind at 1, hemit. cbn [d_world streams d_trace].
  unfold yielded, hbind at 1, hcall. cbn [d_world streams d_trace].
  destruct (render_response C (VBool false) (d_world s)) as [[rendered|e] w1];
    unfold hbind, resumed, hret; cbn [of_outcome d_trace d_world streams];
    rewrite !List.filter_app; cbn; rewrite !app_nil_r; split; reflexivity.
Qed.

Lemma several_files_are_not_deleted_witness :
  match jsonrpc_file_delete (scripted quiet) (scripted_files twins true) (VBool true)
          (VBool false) [(KStr "file_name", VStr "one.mp4")] at_rest with
  | (r, s') =>
      List.filter (called "file_manager.delete_lbry_file") (d_trace s')
      = List.filter (called "file_manager.delete_lbry_file") (d_trace at_rest)
      /\ List.filter (called "_render_response") (d_trace s')
         = (List.filter (called "_render_response") (d_trace at_rest)
            ++ [Call "_render_response" [VBool false]])%list
  end.
Proof.
  apply (several_files_are_not_deleted (scripted quiet) (scripted_files twins true)
           (VBool true) (VBool false) [(KStr "file_name", VStr "one.mp4")]
           [VObj 1; VObj 2] at_rest).
  - reflexivity.
  - reflexivity.
  - cbn. lia.
Defined.

(** X22.  When [file_delete] goes on to delete (one file matches, or
    [delete_all] is given), the file manager is asked to delete the matched
    files one by one in their order, each once and with the caller's
    [delete_from_download_dir], up to the first deletion that fails.  A
    response is [True] after all of them, and [False] when nothing
    matched. *)
Theorem matched_files_are_deleted_in_order
    {W num : Type} (C : collaborators W num) (F : file_services W)
    (delete_from_download_dir delete_all : pyval) (kwargs : dict) (files : list pyval)
    (s : daemon W) :
  fst (_get_lbry_files_with F (VBool false) kwargs s) = Reply files ->
  (List.length files <= 1)%nat \/ truthy delete_all = true ->
  match jsonrpc_file_delete C F delete_from_download_dir delete_all kwargs s with
  | (r, s') =>
      exists n,
        List.filter (called "file_manager.delete_lbry_file") (d_trace s')
        = (List.filter (called "file_manager.delete_lbry_file") (d_trace s)
           ++ map (deletion delete_from_download_dir) (firstn n files))%list
        /\ (forall x, r = Reply x ->
                      n = List.length files
                      /\ List.filter (called "_render_response") (d_trace s')
                         = (List.filter (called "_render_response") (d_trace s)
                            ++ [Call "_render_response"
                                     [VBool (0 <? List.length files)%nat]])%list)
  end.
Proof.
  intros Hfiles Hgo. apply get_lbry_files_with_run in Hfiles.
  unfold jsonrpc_file_delete. rewrite (hbind_yielded_reply F _ _ s s files Hfiles).
  assert (Hrefuse : (1 <? List.length files)%nat && negb (truthy delete_all) = false).
  { destruct Hgo as [Hone|Hall]; [|rewrite Hall; apply andb_false_r].
    replace (1 <? List.length files)%nat with false; [reflexivity|].
    symmetry. apply Nat.ltb_ge. exact Hone. }
  rewrite Hrefuse.
  set (s0 := Daemon (d_world s) (meanwhile F (d_world s) (streams s)) (d_trace s)).
  unfold hbind at 1.
  assert (Hwarned : exists s1,
             (if (1 <? List.length files)%nat
              then hemit (Log Warning (format F "Deleting %i files"
                                              [VInt (Z.of_nat (List.length files))]))
              else hret tt) s0 = (Reply tt, s1)
             /\ List.filter (called "file_manager.delete_lbry_file") (d_trace s1)
                = List.filter (called "file_manager.delete_lbry_file") (d_trace s)
             /\ List.filter (called "_render_response") (d_trace s1)
                = List.filter (called "_render_response") (d_trace s)).
  { destruct (1 <? List.length files)%nat; eexists; (split; [reflexivity|]);
      cbn [d_trace s0]; rewrite ?List.filter_app; cbn; rewrite ?app_nil_r;
      split; reflexivity. }
  destruct Hwarned as [s1 [-> [Hdel1 Hren1]]].
  unfold hbind at 1.
  destruct files as [|lbry_file rest].
  - unfold hbind at 1, hemit. cbn [hret d_world streams d_trace].
    unfold yielded, hbind at 1, hcall. cbn [d_world streams d_trace].
    destruct (render_response C (VBool false) (d_world s1)) as [[rendered|e] w1];
      unfold hbind, resumed, hret; cbn [of_outcome d_trace d_world streams];
      exists 0%nat; cbn [firstn map List.length Nat.ltb Nat.leb];
      rewrite !List.filter_app; cbn [List.filter called String.eqb Ascii.eqb Bool.eqb];
      rewrite !app_nil_r; (split; [exact Hdel1|]).
    + intros x _. split; [reflexivity|]. rewrite Hren1. reflexivity.
    + intros x Hx. discriminate Hx.
  - unfold hbind at 1.
    pose proof (delete_files_calls F delete_from_download_dir (lbry_file :: rest) s1)
      as Hcalls.
    pose proof (hsilent_delete_files F (called "_render_response") delete_from_download_dir
                  (lbry_file :: rest) (fun _ => eq_refl) (fun _ _ => eq_refl) s1) as Hquiet.
    destruct (delete_files F (lbry_file :: rest) delete_from_download_dir s1) as [[[]|e] s2];
      cbn [snd] in Hquiet; destruct Hcalls as [n [Hcalls Hn]].
    + cbn [hret]. unfold yielded, hbind at 1, hcall.
      destruct (render_response C (VBool true) (d_world s2)) as [[rendered|e] w1];
        unfold hbind, resumed, hret; cbn [of_outcome d_trace d_world streams];
        exists n; cbn [List.length Nat.ltb Nat.leb];
        rewrite !List.filter_app; cbn [List.filter called String.eqb Ascii.eqb Bool.eqb];
        rewrite !app_nil_r; (split; [rewrite Hcalls, Hdel1; reflexivity|]).
      * intros x _. split; [exact (Hn tt eq_refl)|]. rewrite Hquiet, Hren1. reflexivity.
      * intros x Hx. discriminate Hx.
    + exists n. split; [rewrite Hcalls, Hdel1; reflexivity|].
      intros x Hx. discriminate Hx.
Qed.

Lemma matched_files_are_deleted_in_order_witness :
  match jsonrpc_file_delete (scripted quiet) (scripted_files twins true) (VBool true)
          (VBool true) [(KStr "file_name", VStr "one.mp4")] at_rest with
  | (r, s') =>
      exists n,
        List.filter (called "file_manager.delete_lbry_file") (d_trace s')
        = (List.filter (called "file_manager.delete_lbry_file") (d_trace at_rest)
           ++ map (deletion (VBool true)) (firstn n [VObj 1; VObj 2]))%list
        /\ (forall x, r = Reply x ->
                      n = List.length [VObj 1; VObj 2]
                      /\ List.filter (called "_render_response") (d_trace s')
                         = (List.filter (called "_render_response") (d_trace at_rest)
                            ++ [Call "_render_response"
                                     [VBool (0 <? List.length [VObj 1; VObj 2])%nat]])%list)
  end.
Proof.
  apply (matched_files_are_deleted_in_order (scripted quiet) (scripted_files twins true)
           (VBool true) (VBool true) [(KStr "file_name", VStr "one.mp4")]
           [VObj 1; VObj 2] at_rest).
  - reflexivity.
  - right. reflexivity.
Defined.

Section ForgetFacts.
Context {W num : Type} (C : collaborators W num) (F : file_services W).
Hypothesis registry_left_alone : forall w registry, meanwhile F w registry = registry.

Lemma forget_session_cases (lbry_file : pyval) (s : daemon W) :
  match forget_session F lbry_file s with
  | (r, s1) =>
      (forall k, streams s !! k = None -> streams s1 !! k = None)
      /\ (forall x h, r = Reply x ->
                      (forall w, getattr F lbry_file "sd_hash" w = Ok (VStr h)) ->
                      streams s1 !! h = None)
  end.
Proof.
  unfold forget_session, hbind at 1, attribute at 1, hread.
  destruct (getattr F lbry_file "sd_hash" (d_world s)) as [sd_hash|e] eqn:Hattr;
    cbn [of_outcome]; [|split; [auto|intros x h Hx; discriminate Hx]].
  destruct sd_hash as [ |b|n|h0|xs|xs|d|e|r|d];
    try (cbn [hret hfail hraise]; split;
         [auto|intros x h Hx Hh; try discriminate Hx;
               rewrite Hh in Hattr; discriminate Hattr]).
  unfold hbind at 1, streams_contains.
  destruct (bool_decide (is_Some (streams s !! h0))) eqn:Hwaiting.
  - unfold hbind, attribute, hread. rewrite Hattr. cbn [of_outcome].
    unfold streams_del.
    destruct (streams s !! h0) as [stream|] eqn:Hstream.
    + cbn [streams]. split.
      * intros k Hk. destruct (decide (h0 = k)) as [->|Hne];
          [apply lookup_delete_eq|rewrite lookup_delete_ne by exact Hne; exact Hk].
      * intros x h _ Hh. rewrite Hh in Hattr. injection Hattr as <-.
        apply lookup_delete_eq.
    + split; [auto|intros x h Hx; discriminate Hx].
  - cbn [hret]. split; [auto|].
    intros x h _ Hh. rewrite Hh in Hattr. injection Hattr as <-.
    apply bool_decide_eq_false in Hwaiting.
    destruct (streams s !! h) eqn:Hstream; [|reflexivity].
    exfalso. apply Hwaiting. eexists. reflexivity.
Qed.

Lemma delete_files_forgets (delete_from_download_dir : pyval) (lbry_files : list pyval) :
  forall s,
    match delete_files F lbry_files delete_from_download_dir s with
    | (r, s') =>
        (forall k, streams s !! k = None -> streams s' !! k = None)
        /\ (forall x lbry_file h,
              r = Reply x -> In lbry_file lbry_files ->
              (forall w, getattr F lbry_file "sd_hash" w = Ok (VStr h)) ->
              streams s' !! h = None)
    end.
Proof.
  induction lbry_files as [|lbry_file rest IH]; intros s.
  - cbn. split; [auto|intros x f h _ []].
  - cbn [delete_files].
    unfold hbind at 1, attribute at 1, hread.
    destruct (getattr F lbry_file "file_name" (d_world s)) as [file_name|e];
      cbn [of_outcome]; [|split; [auto|intros x f h Hx; discriminate Hx]].
    unfold hbind at 1, attribute at 1, hread.
    destruct (getattr F lbry_file "stream_hash" (d_world s)) as [stream_hash|e];
      cbn [of_outcome]; [|split; [auto|intros x f h Hx; discriminate Hx]].
    unfold hbind at 1.
    pose proof (forget_session_cases lbry_file s) as Hforget.
    destruct (forget_session F lbry_file s) as [[[]|e] s1];
      destruct Hforget as [Hshrink Hgone];
      [|split; [exact Hshrink|intros x f h Hx; discriminate Hx]].
    unfold hbind at 1, yielded, hbind at 1, hcall.
    destruct (delete_lbry_file F lbry_file delete_from_download_dir (d_world s1))
      as [[deleted|e] w2]; cbn [of_outcome];
      [|split; [exact Hshrink|intros x f h Hx; discriminate Hx]].
    unfold hbind at 1, resumed. cbn [hret d_world streams d_trace].
    unfold hbind at 1, hemit. cbn [d_world streams d_trace].
    rewrite registry_left_alone.
    match goal with
    | |- context [delete_files F rest delete_from_download_dir ?s3] =>
        specialize (IH s3);
        destruct (delete_files F rest delete_from_download_dir s3) as [r s']
    end.
    cbn [streams] in IH. destruct IH as [Hshrink' Hgone'].
    split; [intros k Hk; apply Hshrink', Hshrink, Hk|].
    intros x f h Hx [<-|Hin] Hh.
    + apply Hshrink'. exact (Hgone tt h eq_refl Hh).
    + exact (Hgone' x f h Hx Hin Hh).
Qed.

End ForgetFacts.

(** X23.  A deleted file leaves no session behind: when [file_delete]
    responds, the registry of waiting sessions has no entry for the
    descriptor hash of any file it matched, provided no other task touches
    the registry meanwhile. *)
Theorem deleted_file_leaves_no_session
    {W num : Type} (C : collaborators W num) (F : file_services W)
    (delete_from_download_dir delete_all : pyval) (kwargs : dict) (files : list pyval)
    (lbry_file : pyval) (sd_hash : string) (s : daemon W) :
  (forall w registry, meanwhile F w registry = registry) ->
  fst (_get_lbry_files_with F (VBool false) kwargs s) = Reply files ->
  (List.length files <= 1)%nat \/ truthy delete_all = true ->
  In lbry_file files ->
  (forall w, getattr F lbry_file "sd_hash" w = Ok (VStr sd_hash)) ->
  match jsonrpc_file_delete C F delete_from_download_dir delete_all kwargs s with
  | (Reply _, s') => streams s' !! sd_hash = None
  | (Fail _, _) => True
  end.
Proof.
  intros Halone Hfiles Hgo Hin Hattr. apply get_lbry_files_with_run in Hfiles.
  unfold jsonrpc_file_delete. rewrite (hbind_yielded_reply F _ _ s s files Hfiles).
  assert (Hrefuse : (1 <? List.length files)%nat && negb (truthy delete_all) = false).
  { destruct Hgo as [Hone|Hall]; [|rewrite Hall; apply andb_false_r].
    replace (1 <? List.length files)%nat with false; [reflexivity|].
    symmetry. apply Nat.ltb_ge. exact Hone. }
  rewrite Hrefuse, Halone.
  unfold hbind at 1.
  assert (Hwarned : exists trace1,
             (if (1 <? List.length files)%nat
              then hemit (Log Warning (format F "Deleting %i files"
                                              [VInt (Z.of_nat (List.length files))]))
              else hret tt) (Daemon (d_world s) (streams s) (d_trace s))
             = (Reply tt, Daemon (d_world s) (streams s) trace1)).
  { destruct (1 <? List.length files)%nat; eexists; reflexivity. }
  destruct Hwarned as [trace1 ->].
  unfold hbind at 1.
  destruct files as [|first rest]; [destruct Hin|].
  unfold hbind at 1.
  pose proof (delete_files_forgets F Halone delete_from_download_dir (first :: rest)
                (Daemon (d_world s) (streams s) trace1)) as Hforgets.
  destruct (delete_files F (first :: rest) delete_from_download_dir
              (Daemon (d_world s) (streams s) trace1)) as [[[]|e] s2]; [|exact I].
  destruct Hforgets as [_ Hgone]. specialize (Hgone tt lbry_file sd_hash eq_refl Hin Hattr).
  cbn [hret]. unfold yielded, hbind at 1, hcall.
  destruct (render_response C (VBool true) (d_world s2)) as [[rendered|e] w1];
    cbn [of_outcome]; [|exact I].
  unfold hbind, resumed, hret. cbn [d_world streams d_trace].
  rewrite Halone. exact Hgone.
Qed.

Lemma deleted_file_leaves_no_session_witness :
  fst (jsonrpc_file_delete (scripted quiet) (scripted_files two_files true) (VBool false)
         (VBool false) [(KStr "sd_hash", VStr "sd1")] with_session) = Reply (VBool true)
  /\ streams (snd (jsonrpc_file_delete (scripted quiet) (scripted_files two_files true)
                     (VBool false) (VBool false) [(KStr "sd_hash", VStr "sd1")]
                     with_session)) !! "sd1" = None.
Proof.
  split; [vm_compute; reflexivity|].
  pose proof (deleted_file_leaves_no_session (scripted quiet)
                (scripted_files two_files true) (VBool false) (VBool false)
                [(KStr "sd_hash", VStr "sd1")] [VObj 1] (VObj 1) "sd1" with_session
                (fun _ _ => eq_refl) eq_refl (or_introl (le_n 1)) (or_introl eq_refl)
                (fun _ => eq_refl)) as H.
  destruct (jsonrpc_file_delete (scripted quiet) (scripted_files two_files true)
              (VBool false) (VBool false) [(KStr "sd_hash", VStr "sd1")] with_session)
    as [[x|e] s'] eqn:Hrun.
  - exact H.
  - vm_compute in Hrun. discriminate Hrun.
Defined.

(** ** Starting and stopping a file *)

Lemma get_lbry_file_run
    {W : Type} (F : file_services W) (search_by val full_status found : pyval)
    (s : daemon W) :
  fst (_get_lbry_file F search_by val (VBool false) full_status s) = Reply found ->
  _get_lbry_file F search_by val (VBool false) full_status s = (Reply found, s).
Proof.
  intros Hfound.
  pose proof (get_lbry_file_cases F search_by val (VBool false) full_status s eq_refl)
    as Hcases.
  destruct (_get_lbry_file F search_by val (VBool false) full_status s) as [[x|e] s1];
    cbn [fst] in Hfound; [|discriminate Hfound].
  destruct Hcases as [-> _]. congruence.
Qed.

(** X24.  [file_set_status] asks the file manager to toggle the file
    it found exactly when the file is not yet in the requested state: on
    [start] when it is stopped, on [stop] when it is not.  The message of
    the response says which of the four cases it was. *)
Theorem status_is_toggled_only_when_it_differs
    {W num : Type} (C : collaborators W num) (F : file_services W)
    (status : pyval) (kwargs : dict) (search_type value lbry_file stopped : pyval)
    (s : daemon W) :
  status = VStr "start" \/ status = VStr "stop" ->
  get_lbry_file_search_value (format F) kwargs = Reply (search_type, value) ->
  fst (_get_lbry_file F search_type value (VBool false) (VBool false) s) = Reply lbry_file ->
  truthy lbry_file = true ->
  getattr F lbry_file "stopped" (d_world s) = Ok stopped ->
  let starting := py_eq status (VStr "start") in
  let toggles := if starting then truthy stopped else negb (truthy stopped) in
  let msg := if starting
             then (if toggles then "Started downloading file"
                   else "File was already being downloaded")
             else (if toggles then "Stopped downloading file"
                   else "File was already stopped") in
  match jsonrpc_file_set_status C F status kwargs s with
  | (r, s') =>
      List.filter (called "file_manager.toggle_lbry_file_running") (d_trace s')
      = (List.filter (called "file_manager.toggle_lbry_file_running") (d_trace s)
         ++ if toggles then [Call "file_manager.toggle_lbry_file_running" [lbry_file]]
            else [])%list
      /\ (forall x, r = Reply x ->
                    List.filter (called "_render_response") (d_trace s')
                    = (List.filter (called "_render_response") (d_trace s)
                       ++ [Call "_render_response" [VStr msg]])%list)
  end.
Proof.
  intros Hstatus Hsearch Hfile Htruthy Hstopped starting toggles msg.
  apply get_lbry_file_run in Hfile.
  unfold jsonrpc_file_set_status.
  assert (Hin : negb (py_in status [VStr "start"; VStr "stop"]) = false).
  { destruct Hstatus as [->| ->]; reflexivity. }
  rewrite Hin. unfold hbind at 1, hreply. rewrite Hsearch.
  rewrite (hbind_yielded_reply F _ _ s s lbry_file Hfile).
  rewrite Htruthy. cbn [negb].
  set (s0 := Daemon (d_world s) (meanwhile F (d_world s) (streams s)) (d_trace s)).
  unfold hbind at 1.
  assert (Hdecided :
            (if py_eq status (VStr "start")
             then hbind (attribute F lbry_file "stopped")
                        (fun stopped =>
                           if truthy stopped then hret true
                           else if py_eq status (VStr "stop")
                                then hbind (attribute F lbry_file "stopped")
                                           (fun stopped => hret (negb (truthy stopped)))
                                else hret false)
             else if py_eq status (VStr "stop")
                  then hbind (attribute F lbry_file "stopped")
                             (fun stopped => hret (negb (truthy stopped)))
                  else hret false) s0 = (Reply toggles, s0)).
  { subst toggles starting.
    destruct Hstatus as [->| ->]; cbn [py_eq String.eqb Ascii.eqb Bool.eqb];
      unfold hbind, attribute, hread; cbn [d_world s0]; rewrite Hstopped;
      cbn [of_outcome hret]; [destruct (truthy stopped)|]; reflexivity. }
  rewrite Hdecided. clear Hdecided.
  unfold hbind at 1.
  fold starting. subst msg. destruct toggles.
  - unfold hbind at 1, yielded, hbind at 1, hcall.
    destruct (toggle_lbry_file_running F lbry_file (d_world s0)) as [[toggled|e] w1];
      cbn [of_outcome].
    + unfold hbind at 1, resumed. cbn [hret d_world streams d_trace].
      unfold hbind at 1, hcall. cbn [d_world streams d_trace].
      match goal with
      | |- context [render_response C ?m w1] =>
          destruct (render_response C m w1) as [[rendered|e] w2]
      end; unfold hbind, resumed, hret; cbn [of_outcome d_world streams d_trace];
        rewrite !List.filter_app; cbn [List.filter called String.eqb Ascii.eqb Bool.eqb];
        rewrite ?app_nil_r; (split; [reflexivity|]).
      * intros x _. destruct starting; reflexivity.
      * intros x Hx. discriminate Hx.
    + cbn [d_trace]. rewrite !List.filter_app.
      cbn [List.filter called String.eqb Ascii.eqb Bool.eqb].
      split; [reflexivity|intros x Hx; discriminate Hx].
  - cbn [hret]. unfold yielded, hbind at 1, hcall.
    match goal with
    | |- context [render_response C ?m (d_world s0)] =>
        destruct (render_response C m (d_world s0)) as [[rendered|e] w2]
    end; unfold hbind, resumed, hret; cbn [of_outcome d_world streams d_trace s0];
      rewrite !List.filter_app; cbn [List.filter called String.eqb Ascii.eqb Bool.eqb];
      rewrite ?app_nil_r; (split; [reflexivity|]).
    + intros x _. destruct starting; reflexivity.
    + intros x Hx. discriminate Hx.
Qed.

Lemma status_is_toggled_only_when_it_differs_witness :
  match jsonrpc_file_set_status (scripted quiet) (scripted_files two_files true)
          (VStr "start") [(KStr "sd_hash", VStr "sd1")] at_rest with
  | (r, s') =>
      List.filter (called "file_manager.toggle_lbry_file_running") (d_trace s')
      = [Call "file_manager.toggle_lbry_file_running" [VObj 1]]
      /\ (forall x, r = Reply x ->
                    List.filter (called "_render_response") (d_trace s')
                    = [Call "_render_response" [VStr "Started downloading file"]])
  end.
Proof.
  apply (status_is_toggled_only_when_it_differs (scripted quiet)
           (scripted_files two_files true) (VStr "start") [(KStr "sd_hash", VStr "sd1")]
           (VStr "sd_hash") (VStr "sd1") (VObj 1) (VBool true) at_rest).
  - left. reflexivity.
  - reflexivity.
  - reflexivity.
  - reflexivity.
  - reflexivity.
Defined.

(** ** The dictionary of a file *)






(** ** Resolution of several URIs *)

Section ResolveFacts.
Context {W num : Type} (C : collaborators W num) (U : uri_services W)
        (S : wallet_services W).

Lemma valid_uris_cases (uris : list string) :
  (forall u e, In u uris -> parse_lbry_uri U u = Raise e ->
               isinstance e URIParseError = true) ->
  forall results valid,
    exists results',
      valid_uris U uris results valid
      = Ok (results', (valid ++ List.filter (parses U) uris)%list)
      /\ forall u, dict_lookup results' (KStr u)
                   = if existsb (String.eqb u) uris && negb (parses U u)
                     then Some (not_valid_entry u)
                     else dict_lookup results (KStr u).
Proof.
  induction uris as [|u0 uris IH]; intros Hparse results valid.
  - exists results. cbn. rewrite app_nil_r. split; reflexivity.
  - cbn [valid_uris List.filter]. unfold parses at 1.
    destruct (parse_lbry_uri U u0) as [parsed|e] eqn:Hu0.
    + destruct (IH (fun u e Hin => Hparse u e (or_intror Hin)) results (valid ++ [u0])%list)
        as [results' [Hrun Hlookup]].
      exists results'. rewrite Hrun, <- app_assoc. split; [reflexivity|].
      intros u. rewrite Hlookup. cbn [existsb].
      destruct (String.eqb_spec u u0) as [->|Hne]; [|reflexivity].
      unfold parses at 2. rewrite Hu0. cbn [negb orb].
      unfold parses. rewrite Hu0. rewrite andb_false_r. reflexivity.
    + rewrite (Hparse u0 e (or_introl eq_refl) Hu0).
      destruct (IH (fun u e Hin => Hparse u e (or_intror Hin))
                  (dict_set results (KStr u0) (not_valid_entry u0)) valid)
        as [results' [Hrun Hlookup]].
      exists results'. split; [exact Hrun|].
      intros u. rewrite Hlookup, dict_lookup_set. cbn [existsb pykey_eqb].
      rewrite (String.eqb_sym u0 u).
      destruct (String.eqb_spec u u0) as [->|Hne]; [|reflexivity].
      unfold parses. rewrite Hu0. cbn [negb orb andb].
      destruct (existsb (String.eqb u0) uris); reflexivity.
Qed.

Lemma copy_entries_dict (d : dict) (items : dict) :
  (forall kv, In kv items -> dict_lookup d (fst kv) <> None) ->
  forall results,
    exists results',
      copy_entries (VDict d) (map (fun kv => key_value (fst kv)) items) results = Ok results'
      /\ forall k, dict_lookup results' k
                   = if existsb (pykey_eqb k) (map fst items) then dict_lookup d k
                     else dict_lookup results k.
Proof.
  induction items as [|[k0 v0] items IH]; intros Hkeys results.
  - exists results. split; reflexivity.
  - cbn [map fst copy_entries].
    assert (Hitem : exists v, dict_lookup d k0 = Some v).
    { destruct (dict_lookup d k0) as [v|] eqn:Hk0; [exists v; reflexivity|].
      exfalso. exact (Hkeys (k0, v0) (or_introl eq_refl) Hk0). }
    destruct Hitem as [v Hv].
    assert (Hread : py_getitem_value (VDict d) (key_value k0) = Ok v
                    /\ as_key (key_value k0) = Some k0).
    { destruct k0; cbn; rewrite Hv; split; reflexivity. }
    destruct Hread as [-> ->]. cbn [obind].
    destruct (IH (fun kv Hin => Hkeys kv (or_intror Hin)) (dict_set results k0 v))
      as [results' [Hrun Hlookup]].
    exists results'. split; [exact Hrun|].
    intros k. rewrite Hlookup, dict_lookup_set. cbn [existsb].
    rewrite (pykey_eqb_sym k0 k).
    destruct (pykey_eqb k k0) eqn:Hk; cbn [orb]; [|reflexivity].
    apply pykey_eqb_eq in Hk. subst k.
    destruct (existsb (pykey_eqb k0) (map fst items)); congruence.
Qed.

Lemma dict_keys_present (d : dict) :
  forall kv, In kv d -> dict_lookup d (fst kv) <> None.
Proof.
  induction d as [|[k0 v0] d IH]; intros kv []; cbn [dict_lookup].
  - subst kv. cbn [fst]. rewrite pykey_eqb_refl. discriminate.
  - destruct (pykey_eqb k0 (fst kv)); [discriminate|]. apply IH. assumption.
Qed.

Lemma dict_lookup_key (d : dict) (k : pykey) :
  existsb (pykey_eqb k) (map fst d) = false -> dict_lookup d k = None.
Proof.
  induction d as [|[k0 v0] d IH]; [reflexivity|].
  cbn [map fst existsb dict_lookup]. rewrite (pykey_eqb_sym k0 k).
  destruct (pykey_eqb k k0); [discriminate|exact IH].
Qed.

End ResolveFacts.

(** X26.  [resolve] hands the wallet the URIs that parse, in their
    order and in one call, and no other.  In the response a URI has the
    wallet's entry when the wallet gave one; a URI that does not parse has
    the entry "... is not a valid uri" otherwise; nothing else is in
    it. *)
Theorem resolve_asks_for_the_valid_uris
    {W num : Type} (C : collaborators W num) (U : uri_services W) (S : wallet_services W)
    (force : pyval) (uri : option string) (uris : list string) (answer : dict)
    (w1 : W) (s : state W) :
  let all := (uris ++ option_to_list uri)%list in
  (forall u e, In u all -> parse_lbry_uri U u = Raise e ->
               isinstance e URIParseError = true) ->
  resolve S (List.filter (parses U) all) (VInt 0) (VInt 10) (world s)
  = (Ok (VDict answer), w1) ->
  match jsonrpc_resolve C U S force uri uris s with
  | (r, s') =>
      List.filter (called "wallet.resolve") (trace s')
      = (List.filter (called "wallet.resolve") (trace s)
         ++ [Call "wallet.resolve"
                  (map VStr (List.filter (parses U) all) ++ [VInt 0; VInt 10])])%list
      /\ exists results,
           List.filter (called "_render_response") (trace s')
           = (List.filter (called "_render_response") (trace s)
              ++ [Call "_render_response" [VDict results]])%list
           /\ forall u,
                dict_lookup results (KStr u)
                = match dict_lookup answer (KStr u) with
                  | Some entry => Some entry
                  | None =>
                      if existsb (String.eqb u) all && negb (parses U u)
                      then Some (not_valid_entry u)
                      else None
                  end
  end.
Proof.
  intros all Hparse Hanswer. unfold jsonrpc_resolve. fold all.
  destruct (valid_uris_cases U all Hparse [] []) as [results0 [Hvalid Hlookup0]].
  cbn [app] in Hvalid.
  unfold bind at 1, lift at 1. rewrite Hvalid. cbn [fst snd].
  unfold bind at 1, _resolve_uris, bind at 1, call at 1. rewrite Hanswer.
  unfold bind at 1, lift at 1. cbn [py_values].
  unfold bind at 1.
  pose proof (silent_save_claims C (called "wallet.resolve") (map snd answer)
                (fun _ => eq_refl)
                (State w1 (trace s ++ [Call "wallet.resolve"
                                            (map VStr (List.filter (parses U) all)
                                             ++ [VInt 0; VInt 10])]))) as Hwallet.
  pose proof (silent_save_claims C (called "_render_response") (map snd answer)
                (fun _ => eq_refl)
                (State w1 (trace s ++ [Call "wallet.resolve"
                                            (map VStr (List.filter (parses U) all)
                                             ++ [VInt 0; VInt 10])]))) as Hrender.
  assert (Hsaved : exists s2,
             save_claims C (map snd answer)
               (State w1 (trace s ++ [Call "wallet.resolve"
                                           (map VStr (List.filter (parses U) all)
                                            ++ [VInt 0; VInt 10])]))
             = (Ok tt, s2)).
  { unfold save_claims. destruct (claims_to_save (map snd answer) []);
      eexists; reflexivity. }
  destruct Hsaved as [s2 Hsaved]. rewrite Hsaved in Hwallet, Hrender |- *.
  cbn [snd trace] in Hwallet, Hrender. cbn [ret].
  unfold bind at 1, lift at 1. cbn [py_iter].
  destruct (copy_entries_dict answer answer (dict_keys_present answer) results0)
    as [results [Hcopy Hlookup]].
  unfold bind at 1, lift at 1. rewrite Hcopy.
  unfold call. destruct (render_response C (VDict results) (world s2)) as [r w3].
  cbn [trace]. rewrite !List.filter_app, Hwallet, Hrender, !List.filter_app.
  cbn [List.filter called String.eqb Ascii.eqb Bool.eqb]. rewrite !app_nil_r.
  split; [reflexivity|]. exists results. split; [reflexivity|].
  intros u. rewrite Hlookup, Hlookup0.
  destruct (existsb (pykey_eqb (KStr u)) (map fst answer)) eqn:Hkey.
  - destruct (dict_lookup answer (KStr u)) as [entry|] eqn:Hentry; [reflexivity|].
    exfalso. clear - Hkey Hentry.
    induction answer as [|[k0 v0] answer IH]; [discriminate|].
    cbn [map fst existsb dict_lookup] in *. rewrite (pykey_eqb_sym k0) in Hentry.
    destruct (pykey_eqb (KStr u) k0); [discriminate|]. exact (IH Hkey Hentry).
  - rewrite (dict_lookup_key answer (KStr u) Hkey). reflexivity.
Qed.

Lemma resolve_asks_for_the_valid_uris_witness :
  List.filter (called "wallet.resolve")
    (trace (snd (jsonrpc_resolve (scripted quiet) scripted_uris scripted_wallet (VBool false)
                   (Some "one") ["two"; "not valid"] start_state)))
  = [Call "wallet.resolve" [VStr "two"; VStr "one"; VInt 0; VInt 10]].
Proof.
  pose proof (resolve_asks_for_the_valid_uris (scripted quiet) scripted_uris scripted_wallet
                (VBool false) (Some "one") ["two"; "not valid"]
                [(KStr "two", VDict [(KStr "claim", VDict [(KStr "name", VStr "two")])]);
                 (KStr "one", VDict [(KStr "claim", VDict [(KStr "name", VStr "one")])])]
                0%nat start_state) as H.
  cbn zeta in H.
  assert (Hparse : forall u e,
             In u (["two"; "not valid"] ++ option_to_list (Some "one"))%list ->
             parse_lbry_uri scripted_uris u = Raise e ->
             isinstance e URIParseError = true).
  { intros u e [<-|[<-|[<-|[]]]] He; vm_compute in He; try discriminate He.
    injection He as <-. reflexivity. }
  specialize (H Hparse eq_refl).
  destruct (jsonrpc_resolve (scripted quiet) scripted_uris scripted_wallet (VBool false)
              (Some "one") ["two"; "not valid"] start_state) as [r s'].
  destruct H as [Hcalls _]. exact Hcalls.
Defined.

Section ChannelFacts.
Context {W num : Type} (C : collaborators W num) (U : uri_services W)
        (S : wallet_services W) (format : string -> list pyval -> string).

Lemma channel_uris_cases (uris : list string) :
  (forall u e, In u uris -> parse_lbry_uri U u = Raise e ->
               isinstance e URIParseError = true) ->
  forall results valid,
    exists results',
      channel_uris U format uris results valid
      = Ok (results', (valid ++ List.filter (names_channel U) uris)%list)
      /\ forall u, dict_lookup results' (KStr u)
                   = if existsb (String.eqb u) uris
                     then match channel_rejection U format u with
                          | Some entry => Some entry
                          | None => dict_lookup results (KStr u)
                          end
                     else dict_lookup results (KStr u).
Proof.
  induction uris as [|u0 uris IH]; intros Hparse results valid.
  - exists results. cbn. rewrite app_nil_r. split; reflexivity.
  - cbn [channel_uris List.filter]. unfold names_channel at 1.
    assert (Hstep : forall results1 valid1,
               (forall u, dict_lookup results1 (KStr u)
                          = if String.eqb u u0
                            then match channel_rejection U format u0 with
                                 | Some entry => Some entry
                                 | None => dict_lookup results (KStr u)
                                 end
                            else dict_lookup results (KStr u)) ->
               exists results',
                 channel_uris U format uris results1 valid1
                 = Ok (results', (valid1 ++ List.filter (names_channel U) uris)%list)
                 /\ forall u, dict_lookup results' (KStr u)
                              = if existsb (String.eqb u) (u0 :: uris)
                                then match channel_rejection U format u with
                                     | Some entry => Some entry
                                     | None => dict_lookup results (KStr u)
                                     end
                                else dict_lookup results (KStr u)).
    { intros results1 valid1 Hresults1.
      destruct (IH (fun u e Hin => Hparse u e (or_intror Hin)) results1 valid1)
        as [results' [Hrun Hlookup]].
      exists results'. split; [exact Hrun|].
      intros u. rewrite Hlookup, Hresults1. cbn [existsb].
      destruct (String.eqb_spec u u0) as [->|Hne]; cbn [orb]; [|reflexivity].
      destruct (existsb (String.eqb u0) uris); [|reflexivity].
      destruct (channel_rejection U format u0); reflexivity. }
    destruct (parse_lbry_uri U u0) as [parsed|e] eqn:Hu0.
    + destruct (uri_is_channel parsed) eqn:Hchannel; cbn [negb andb].
      * destruct (truthy (uri_path parsed)) eqn:Hpath; cbn [negb].
        -- apply Hstep. intros u. rewrite dict_lookup_set. cbn [pykey_eqb].
           rewrite (String.eqb_sym u0 u). unfold channel_rejection.
           rewrite Hu0, Hchannel, Hpath. cbn [negb].
           destruct (String.eqb u u0); reflexivity.
        -- destruct (Hstep results (valid ++ [u0])%list) as [results' [Hrun Hlookup]].
           { intros u. unfold channel_rejection. rewrite Hu0, Hchannel, Hpath. cbn [negb].
             destruct (String.eqb u u0); reflexivity. }
           exists results'. rewrite Hrun, <- app_assoc. split; [reflexivity|exact Hlookup].
      * apply Hstep. intros u. rewrite dict_lookup_set. cbn [pykey_eqb].
        rewrite (String.eqb_sym u0 u). unfold channel_rejection.
        rewrite Hu0, Hchannel. cbn [negb].
        destruct (String.eqb u u0); reflexivity.
    + rewrite (Hparse u0 e (or_introl eq_refl) Hu0).
      apply Hstep. intros u. rewrite dict_lookup_set. cbn [pykey_eqb].
      rewrite (String.eqb_sym u0 u). unfold channel_rejection. rewrite Hu0.
      destruct (String.eqb u u0); reflexivity.
Qed.

Lemma channel_entries_other (page resolved : pyval) (keys : list pyval) (k : pykey) :
  (forall key, In key keys -> as_key key <> Some k) ->
  forall results results',
    channel_entries page resolved keys results = Ok results' ->
    dict_lookup results' k = dict_lookup results k.
Proof.
  induction keys as [|key keys IH]; intros Hkeys results results' Hrun.
  - cbn in Hrun. congruence.
  - cbn [channel_entries] in Hrun.
    destruct (py_getitem_value resolved key) as [entry|e]; [|discriminate Hrun].
    cbn [obind] in Hrun.
    destruct (channel_entry page entry) as [shown|e]; [|discriminate Hrun].
    cbn [obind] in Hrun.
    destruct (as_key key) as [key'|] eqn:Hkey; [|discriminate Hrun].
    rewrite (IH (fun key0 Hin => Hkeys key0 (or_intror Hin)) _ _ Hrun).
    rewrite dict_lookup_set.
    rewrite pykey_eqb_neq; [reflexivity|].
    intros ->. exact (Hkeys key (or_introl eq_refl) Hkey).
Qed.

End ChannelFacts.

(** X27.  [claim_list_by_channel] hands the wallet, in one call and
    with the caller's page and page size, the URIs that name a channel
    without a path, and no other.  In the response each of the other URIs
    the wallet said nothing about has its reason: it does not parse, it is
    not a channel, or it is a claim in a channel. *)
Theorem claim_list_asks_for_channels_only
    {W num : Type} (C : collaborators W num) (U : uri_services W) (S : wallet_services W)
    (format : string -> list pyval -> string)
    (page page_size : pyval) (uri : option string) (uris : list string) (answer : dict)
    (w1 : W) (s : state W) :
  let all := (uris ++ option_to_list uri)%list in
  (forall u e, In u all -> parse_lbry_uri U u = Raise e ->
               isinstance e URIParseError = true) ->
  resolve S (List.filter (names_channel U) all) page page_size (world s)
  = (Ok (VDict answer), w1) ->
  match jsonrpc_claim_list_by_channel C U S format page page_size uri uris s with
  | (r, s') =>
      List.filter (called "wallet.resolve") (trace s')
      = (List.filter (called "wallet.resolve") (trace s)
         ++ [Call "wallet.resolve"
                  (map VStr (List.filter (names_channel U) all) ++ [page; page_size])])%list
      /\ forall x, r = Ok x ->
           exists results,
             List.filter (called "_render_response") (trace s')
             = (List.filter (called "_render_response") (trace s)
                ++ [Call "_render_response" [VDict results]])%list
             /\ forall u,
                  dict_lookup answer (KStr u) = None ->
                  dict_lookup results (KStr u)
                  = if existsb (String.eqb u) all then channel_rejection U format u
                    else None
  end.
Proof.
  intros all Hparse Hanswer. unfold jsonrpc_claim_list_by_channel. fold all.
  destruct (channel_uris_cases U format all Hparse [] []) as [results0 [Hvalid Hlookup0]].
  cbn [app] in Hvalid.
  unfold bind at 1, lift at 1. rewrite Hvalid. cbn [fst snd].
  unfold bind at 1, _resolve_uris, bind at 1, call at 1. rewrite Hanswer.
  unfold bind at 1, lift at 1. cbn [py_values].
  unfold bind at 1.
  set (s1 := State w1 (trace s ++ [Call "wallet.resolve"
                                        (map VStr (List.filter (names_channel U) all)
                                         ++ [page; page_size])])).
  pose proof (silent_save_claims C (called "wallet.resolve") (map snd answer)
                (fun _ => eq_refl) s1) as Hwallet.
  pose proof (silent_save_claims C (called "_render_response") (map snd answer)
                (fun _ => eq_refl) s1) as Hrender.
  assert (Hsaved : exists s2, save_claims C (map snd answer) s1 = (Ok tt, s2)).
  { unfold save_claims. destruct (claims_to_save (map snd answer) []);
      eexists; reflexivity. }
  destruct Hsaved as [s2 Hsaved]. rewrite Hsaved in Hwallet, Hrender |- *.
  cbn [snd trace s1] in Hwallet, Hrender. cbn [ret].
  rewrite List.filter_app in Hwallet, Hrender.
  cbn [List.filter called String.eqb Ascii.eqb Bool.eqb] in Hwallet, Hrender.
  rewrite app_nil_r in Hrender.
  unfold bind at 1, lift at 1. cbn [py_iter].
  unfold bind at 1, lift at 1.
  destruct (channel_entries page (VDict answer)
              (map (fun kv => key_value (fst kv)) answer) results0)
    as [results|e] eqn:Hentries.
  - unfold call. destruct (render_response C (VDict results) (world s2)) as [r w3].
    cbn [trace]. rewrite !List.filter_app, Hwallet, Hrender.
    cbn [List.filter called String.eqb Ascii.eqb Bool.eqb]. rewrite !app_nil_r.
    split; [reflexivity|]. intros x _. exists results. split; [reflexivity|].
    intros u Hu.
    rewrite (channel_entries_other page (VDict answer) _ (KStr u)) with (2 := Hentries).
    + rewrite Hlookup0. cbn [dict_lookup].
      destruct (existsb (String.eqb u) all); [|reflexivity].
      destruct (channel_rejection U format u); reflexivity.
    + intros key Hin Hkey. apply in_map_iff in Hin as [[k0 v0] [<- Hin]].
      cbn [fst] in Hkey.
      assert (k0 = KStr u) by (destruct k0; cbn in Hkey; congruence). subst k0.
      exact (dict_keys_present answer (KStr u, v0) Hin Hu).
  - rewrite Hwallet. split; [reflexivity|]. intros x Hx. discriminate Hx.
Qed.

Lemma claim_list_asks_for_channels_only_witness :
  List.filter (called "wallet.resolve")
    (trace (snd (jsonrpc_claim_list_by_channel (scripted quiet) scripted_uris scripted_wallet
                   template_only (VInt 2) (VInt 10) (Some "@chan")
                   ["one"; "@chan/claim"; "not valid"] start_state)))
  = [Call "wallet.resolve" [VStr "@chan"; VInt 2; VInt 10]].
Proof.
  pose proof (claim_list_asks_for_channels_only (scripted quiet) scripted_uris
                scripted_wallet template_only (VInt 2) (VInt 10) (Some "@chan")
                ["one"; "@chan/claim"; "not valid"]
                [(KStr "@chan",
                  VDict [(KStr "certificate", VDict [(KStr "name", VStr "@chan")]);
                         (KStr "claims_in_channel", VList [VStr "claim1"; VStr "claim2"])])]
                0%nat start_state) as H.
  cbn zeta in H.
  assert (Hparse : forall u e,
             In u (["one"; "@chan/claim"; "not valid"] ++ option_to_list (Some "@chan"))%list ->
             parse_lbry_uri scripted_uris u = Raise e ->
             isinstance e URIParseError = true).
  { intros u e [<-|[<-|[<-|[<-|[]]]]] He; vm_compute in He; try discriminate He.
    injection He as <-. reflexivity. }
  specialize (H Hparse eq_refl).
  destruct (jsonrpc_claim_list_by_channel (scripted quiet) scripted_uris scripted_wallet
              template_only (VInt 2) (VInt 10) (Some "@chan")
              ["one"; "@chan/claim"; "not valid"] start_state) as [r s'].
  destruct H as [Hcalls _]. exact Hcalls.
Defined.

(** ** Blobs of a stream *)

Section BlobFacts.
Context {W num : Type} (C : collaborators W num) (S : wallet_services W).

Lemma verified_blobs_kept (wanted : bool) (blobs kept : list pyval) (w : W) :
  verified_blobs S wanted blobs w = Ok kept ->
  Forall (fun blob => get_is_verified S blob w = Ok wanted) kept.
Proof.
  revert kept. induction blobs as [|blob blobs IH]; intros kept Hkept.
  - cbn in Hkept. injection Hkept as <-. constructor.
  - cbn [verified_blobs] in Hkept.
    destruct (get_is_verified S blob w) as [verified|e] eqn:Hblob; [|discriminate Hkept].
    cbn [obind] in Hkept.
    destruct (verified_blobs S wanted blobs w) as [others|e]; [|discriminate Hkept].
    cbn [obind] in Hkept. injection Hkept as <-.
    destruct (Bool.eqb verified wanted) eqn:Heq; [|exact (IH others eq_refl)].
    apply Bool.eqb_prop in Heq. subst verified.
    constructor; [exact Hblob|exact (IH others eq_refl)].
Qed.

Lemma verified_blobs_none (wanted : bool) (blobs : list pyval) (w : W) :
  Forall (fun blob => get_is_verified S blob w = Ok (negb wanted)) blobs ->
  verified_blobs S wanted blobs w = Ok [].
Proof.
  induction 1 as [|blob blobs Hblob _ IH]; [reflexivity|].
  cbn [verified_blobs]. rewrite Hblob, IH. cbn [obind].
  destruct wanted; reflexivity.
Qed.

Lemma silent_get_blobs (p : event -> bool) (crypt_blobs : list (pyval * pyval)) :
  (forall args, p (Call "blob_manager.get_blob" args) = false) ->
  silent p (get_blobs S crypt_blobs).
Proof.
  intros Hp. induction crypt_blobs as [|[blob_hash length] rest IH]; [apply silent_ret|].
  cbn [get_blobs]. destruct (is_not_None blob_hash); [|exact IH].
  apply silent_bind; [apply silent_call, Hp|intros d].
  apply silent_bind; [exact IH|intros others; apply silent_ret].
Qed.

Lemma silent_stream_blobs (uri : option string) (stream_hash sd_hash : pyval) :
  silent (called "_render_response") (stream_blobs C S uri stream_hash sd_hash).
Proof.
  unfold stream_blobs.
  apply silent_bind.
  { destruct uri as [u|].
    - destruct (negb (String.eqb u EmptyString)).
      + apply silent_bind; [apply silent_resolve; reflexivity|intros resolved].
        silence.
      + silence.
    - silence. }
  intros [stream_hash' sd_hash'].
  apply silent_bind.
  { destruct (truthy stream_hash'); [|apply silent_ret].
    apply silent_bind; [apply silent_call; reflexivity|intros crypt_blobs].
    apply silent_bind; [apply silent_get_blobs; reflexivity|intros deferreds].
    apply silent_call. reflexivity. }
  intros blobs.
  apply silent_bind; [intros s; reflexivity|intros held; apply silent_ret].
Qed.

End BlobFacts.

(** X28.  [blob_list] with both [needed] and [finished] lists
    nothing: the blobs that are not verified are kept first and the
    verified ones among those second, so whenever a response is given it is
    the empty list, whatever the stream, the page and the page size. *)
Theorem needed_and_finished_blobs_are_none
    {W num : Type} (C : collaborators W num) (S : wallet_services W)
    (uri : option string) (stream_hash sd_hash needed finished page_size page : pyval)
    (s : state W) :
  truthy needed = true ->
  truthy finished = true ->
  match jsonrpc_blob_list C S uri stream_hash sd_hash needed finished page_size page s with
  | (r, s') =>
      forall x, r = Ok x ->
                List.filter (called "_render_response") (trace s')
                = (List.filter (called "_render_response") (trace s)
                   ++ [Call "_render_response" [VList []]])%list
  end.
Proof.
  intros Hneeded Hfinished. unfold jsonrpc_blob_list. rewrite Hneeded, Hfinished.
  unfold bind at 1.
  match goal with
  | |- context [(if ?c then ?a else ?b) s] =>
      assert (Hfirst : List.filter (called "_render_response")
                         (trace (snd ((if c then a else b) s)))
                       = List.filter (called "_render_response") (trace s))
        by (destruct c; [apply silent_stream_blobs|reflexivity]);
      destruct ((if c then a else b) s) as [[blobs|e] s1]
  end; [|intros x Hx; discriminate Hx].
  cbn [snd] in Hfirst.
  unfold bind at 1.
  destruct (verified_blobs S false blobs (world s1)) as [unverified|e] eqn:Hunverified;
    [|intros x Hx; discriminate Hx].
  unfold bind at 1.
  rewrite (verified_blobs_none S true unverified (world s1)
             (verified_blobs_kept S false blobs unverified (world s1) Hunverified)).
  unfold bind at 1. cbn [hashes_of].
  unfold bind at 1, lift at 1.
  destruct (blob_page [] page_size page) as [hashes|e] eqn:Hpage;
    [|intros x Hx; discriminate Hx].
  assert (hashes = []) as ->.
  { unfold blob_page in Hpage.
    destruct (as_int (py_or page (VInt 0))); [|discriminate Hpage].
    destruct (as_int (py_or page_size (VInt (Z.of_nat (List.length (@nil pyval))))));
      [|discriminate Hpage].
    injection Hpage as <-. unfold py_slice. rewrite skipn_nil. apply firstn_nil. }
  unfold call. destruct (render_response C (VList []) (world s1)) as [r w2].
  intros x _. cbn [trace]. rewrite List.filter_app, Hfirst. reflexivity.
Qed.

Lemma needed_and_finished_blobs_are_none_witness :
  fst (jsonrpc_blob_list (scripted quiet) scripted_wallet None (VStr "stream1") VNone
         (VBool true) (VBool true) VNone VNone start_state) = Ok (VList [])
  /\ List.filter (called "_render_response")
       (trace (snd (jsonrpc_blob_list (scripted quiet) scripted_wallet None (VStr "stream1")
                      VNone (VBool true) (VBool true) VNone VNone start_state)))
     = [Call "_render_response" [VList []]].
Proof.
  split; [vm_compute; reflexivity|].
  pose proof (needed_and_finished_blobs_are_none (scripted quiet) scripted_wallet None
                (VStr "stream1") VNone (VBool true) (VBool true) VNone VNone start_state
                eq_refl eq_refl) as H.
  destruct (jsonrpc_blob_list (scripted quiet) scripted_wallet None (VStr "stream1") VNone
              (VBool true) (VBool true) VNone VNone start_state) as [[x|e] s'] eqn:Hrun.
  - exact (H x eq_refl).
  - vm_compute in Hrun. discriminate Hrun.
Defined.

(** ** Listing files *)

(** X29.  [file_list] responds with the dictionaries of the matched
    files, each of them once: sorting rearranges them and neither drops
    nor repeats one, whatever the sort fields and whatever the comparison
    of their values answers, and without [sort] they are in the order of
    the file manager. *)
Theorem file_list_renders_every_file
    {W num : Type} (C : collaborators W num) (F : file_services W)
    (sort : pyval) (kwargs : dict) (dicts : list pyval) (s s1 : daemon W) :
  _get_lbry_files_with F (VBool true) kwargs s = (Reply dicts, s1) ->
  match jsonrpc_file_list C F sort kwargs s with
  | (r, s') =>
      forall x, r = Reply x ->
        exists result,
          Permutation dicts result
          /\ (truthy sort = false -> result = dicts)
          /\ List.filter (called "_render_response") (d_trace s')
             = (List.filter (called "_render_response") (d_trace s1)
                ++ [Call "_render_response" [VList result]])%list
  end.
Proof.
  intros Hrun. unfold jsonrpc_file_list.
  rewrite (hbind_yielded_reply F _ _ s s1 dicts Hrun).
  set (s2 := Daemon (d_world s1) (meanwhile F (d_world s1) (streams s1)) (d_trace s1)).
  unfold hbind at 1.
  assert (Hsorted : exists r,
             (if truthy sort
              then hbind (hlift (py_iter sort))
                         (fun sorts =>
                            hbind (hlift (parse_sorts sorts))
                                  (fun sort_by =>
                                     hlift (_sort_lbry_files (less_than F) dicts sort_by)))
              else hret dicts) s2 = (r, s2)
             /\ forall result, r = Reply result ->
                               Permutation dicts result
                               /\ (truthy sort = false -> result = dicts)).
  { destruct (truthy sort).
    - unfold hbind, hlift.
      destruct (py_iter sort) as [sorts|e]; cbn [of_outcome];
        [|eexists; split; [reflexivity|intros result Hr; discriminate Hr]].
      destruct (parse_sorts sorts) as [sort_by|e]; cbn [of_outcome];
        [|eexists; split; [reflexivity|intros result Hr; discriminate Hr]].
      destruct (_sort_lbry_files (less_than F) dicts sort_by) as [sorted_dicts|e] eqn:Hsort;
        cbn [of_outcome];
        [|eexists; split; [reflexivity|intros result Hr; discriminate Hr]].
      eexists. split; [reflexivity|]. intros result Hr. injection Hr as <-.
      split; [|discriminate].
      exact (sort_lbry_files_permutation (less_than F) sort_by dicts sorted_dicts Hsort).
    - eexists. split; [reflexivity|]. intros result Hr. injection Hr as <-.
      split; [reflexivity|reflexivity]. }
  destruct Hsorted as [[result|e] [-> Hresult]]; [|intros x Hx; discriminate Hx].
  destruct (Hresult result eq_refl) as [Hperm Hsame].
  unfold yielded, hbind at 1, hcall.
  destruct (render_response C (VList result) (d_world s2)) as [[rendered|e] w3];
    cbn [of_outcome]; [|intros x Hx; discriminate Hx].
  unfold hbind, resumed, hret. cbn [d_world streams d_trace s2].
  intros x _. exists result. split; [exact Hperm|]. split; [exact Hsame|].
  rewrite List.filter_app. reflexivity.
Qed.

Lemma file_list_renders_every_file_witness :
  exists dicts s1,
    _get_lbry_files_with (scripted_files two_files true) (VBool true) [] at_rest
    = (Reply dicts, s1)
    /\ List.length dicts = 2%nat
    /\ match jsonrpc_file_list (scripted quiet) (scripted_files two_files true)
               (VList [VStr "file_name, desc"]) [] at_rest with
       | (r, s') =>
           forall x, r = Reply x ->
             exists result,
               Permutation dicts result
               /\ (truthy (VList [VStr "file_name, desc"]) = false -> result = dicts)
               /\ List.filter (called "_render_response") (d_trace s')
                  = (List.filter (called "_render_response") (d_trace s1)
                     ++ [Call "_render_response" [VList result]])%list
       end.
Proof.
  destruct (_get_lbry_files_with (scripted_files two_files true) (VBool true) [] at_rest)
    as [[dicts|e] s1] eqn:Hrun; [|vm_compute in Hrun; discriminate Hrun].
  exists dicts, s1. split; [reflexivity|]. split.
  - vm_compute in Hrun. injection Hrun as <- _. reflexivity.
  - exact (file_list_renders_every_file (scripted quiet) (scripted_files two_files true)
             (VList [VStr "file_name, desc"]) [] dicts at_rest s1 Hrun).
Defined.
